(** * Reply pipelines of viral-kid: Reddit and YouTube run handlers

    A shallow embedding of the two [POST] run handlers
    ([api/reddit/run] and [api/youtube/run]) together with the YouTube
    client library they call, followed by the properties of the
    eligibility filter, candidate selection, token refresh, reply
    truncation, retention and HTTP outcome that the specification states.

    The other handlers of the same files (the YouTube disconnect route,
    the page guard and the YouTube scheduler, which calls the YouTube
    run handler) are embedded after the sample worlds, and their
    properties follow those of the run handlers.

    Conventions of the embedding:
    - a JavaScript string is a [string]; each [ascii] stands for one
      UTF-16 code unit, so [String.length] is the JavaScript [.length];
    - integral numbers (upvotes, likes, timestamps in milliseconds) are [Z];
    - [T | null] is [option T]; JavaScript truthiness of such a value is
      written out ([truthy]);
    - [async] code is a state-and-exception monad over the persistent
      store; the outside world (clock, HTTP peers, session, storage
      outages) is a read-only environment. *)

From stdpp Require Import gmap strings list pretty.
From Stdlib Require Import ZArith Lia Ascii String Sorting.Sorted.

Local Open Scope string_scope.
Local Open Scope Z_scope.

(** ** JavaScript primitives *)

Module Js.

(** [!!x] for [x : string | null | undefined]. *)
Definition truthy (x : option string) : bool :=
  match x with
  | Some s => negb (String.eqb s EmptyString)
  | None => false
  end.

(** [x || d] for a nullable string [x]. *)
Definition or_else (x : option string) (d : string) : string :=
  match x with
  | Some s => if String.eqb s EmptyString then d else s
  | None => d
  end.

(** The value of a string already tested to be truthy. *)
Definition the (x : option string) : string := or_else x EmptyString.

(** [n || d] for [n : number | null]: [null] and [0] are falsy. *)
Definition num_or (n : option Z) (d : Z) : Z :=
  match n with
  | Some v => if v =? 0 then d else v
  | None => d
  end.

(** [n ?? d] for [n : number | undefined]. *)
Definition nullish (n : option Z) (d : Z) : Z :=
  match n with Some v => v | None => d end.

(** [s.slice(0, n)]. *)
Fixpoint slice0 (n : nat) (s : string) : string :=
  match n, s with
  | S k, String a r => String a (slice0 k r)
  | _, _ => EmptyString
  end.

(** White space and line terminators in the 8-bit range. *)
Definition is_ws (a : ascii) : bool :=
  let n := nat_of_ascii a in
  ((9 <=? n)%nat && (n <=? 13)%nat) || (n =? 32)%nat || (n =? 160)%nat.

Fixpoint trimStart (s : string) : string :=
  match s with
  | String a r => if is_ws a then trimStart r else s
  | EmptyString => EmptyString
  end.

Fixpoint trimEnd (s : string) : string :=
  match s with
  | String a r =>
      let r' := trimEnd r in
      if is_ws a && String.eqb r' EmptyString then EmptyString else String a r'
  | EmptyString => EmptyString
  end.

(** [s.trim()]. *)
Definition trim (s : string) : string := trimEnd (trimStart s).

(** [s.split(",")] for a one-character separator. *)
Fixpoint split (sep : ascii) (s : string) : list string :=
  match s with
  | EmptyString => [EmptyString]
  | String a r =>
      if Ascii.eqb a sep then EmptyString :: split sep r
      else match split sep r with
           | h :: t => String a h :: t
           | [] => [String a EmptyString]
           end
  end.

(** [xs.join(sep)]. *)
Definition join (sep : string) (xs : list string) : string :=
  String.concat sep xs.

(** [Array.prototype.sort(cmp)]: a stable sort; [x] is placed before
    the first [y] with [cmp x y <= 0], so equal elements keep their
    original relative order. *)
Section Sort.
Context {A : Type} (cmp : A -> A -> Z).

Fixpoint insert (x : A) (l : list A) : list A :=
  match l with
  | [] => [x]
  | y :: ys => if cmp x y <=? 0 then x :: y :: ys else y :: insert x ys
  end.

Definition sort (l : list A) : list A := foldr insert [] l.
End Sort.

End Js.

(** ** Platform data *)

(** [RedditPost] of the Reddit run handler. *)
Record RedditPost := {
  id : string;
  name : string;
  title : string;
  selftext : string;
  author : string;
  subreddit : string;
  url : string;
  permalink : string;
  ups : Z;
  num_comments : Z;
  created_utc : Z;
}.

(** [YouTubeComment] and [YouTubeVideo] of the YouTube client. *)
Record YouTubeComment := {
  commentId : string;
  videoId : string;
  videoTitle : string;
  userComment : string;
  authorName : string;
  authorChannelId : string;
  likeCount : Z;
  publishedAt : Z;
}.

Record YouTubeVideo := {
  v_videoId : string;
  v_title : string;
}.

(** ** The persistent store

    The Prisma schema is not part of the sources at hand; the tables
    carry the columns the handlers read and write.  The identifier and
    the [createdAt] of a row are given by the database when the row is
    created; both are taken from the environment ([new_id],
    [new_createdAt]). *)

Inductive Level := info | warning | error | success.

#[global] Instance Level_eq_dec : EqDecision Level.
Proof. solve_decision. Defined.

Record Log := {
  log_accountId : string;
  level : Level;
  message : string;
}.

Record RedditCredentials := {
  r_clientId : string;
  r_clientSecret : string;
  r_accessToken : option string;
  r_refreshToken : option string;
  r_tokenExpiresAt : option Z;
  r_username : option string;
}.

Record RedditConfiguration := {
  keywords : option string;
  timeRange : option string;
  minimumUpvotes : option Z;
}.

Record YouTubeCredentials := {
  y_clientId : string;
  y_clientSecret : string;
  y_accessToken : option string;
  y_refreshToken : option string;
  y_tokenExpiresAt : option Z;
  y_channelId : option string;
}.

Record YouTubeConfiguration := {
  minimumLikesCount : option Z;
}.

Record OpenRouterCredentials := {
  apiKey : option string;
  selectedModel : option string;
  systemPrompt : option string;
  noHashtags : bool;
  noEmojis : bool;
  noCapitalization : bool;
  badGrammar : bool;
}.

Record Account := {
  a_id : string;
  userId : string;
  redditCredentials : option RedditCredentials;
  redditConfig : option RedditConfiguration;
  youtubeCredentials : option YouTubeCredentials;
  youtubeConfig : option YouTubeConfiguration;
  openRouterCredentials : option OpenRouterCredentials;
}.

Record RedditInteraction := {
  ri_id : string;
  ri_accountId : string;
  postId : string;
  ri_subreddit : string;
  postTitle : string;
  postAuthor : string;
  postUrl : string;
  upvotes : Z;
  commentCount : Z;
  ourComment : string;
  ourCommentId : string;
  ri_repliedAt : Z;
  ri_createdAt : Z;
}.

Record YouTubeCommentInteraction := {
  yi_id : string;
  yi_accountId : string;
  yi_commentId : string;
  yi_videoId : string;
  yi_videoTitle : string;
  yi_userComment : string;
  yi_authorName : string;
  yi_authorChannelId : string;
  yi_likeCount : Z;
  ourReply : option string;
  ourReplyId : option string;
  yi_repliedAt : Z;
  yi_createdAt : Z;
}.

(** ** Network peers *)

(** What [await fetch(...)] followed by [response.ok] / [.json()] /
    [.text()] observes. *)
Inductive Http (A : Type) :=
| Rejected (reason : string)            (* fetch itself throws *)
| NotOk (status : Z) (text : string)    (* !response.ok *)
| OkJson (data : A).                    (* response.ok, parsed body *)
Arguments Rejected {A} reason.
Arguments NotOk {A} status text.
Arguments OkJson {A} data.

(** The part of a chat completion the handlers look at:
    [data.choices?.[0]?.message?.content] and [JSON.stringify(data)]. *)
Record ChatData := {
  content : option string;
  stringify : string;
}.

Record TokenData := {
  access_token : string;
  expires_in : Z;
  refresh_token : option string;
}.

(** One item of a [commentThreads] answer. *)
Record Thread := {
  t_id : string;
  textDisplay : string;
  authorDisplayName : string;
  t_authorChannelId : option string;
  t_likeCount : option Z;
  t_publishedAt : Z;
}.

(** The requests the handlers send, in the order of the fields of the
    source's [fetch] calls. *)
Inductive Call :=
| RedditToken (clientId clientSecret refresh_token : string)
| RedditSearch (accessToken q t limit : string)
| RedditComment (accessToken thing_id text : string)
| OpenRouterChat (apiKey model system user : string)
| GoogleToken (clientId clientSecret refresh_token : string)
| YouTubeChannels (accessToken : string)
| YouTubePlaylistItems (accessToken playlistId : string) (maxResults : Z)
| YouTubeCommentThreads (accessToken videoId : string) (maxResults : Z)
| YouTubeCommentInsert (accessToken parentId textOriginal : string).

Definition is_token_call (c : Call) : bool :=
  match c with
  | RedditToken _ _ _ | GoogleToken _ _ _ => true
  | _ => false
  end.

(** The read calls of the content fetchers. *)
Definition is_fetch_call (c : Call) : bool :=
  match c with
  | RedditSearch _ _ _ _ | YouTubeChannels _
  | YouTubePlaylistItems _ _ _ | YouTubeCommentThreads _ _ _ => true
  | _ => false
  end.

Record Peers := {
  reddit_token : string -> string -> string -> Http TokenData;
  reddit_search : string -> string -> string -> string -> Http (list RedditPost);
  reddit_comment : string -> string -> string -> Http (option string);
  openrouter_chat : string -> string -> string -> string -> Http ChatData;
  google_token : string -> string -> string -> Http TokenData;
  youtube_channels : string -> Http (option string);
  youtube_playlistItems : string -> string -> Z -> Http (list YouTubeVideo);
  youtube_commentThreads : string -> string -> Z -> Http (list Thread);
  youtube_comment_insert : string -> string -> string -> Http string;
}.

(** ** The world a handler runs in *)

Inductive DbOp :=
| LogCreate
| AccountFind
| CredentialsUpdate
| InteractionFindMany
| InteractionUpsert
| InteractionDeleteMany.

#[global] Instance DbOp_eq_dec : EqDecision DbOp.
Proof. solve_decision. Defined.

(** Read-only surroundings of one run. *)
Record Env := {
  now : Z;                               (* Date.now() *)
  CRON_SECRET : option string;           (* process.env.CRON_SECRET *)
  session_user_id : option string;       (* (await auth())?.user?.id *)
  new_id : string;                       (* identifier given to a created row *)
  new_createdAt : Z;                     (* creation time given to a created row *)
  storage_down : DbOp -> bool;           (* operations that throw *)
  peers : Peers;
}.

(** What a run can change: the tables, and the requests sent so far
    (oldest first). *)
Record State := {
  accounts : list Account;
  redditInteractions : list RedditInteraction;
  youTubeCommentInteractions : list YouTubeCommentInteraction;
  logs : list Log;
  calls : list Call;
}.

(** ** Asynchronous code: state and exceptions *)

Record Exn := JsError { e_message : string }.

Inductive Result (A : Type) :=
| Ok (a : A)
| Throw (e : Exn).
Arguments Ok {A} a.
Arguments Throw {A} e.

Definition M (A : Type) : Type := Env -> State -> Result A * State.

Definition ret {A} (a : A) : M A := fun _ s => (Ok a, s).

Definition throw {A} (msg : string) : M A := fun _ s => (Throw (JsError msg), s).

Definition bind {A B} (m : M A) (k : A -> M B) : M B :=
  fun env s =>
    match m env s with
    | (Ok a, s') => k a env s'
    | (Throw e, s') => (Throw e, s')
    end.

Declare Scope async_scope.
Delimit Scope async_scope with async.
Notation "'let*' x ':=' m 'in' k" := (bind m (fun x => k))
  (at level 10, x name, m at level 100, k at level 200) : async_scope.
Notation "m ';;' k" := (bind m (fun _ => k))
  (at level 100, k at level 200, right associativity) : async_scope.
Local Open Scope async_scope.

(** [try { m } catch (e) { h e }]. *)
Definition try_catch {A} (m : M A) (h : Exn -> M A) : M A :=
  fun env s =>
    match m env s with
    | (Ok a, s') => (Ok a, s')
    | (Throw e, s') => h e env s'
    end.

(** The outcome of a [try] block as a value, for the handlers' pattern
    [try { x = await f() } catch (error) { ...; return ... }]. *)
Definition attempt {A} (m : M A) : M (Result A) :=
  fun env s =>
    match m env s with
    | (r, s') => (Ok r, s')
    end.

Definition ask : M Env := fun env s => (Ok env, s).
Definition get : M State := fun _ s => (Ok s, s).
Definition put (s : State) : M unit := fun _ _ => (Ok tt, s).

(** A storage operation either throws or goes ahead. *)
Definition storage (op : DbOp) : M unit :=
  fun env s =>
    if storage_down env op then (Throw (JsError "storage unavailable"), s)
    else (Ok tt, s).

Definition add_call (c : Call) (s : State) : State :=
  {| accounts := accounts s;
     redditInteractions := redditInteractions s;
     youTubeCommentInteractions := youTubeCommentInteractions s;
     logs := logs s;
     calls := calls s ++ [c] |}.

Definition add_log (l : Log) (s : State) : State :=
  {| accounts := accounts s;
     redditInteractions := redditInteractions s;
     youTubeCommentInteractions := youTubeCommentInteractions s;
     logs := logs s ++ [l];
     calls := calls s |}.

(** [await fetch(...)]: the request is sent, the peer answers. *)
Definition fetch {A} (c : Call) (answer : Peers -> Http A) : M (Http A) :=
  fun env s =>
    match answer (peers env) with
    | Rejected reason => (Throw (JsError reason), add_call c s)
    | r => (Ok r, add_call c s)
    end.

(** [createLog]: one row appended to the log table. *)
Definition createLog (accountId : string) (lvl : Level) (msg : string) : M unit :=
  storage LogCreate;;
  let* s := get in
  put (add_log {| log_accountId := accountId; level := lvl; message := msg |} s).

(** ** HTTP side of a handler *)

Record Body := {
  json_accountId : option string;
}.

Record Request := {
  request_json : option Body;            (* None: the body is not JSON *)
  x_cron_secret : option string;         (* headers.get("x-cron-secret") *)
}.

(** The JSON bodies the handlers answer with; [NotReplied] is
    [{ replied: false, message }] and the two [Replied] shapes carry
    [replied: true]. *)
Inductive ResponseBody :=
| ErrorBody (error : string)
| NotReplied (message : string)
| RepliedReddit (repliedTo postTitle comment : string)
| RepliedYouTube (repliedTo commentId videoTitle replyId reply : string).

Record Response := {
  status : Z;
  body : ResponseBody;
}.

(** [NextResponse.json(body, { status })]; the status defaults to 200. *)
Definition json (b : ResponseBody) (st : Z) : M Response :=
  ret {| status := st; body := b |}.

Definition replied (b : ResponseBody) : option bool :=
  match b with
  | ErrorBody _ => None
  | NotReplied _ => Some false
  | RepliedReddit _ _ _ | RepliedYouTube _ _ _ _ _ => Some true
  end.

Definition dq : string := String "034"%char EmptyString.
Definition nl : string := String "010"%char EmptyString.

(** Row updates used by the handlers' [update] and [deleteMany] calls. *)
Definition set_accounts (f : list Account -> list Account) : M unit :=
  let* s := get in
  put {| accounts := f (accounts s);
         redditInteractions := redditInteractions s;
         youTubeCommentInteractions := youTubeCommentInteractions s;
         logs := logs s;
         calls := calls s |}.

Definition set_redditInteractions
    (f : list RedditInteraction -> list RedditInteraction) : M unit :=
  let* s := get in
  put {| accounts := accounts s;
         redditInteractions := f (redditInteractions s);
         youTubeCommentInteractions := youTubeCommentInteractions s;
         logs := logs s;
         calls := calls s |}.

Definition set_youTubeCommentInteractions
    (f : list YouTubeCommentInteraction -> list YouTubeCommentInteraction) : M unit :=
  let* s := get in
  put {| accounts := accounts s;
         redditInteractions := redditInteractions s;
         youTubeCommentInteractions := f (youTubeCommentInteractions s);
         logs := logs s;
         calls := calls s |}.

(** [orderBy: { createdAt: "desc" }]; rows with equal keys stay in
    table order. *)
Definition orderByDesc {A} (key : A -> Z) (rows : list A) : list A :=
  Js.sort (fun a b => key b - key a) rows.

(** [db.account.findUnique({ where: { id } })]. *)
Definition account_findUnique (accountId : string) : M (option Account) :=
  storage AccountFind;;
  let* s := get in
  ret (List.find (fun a => String.eqb (a_id a) accountId) (accounts s)).

(** [db.account.findFirst({ where: { id, userId } })]. *)
Definition account_findFirst (accountId user : string) : M (option Account) :=
  storage AccountFind;;
  let* s := get in
  ret (List.find (fun a => String.eqb (a_id a) accountId && String.eqb (userId a) user)
         (accounts s)).

(** The style lines both reply generators push. *)
Definition styleInstructions (orc : OpenRouterCredentials) : list string :=
  (if noHashtags orc then ["Do not use hashtags."] else [])
  ++ (if noEmojis orc then ["Do not use emojis."] else [])
  ++ (if noCapitalization orc then ["Use all lowercase letters."] else [])
  ++ (if badGrammar orc then ["Use casual grammar with minor typos."] else []).

(** ** The Reddit run handler ([api/reddit/run]) *)

Module Reddit.

(** The predicate of [posts.filter(...)] that builds [eligiblePosts]. *)
Definition eligible (repliedPostIds : gset string) (minimumUpvotes : option Z)
    (username : option string) (post : RedditPost) : bool :=
  negb (bool_decide (id post ∈ repliedPostIds))
  && (ups post >=? Js.num_or minimumUpvotes 10)
  && negb (bool_decide (Some (author post) = username))
  && negb (String.eqb (author post) "[deleted]").

Definition eligiblePosts (repliedPostIds : gset string) (minimumUpvotes : option Z)
    (username : option string) (posts : list RedditPost) : list RedditPost :=
  List.filter (eligible repliedPostIds minimumUpvotes username) posts.

(** [eligiblePosts.sort((a, b) => b.ups - a.ups)]. *)
Definition sortedPosts (eligible : list RedditPost) : list RedditPost :=
  Js.sort (fun a b => ups b - ups a) eligible.

(** [sortedPosts[0]]. *)
Definition targetPost (eligible : list RedditPost) : option RedditPost :=
  head (sortedPosts eligible).

(** [db.redditCredentials.update({ where: { accountId }, data })] throws
    when the account has no credentials row. *)
Definition refreshTokenIfNeeded (accountId : string)
    (clientId clientSecret accessToken : string)
    (refreshToken : option string) (tokenExpiresAt : option Z) : M string :=
  let* env := ask in
  let fiveMinutesFromNow := now env + 5 * 60 * 1000 in
  if match tokenExpiresAt with
     | Some t => t >? fiveMinutesFromNow
     | None => false
     end
  then ret accessToken
  else if negb (Js.truthy refreshToken)
  then throw "No refresh token available"
  else
    let* response :=
      fetch (RedditToken clientId clientSecret (Js.the refreshToken))
        (fun p => reddit_token p clientId clientSecret (Js.the refreshToken)) in
    match response with
    | OkJson data =>
        let tokenExpiresAt := now env + expires_in data * 1000 in
        storage CredentialsUpdate;;
        let* s := get in
        if existsb (fun a => String.eqb (a_id a) accountId
                             && bool_decide (is_Some (redditCredentials a)))
             (accounts s)
        then
          set_accounts
            (map (fun a =>
               if String.eqb (a_id a) accountId then
                 {| a_id := a_id a; userId := userId a;
                    redditCredentials :=
                      option_map (fun rc =>
                        {| r_clientId := r_clientId rc;
                           r_clientSecret := r_clientSecret rc;
                           r_accessToken := Some (access_token data);
                           r_refreshToken := r_refreshToken rc;
                           r_tokenExpiresAt := Some tokenExpiresAt;
                           r_username := r_username rc |})
                        (redditCredentials a);
                    redditConfig := redditConfig a;
                    youtubeCredentials := youtubeCredentials a;
                    youtubeConfig := youtubeConfig a;
                    openRouterCredentials := openRouterCredentials a |}
               else a));;
          ret (access_token data)
        else throw "Record to update not found."
    | _ => throw "Failed to refresh token"
    end.

Definition searchPosts (accessToken keywords timeRange : string) (limit : Z)
    : M (list RedditPost) :=
  let keywordList :=
    List.filter (fun k => (0 <? String.length k)%nat)
      (map Js.trim (Js.split ","%char keywords)) in
  if (List.length keywordList =? 0)%nat then ret []
  else
    let searchQuery := Js.join " OR " keywordList in
    let* response :=
      fetch (RedditSearch accessToken searchQuery timeRange (pretty limit))
        (fun p => reddit_search p accessToken searchQuery timeRange (pretty limit)) in
    match response with
    | OkJson children => ret children
    | NotOk st _ => throw ("Failed to search posts: " +:+ pretty st)
    | Rejected reason => throw reason
    end.

Definition postComment (accessToken postFullname text : string) : M string :=
  let* response :=
    fetch (RedditComment accessToken postFullname text)
      (fun p => reddit_comment p accessToken postFullname text) in
  match response with
  | OkJson commentName => ret (Js.or_else commentName "unknown")
  | NotOk _ errorText => throw ("Failed to post comment: " +:+ errorText)
  | Rejected reason => throw reason
  end.

Definition generateReplyWithLLM (apiKey model systemPrompt : string)
    (postTitle postBody postAuthor subreddit : string)
    (styleOptions : OpenRouterCredentials) : M string :=
  let fullSystemPrompt :=
    Js.join " "
      ([ (if String.eqb systemPrompt EmptyString
          then "You are a helpful Reddit user who provides thoughtful comments on posts."
          else systemPrompt);
         "Keep your reply concise and relevant (under 500 characters).";
         "Be genuine and add value to the discussion.";
         "Match the tone of the subreddit - some are casual, some are more serious." ]
       ++ styleInstructions styleOptions) in
  let postContent :=
    "Title: " +:+ dq +:+ postTitle +:+ dq
    +:+ (if negb (String.eqb postBody EmptyString)
            && (0 <? String.length (Js.trim postBody))%nat
         then
           let truncatedBody :=
             if (500 <? String.length postBody)%nat
             then Js.slice0 500 postBody +:+ "..."
             else postBody in
           nl +:+ nl +:+ "Post content:" +:+ nl +:+ truncatedBody
         else EmptyString) in
  let user :=
    "Write a comment for this Reddit post in r/" +:+ subreddit +:+ " by u/"
    +:+ postAuthor +:+ ":" +:+ nl +:+ nl +:+ postContent in
  let* response :=
    fetch (OpenRouterChat apiKey model fullSystemPrompt user)
      (fun p => openrouter_chat p apiKey model fullSystemPrompt user) in
  match response with
  | OkJson data =>
      let reply := option_map Js.trim (content data) in
      if negb (Js.truthy reply)
      then throw ("Empty response from LLM. Response: " +:+ stringify data)
      else ret (Js.slice0 500 (Js.the reply))
  | NotOk _ errorText => throw ("OpenRouter error: " +:+ errorText)
  | Rejected reason => throw reason
  end.

(** [db.redditInteraction.upsert] on the key [(accountId, postId)]. *)
Definition interaction_upsert (accountId : string) (targetPost : RedditPost)
    (generatedReply commentId : string) : M unit :=
  storage InteractionUpsert;;
  let* env := ask in
  set_redditInteractions (fun rows =>
    let hit r := String.eqb (ri_accountId r) accountId
                 && String.eqb (postId r) (id targetPost) in
    if existsb hit rows then
      map (fun r =>
        if hit r then
          {| ri_id := ri_id r; ri_accountId := ri_accountId r; postId := postId r;
             ri_subreddit := ri_subreddit r; postTitle := postTitle r;
             postAuthor := postAuthor r; postUrl := postUrl r;
             upvotes := upvotes r; commentCount := commentCount r;
             ourComment := generatedReply; ourCommentId := commentId;
             ri_repliedAt := now env; ri_createdAt := ri_createdAt r |}
        else r) rows
    else
      (rows ++ [ {| ri_id := new_id env; ri_accountId := accountId;
                   postId := id targetPost;
                   ri_subreddit := subreddit targetPost;
                   postTitle := title targetPost;
                   postAuthor := author targetPost;
                   postUrl := "https://reddit.com" +:+ permalink targetPost;
                   upvotes := ups targetPost;
                   commentCount := num_comments targetPost;
                   ourComment := generatedReply; ourCommentId := commentId;
                   ri_repliedAt := now env; ri_createdAt := new_createdAt env |} ])%list).

(** The rows [findMany({ where: { accountId }, orderBy: { createdAt:
    "desc" }, skip: 100 })] returns. *)
Definition oldInteractions (accountId : string) (rows : list RedditInteraction)
    : list RedditInteraction :=
  drop 100 (orderByDesc ri_createdAt
              (List.filter (fun r => String.eqb (ri_accountId r) accountId) rows)).

(** [deleteMany({ where: { id: { in: ids } } })]. *)
Definition deleteMany (ids : list string) (rows : list RedditInteraction)
    : list RedditInteraction :=
  List.filter (fun r => negb (bool_decide (ri_id r ∈ ids))) rows.

(** "Cleanup old interactions (keep last 100)". *)
Definition cleanup (accountId : string) : M unit :=
  storage InteractionFindMany;;
  let* s := get in
  let old := oldInteractions accountId (redditInteractions s) in
  if (0 <? List.length old)%nat then
    storage InteractionDeleteMany;;
    set_redditInteractions (deleteMany (map ri_id old))
  else ret tt.

(** "Store interaction": the last [try] block of the handler and the
    answer that follows it. *)
Definition storeInteraction (accountId : string) (targetPost : RedditPost)
    (generatedReply commentId : string) : M Response :=
  try_catch
    (interaction_upsert accountId targetPost generatedReply commentId;;
     cleanup accountId)
    (fun dbError =>
       createLog accountId warning
         "Comment posted but failed to record in database");;
  json (RepliedReddit (author targetPost) (title targetPost) generatedReply) 200.

(** The handler from "Starting Reddit pipeline" to its last [return],
    for an account that passed the validation of credentials and
    configuration. *)
Definition pipeline (accountId : string) (rc : RedditCredentials)
    (cfg : RedditConfiguration) (orc : OpenRouterCredentials) : M Response :=
  createLog accountId info "Starting Reddit pipeline";;
  let* refreshed :=
    attempt (refreshTokenIfNeeded accountId (r_clientId rc) (r_clientSecret rc)
               (Js.the (r_accessToken rc)) (r_refreshToken rc)
               (r_tokenExpiresAt rc)) in
  match refreshed with
  | Throw e =>
      createLog accountId error ("Token refresh failed: " +:+ e_message e);;
      json (ErrorBody "Failed to refresh token") 401
  | Ok accessToken =>
  let keywords := Js.the (keywords cfg) in
  let timeRange := Js.or_else (timeRange cfg) "day" in
  let* searched :=
    attempt (let* posts := searchPosts accessToken keywords timeRange 25 in
             createLog accountId info
               ("Found " +:+ pretty (List.length posts) +:+ " posts for keywords: "
                +:+ dq +:+ keywords +:+ dq +:+ " (" +:+ timeRange +:+ ")");;
             ret posts) in
  match searched with
  | Throw e =>
      createLog accountId error ("Failed to search posts: " +:+ e_message e);;
      json (ErrorBody "Failed to search posts") 500
  | Ok posts =>
  storage InteractionFindMany;;
  let* s := get in
  let existingInteractions :=
    List.filter (fun r => String.eqb (ri_accountId r) accountId)
      (redditInteractions s) in
  let repliedPostIds : gset string := list_to_set (map postId existingInteractions) in
  let eligiblePosts :=
    eligiblePosts repliedPostIds (minimumUpvotes cfg) (r_username rc) posts in
  if (List.length eligiblePosts =? 0)%nat then
    createLog accountId info
      "No eligible posts found (all already replied or below threshold)";;
    json (NotReplied "No eligible posts found") 200
  else
  match targetPost eligiblePosts with
  | None =>
      createLog accountId info "No eligible posts after sorting";;
      json (NotReplied "No eligible posts found") 200
  | Some targetPost =>
  createLog accountId info
    ("Selected post: " +:+ dq +:+ Js.slice0 50 (title targetPost) +:+ "..." +:+ dq
     +:+ " by u/" +:+ author targetPost +:+ " (" +:+ pretty (ups targetPost)
     +:+ " upvotes)");;
  let* generated :=
    attempt (let* reply :=
               generateReplyWithLLM (Js.the (apiKey orc)) (Js.the (selectedModel orc))
                 (Js.or_else (systemPrompt orc) EmptyString)
                 (title targetPost) (selftext targetPost)
                 (author targetPost) (subreddit targetPost) orc in
             createLog accountId info
               ("Generated reply: " +:+ dq +:+ Js.slice0 50 reply +:+ "..." +:+ dq);;
             ret reply) in
  match generated with
  | Throw e =>
      createLog accountId error ("LLM generation failed: " +:+ e_message e);;
      json (ErrorBody "Failed to generate reply") 500
  | Ok generatedReply =>
  let* posted :=
    attempt (let* commentId :=
               postComment accessToken (name targetPost) generatedReply in
             createLog accountId success
               ("Posted comment on " +:+ dq +:+ Js.slice0 30 (title targetPost)
                +:+ "..." +:+ dq);;
             ret commentId) in
  match posted with
  | Throw e =>
      createLog accountId error ("Failed to post comment: " +:+ e_message e);;
      json (ErrorBody "Failed to post comment") 500
  | Ok commentId =>
      storeInteraction accountId targetPost generatedReply commentId
  end end end end end.

(** "Validate credentials": the four checks before the pipeline. *)
Definition validate (accountId : string) (account : Account) : M Response :=
  match redditCredentials account with
  | Some rc =>
    if Js.truthy (r_accessToken rc) then
      match redditConfig account with
      | Some cfg =>
        if Js.truthy (keywords cfg)
           && negb (String.eqb (Js.trim (Js.the (keywords cfg))) EmptyString)
        then
          match openRouterCredentials account with
          | Some orc =>
            if Js.truthy (apiKey orc) then
              if Js.truthy (selectedModel orc) then
                pipeline accountId rc cfg orc
              else
                createLog accountId error "No LLM model selected";;
                json (ErrorBody "No LLM model selected") 400
            else
              createLog accountId error "OpenRouter API key not configured";;
              json (ErrorBody "OpenRouter API key not configured") 400
          | None =>
              createLog accountId error "OpenRouter API key not configured";;
              json (ErrorBody "OpenRouter API key not configured") 400
          end
        else
          createLog accountId error "No keywords configured";;
          json (ErrorBody "No keywords configured") 400
      | None =>
          createLog accountId error "No keywords configured";;
          json (ErrorBody "No keywords configured") 400
      end
    else
      createLog accountId error "Reddit OAuth not connected";;
      json (ErrorBody "Reddit OAuth not connected") 400
  | None =>
      createLog accountId error "Reddit OAuth not connected";;
      json (ErrorBody "Reddit OAuth not connected") 400
  end.

(** [cronSecret && cronSecret === process.env.CRON_SECRET &&
    process.env.CRON_SECRET], as a condition. *)
Definition isCronCall (env : Env) (request : Request) : bool :=
  Js.truthy (x_cron_secret request)
  && bool_decide (x_cron_secret request = CRON_SECRET env)
  && Js.truthy (CRON_SECRET env).

Definition found (accountId : string) (account : option Account) : M Response :=
  match account with
  | None => json (ErrorBody "Account not found") 404
  | Some account => validate accountId account
  end.

Definition POST (request : Request) : M Response :=
  try_catch
    (match request_json request with
     | None => throw "Unexpected token in JSON"
     | Some body =>
       if negb (Js.truthy (json_accountId body)) then
         json (ErrorBody "accountId is required") 400
       else
         let accountId := Js.the (json_accountId body) in
         let* env := ask in
         if isCronCall env request then
           let* account := account_findUnique accountId in
           found accountId account
         else
           if negb (Js.truthy (session_user_id env)) then
             json (ErrorBody "Unauthorized") 401
           else
             let* account :=
               account_findFirst accountId (Js.the (session_user_id env)) in
             found accountId account
     end)
    (fun error => json (ErrorBody "Pipeline failed") 500).

End Reddit.

(** ** The YouTube client ([lib/youtube/client]) *)

Module YouTubeClient.

(** The value [refreshTokenIfNeeded] resolves to when it is not [null]. *)
Record Tokens := {
  accessToken : string;
  refreshToken : string;
  expiresAt : Z;
}.

Definition refreshTokenIfNeeded (clientId clientSecret : string)
    (accessToken refreshToken : option string) (tokenExpiresAt : option Z)
    : M (option Tokens) :=
  if negb (Js.truthy accessToken) || negb (Js.truthy refreshToken) then ret None
  else
    let* env := ask in
    let fiveMinutesFromNow := now env + 5 * 60 * 1000 in
    let refresh :=
      try_catch
        (let* response :=
           fetch (GoogleToken clientId clientSecret (Js.the refreshToken))
             (fun p => google_token p clientId clientSecret (Js.the refreshToken)) in
         match response with
         | OkJson data =>
             ret (Some {| accessToken := access_token data;
                          refreshToken :=
                            Js.or_else (refresh_token data) (Js.the refreshToken);
                          expiresAt := now env + expires_in data * 1000 |})
         | _ => ret None
         end)
        (fun error => ret None) in
    match tokenExpiresAt with
    | Some expiresAt =>
        if expiresAt >? fiveMinutesFromNow then
          ret (Some {| accessToken := Js.the accessToken;
                       refreshToken := Js.the refreshToken;
                       expiresAt := expiresAt |})
        else refresh
    | None => refresh
    end.

Definition fetchChannelVideos (accessToken : string) (maxResults : Z)
    : M (list YouTubeVideo) :=
  let* channelResponse :=
    fetch (YouTubeChannels accessToken) (fun p => youtube_channels p accessToken) in
  match channelResponse with
  | OkJson uploadsPlaylistId =>
      if negb (Js.truthy uploadsPlaylistId)
      then throw "Could not find uploads playlist"
      else
        let playlistId := Js.the uploadsPlaylistId in
        let* playlistResponse :=
          fetch (YouTubePlaylistItems accessToken playlistId maxResults)
            (fun p => youtube_playlistItems p accessToken playlistId maxResults) in
        match playlistResponse with
        | OkJson items => ret items
        | NotOk st _ => throw ("Failed to fetch playlist: " +:+ pretty st)
        | Rejected reason => throw reason
        end
  | NotOk st _ => throw ("Failed to fetch channel: " +:+ pretty st)
  | Rejected reason => throw reason
  end.

Definition fetchVideoComments (accessToken videoId videoTitle : string)
    (maxResults : Z) : M (list YouTubeComment) :=
  let* response :=
    fetch (YouTubeCommentThreads accessToken videoId maxResults)
      (fun p => youtube_commentThreads p accessToken videoId maxResults) in
  match response with
  | OkJson items =>
      let* env := ask in
      let sevenDaysAgo := now env - 7 * 24 * 60 * 60 * 1000 in
      ret (map (fun t =>
                  {| commentId := t_id t;
                     videoId := videoId;
                     videoTitle := videoTitle;
                     userComment := textDisplay t;
                     authorName := authorDisplayName t;
                     authorChannelId := Js.or_else (t_authorChannelId t) EmptyString;
                     likeCount := Js.num_or (t_likeCount t) 0;
                     publishedAt := t_publishedAt t |})
             (List.filter (fun t => negb (t_publishedAt t <? sevenDaysAgo)) items))
  | NotOk st _ =>
      if st =? 403 then ret []
      else throw ("Failed to fetch comments: " +:+ pretty st)
  | Rejected reason => throw reason
  end.

Definition postCommentReply (accessToken parentCommentId replyText : string)
    : M string :=
  let* response :=
    fetch (YouTubeCommentInsert accessToken parentCommentId replyText)
      (fun p => youtube_comment_insert p accessToken parentCommentId replyText) in
  match response with
  | OkJson replyId => ret replyId
  | NotOk _ errorText => throw ("Failed to post reply: " +:+ errorText)
  | Rejected reason => throw reason
  end.

End YouTubeClient.

(** ** The YouTube run handler ([api/youtube/run]) *)

Module YouTube.
Import YouTubeClient.

(** [comments.filter((c) => c.likeCount >= minimumLikesCount)]. *)
Definition filteredComments (minimumLikesCount : Z)
    (comments : list YouTubeComment) : list YouTubeComment :=
  List.filter (fun c => likeCount c >=? minimumLikesCount) comments.

(** [allComments.filter((c) => !repliedCommentIds.has(c.commentId))]. *)
Definition unrepliedComments (repliedCommentIds : gset string)
    (allComments : list YouTubeComment) : list YouTubeComment :=
  List.filter (fun c => negb (bool_decide (commentId c ∈ repliedCommentIds)))
    allComments.

(** [unrepliedComments.sort((a, b) => b.likeCount - a.likeCount)]. *)
Definition sortedComments (cs : list YouTubeComment) : list YouTubeComment :=
  Js.sort (fun a b => likeCount b - likeCount a) cs.

(** [unrepliedComments[0]] after the sort. *)
Definition bestComment (cs : list YouTubeComment) : option YouTubeComment :=
  head (sortedComments cs).

Definition generateReplyWithLLM (apiKey model systemPrompt : string)
    (commentContent authorName videoTitle : string)
    (styleOptions : OpenRouterCredentials) : M string :=
  let fullSystemPrompt :=
    Js.join " "
      ([ (if String.eqb systemPrompt EmptyString
          then "You are a friendly YouTube creator responding to comments on your videos."
          else systemPrompt);
         "Keep your reply concise and engaging (under 500 characters).";
         "Be appreciative and conversational." ]
       ++ styleInstructions styleOptions) in
  let user :=
    "Write a reply to this YouTube comment from " +:+ authorName
    +:+ " on your video " +:+ dq +:+ videoTitle +:+ dq +:+ ":" +:+ nl +:+ nl
    +:+ dq +:+ commentContent +:+ dq in
  let* response :=
    fetch (OpenRouterChat apiKey model fullSystemPrompt user)
      (fun p => openrouter_chat p apiKey model fullSystemPrompt user) in
  match response with
  | OkJson data =>
      let reply := option_map Js.trim (content data) in
      if negb (Js.truthy reply)
      then throw ("Empty response from LLM. Response: " +:+ stringify data)
      else ret (Js.slice0 500 (Js.the reply))
  | NotOk _ errorText => throw ("OpenRouter error: " +:+ errorText)
  | Rejected reason => throw reason
  end.

(** "Step 3": the loop over the videos; a video whose comments cannot
    be fetched contributes nothing. *)
Fixpoint allComments (accessToken : string) (minimumLikesCount : Z)
    (videos : list YouTubeVideo) : M (list YouTubeComment) :=
  match videos with
  | [] => ret []
  | video :: rest =>
      let* pushed :=
        try_catch
          (let* comments :=
             fetchVideoComments accessToken (v_videoId video) (v_title video) 50 in
           ret (filteredComments minimumLikesCount comments))
          (fun error => ret []) in
      let* more := allComments accessToken minimumLikesCount rest in
      ret (pushed ++ more)%list
  end.

(** [db.youTubeCommentInteraction.upsert] on [(accountId, commentId)]. *)
Definition interaction_upsert (accountId : string) (bestComment : YouTubeComment)
    (generatedReply replyId : string) : M unit :=
  storage InteractionUpsert;;
  let* env := ask in
  set_youTubeCommentInteractions (fun rows =>
    let hit r := String.eqb (yi_accountId r) accountId
                 && String.eqb (yi_commentId r) (commentId bestComment) in
    let written (rowId : string) (createdAt : Z) :=
      {| yi_id := rowId; yi_accountId := accountId;
         yi_commentId := commentId bestComment;
         yi_videoId := videoId bestComment;
         yi_videoTitle := videoTitle bestComment;
         yi_userComment := userComment bestComment;
         yi_authorName := authorName bestComment;
         yi_authorChannelId := authorChannelId bestComment;
         yi_likeCount := likeCount bestComment;
         ourReply := Some generatedReply; ourReplyId := Some replyId;
         yi_repliedAt := now env; yi_createdAt := createdAt |} in
    if existsb hit rows then
      map (fun r => if hit r then written (yi_id r) (yi_createdAt r) else r) rows
    else (rows ++ [written (new_id env) (new_createdAt env)])%list).

(** "Clean up old interactions (older than 14 days)". *)
Definition cleanup (accountId : string) : M unit :=
  let* env := ask in
  let fourteenDaysAgo := now env - 14 * 24 * 60 * 60 * 1000 in
  storage InteractionDeleteMany;;
  set_youTubeCommentInteractions
    (List.filter (fun r =>
       negb (String.eqb (yi_accountId r) accountId
             && (yi_createdAt r <? fourteenDaysAgo)))).

(** "Update tokens in database if refreshed"; the update throws when
    the account has no credentials row. *)
Definition persistTokens (accountId : string) (yc : YouTubeCredentials)
    (tokenResult : Tokens) : M unit :=
  if negb (bool_decide (Some (accessToken tokenResult) = y_accessToken yc)) then
    storage CredentialsUpdate;;
    let* s := get in
    if existsb (fun a => String.eqb (a_id a) accountId
                         && bool_decide (is_Some (youtubeCredentials a)))
         (accounts s)
    then
      set_accounts
        (map (fun a =>
           if String.eqb (a_id a) accountId then
             {| a_id := a_id a; userId := userId a;
                redditCredentials := redditCredentials a;
                redditConfig := redditConfig a;
                youtubeCredentials :=
                  option_map (fun c =>
                    {| y_clientId := y_clientId c;
                       y_clientSecret := y_clientSecret c;
                       y_accessToken := Some (accessToken tokenResult);
                       y_refreshToken := Some (refreshToken tokenResult);
                       y_tokenExpiresAt := Some (expiresAt tokenResult);
                       y_channelId := y_channelId c |})
                    (youtubeCredentials a);
                youtubeConfig := youtubeConfig a;
                openRouterCredentials := openRouterCredentials a |}
           else a))
    else throw "Record to update not found."
  else ret tt.

(** "Step 9: Store the interaction", the clean-up and the answer. *)
Definition storeInteraction (accountId : string) (bestComment : YouTubeComment)
    (generatedReply replyId : string) : M Response :=
  interaction_upsert accountId bestComment generatedReply replyId;;
  cleanup accountId;;
  json (RepliedYouTube (authorName bestComment) (commentId bestComment)
          (videoTitle bestComment) replyId generatedReply) 200.

(** The handler from "YouTube pipeline started" to its last [return],
    for an account that passed the validation of credentials. *)
Definition pipeline (accountId : string) (yc : YouTubeCredentials)
    (cfg : option YouTubeConfiguration) (orc : OpenRouterCredentials)
    : M Response :=
  createLog accountId info "YouTube pipeline started";;
  let* tokenResult :=
    refreshTokenIfNeeded (y_clientId yc) (y_clientSecret yc)
      (y_accessToken yc) (y_refreshToken yc) (y_tokenExpiresAt yc) in
  match tokenResult with
  | None =>
      createLog accountId error "Failed to get valid access token";;
      json (ErrorBody "YouTube authentication failed") 401
  | Some tokenResult =>
  persistTokens accountId yc tokenResult;;
  let accessToken := accessToken tokenResult in
  let* fetched := attempt (fetchChannelVideos accessToken 5) in
  match fetched with
  | Throw e =>
      createLog accountId error (e_message e);;
      json (ErrorBody (e_message e)) 500
  | Ok videos =>
  if (List.length videos =? 0)%nat then
    createLog accountId warning "No videos found on channel";;
    json (NotReplied "No videos found on channel") 200
  else
  createLog accountId info ("Found " +:+ pretty (List.length videos) +:+ " videos");;
  let minimumLikesCount := Js.nullish (cfg ≫= minimumLikesCount) 5 in
  let* allComments := allComments accessToken minimumLikesCount videos in
  if (List.length allComments =? 0)%nat then
    createLog accountId warning
      ("No comments found with at least " +:+ pretty minimumLikesCount +:+ " likes");;
    json (NotReplied "No comments found matching criteria") 200
  else
  createLog accountId info
    ("Found " +:+ pretty (List.length allComments) +:+ " comments with "
     +:+ pretty minimumLikesCount +:+ "+ likes");;
  storage InteractionFindMany;;
  let* s := get in
  let existingInteractions :=
    List.filter (fun r =>
        String.eqb (yi_accountId r) accountId
        && bool_decide (yi_commentId r ∈ map commentId allComments))
      (youTubeCommentInteractions s) in
  let repliedCommentIds : gset string :=
    list_to_set
      (map yi_commentId
         (List.filter (fun i => Js.truthy (ourReply i)) existingInteractions)) in
  let unrepliedComments := unrepliedComments repliedCommentIds allComments in
  if (List.length unrepliedComments =? 0)%nat then
    createLog accountId warning "All found comments have been replied to";;
    json (NotReplied "All found comments have been replied to already") 200
  else
  match bestComment unrepliedComments with
  | None => throw "Cannot read properties of undefined"
  | Some bestComment =>
  createLog accountId info
    ("Selected comment by " +:+ authorName bestComment +:+ " ("
     +:+ pretty (likeCount bestComment) +:+ " likes) on " +:+ dq
     +:+ videoTitle bestComment +:+ dq);;
  let* generated :=
    attempt (generateReplyWithLLM (Js.the (apiKey orc)) (Js.the (selectedModel orc))
               (Js.or_else (systemPrompt orc) EmptyString)
               (userComment bestComment) (authorName bestComment)
               (videoTitle bestComment) orc) in
  match generated with
  | Throw e =>
      createLog accountId error ("LLM error: " +:+ e_message e);;
      json (ErrorBody (e_message e)) 500
  | Ok generatedReply =>
  createLog accountId info
    ("Generated reply: " +:+ dq +:+ Js.slice0 50 generatedReply +:+ "..." +:+ dq);;
  let* posted :=
    attempt (postCommentReply accessToken (commentId bestComment) generatedReply) in
  match posted with
  | Throw e =>
      createLog accountId error ("YouTube API error: " +:+ e_message e);;
      json (ErrorBody (e_message e)) 500
  | Ok replyId =>
  createLog accountId success ("Posted reply to " +:+ authorName bestComment);;
  storeInteraction accountId bestComment generatedReply replyId
  end end end end end.

(** "Validate credentials": the four checks before the pipeline. *)
Definition validate (accountId : string) (account : Account) : M Response :=
  match youtubeCredentials account with
  | Some yc =>
    if Js.truthy (y_accessToken yc) then
      if Js.truthy (y_channelId yc) then
        match openRouterCredentials account with
        | Some orc =>
          if Js.truthy (apiKey orc) then
            if Js.truthy (selectedModel orc) then
              pipeline accountId yc (youtubeConfig account) orc
            else
              createLog accountId error "No LLM model selected";;
              json (ErrorBody "No LLM model selected") 400
          else
            createLog accountId error "OpenRouter API key not configured";;
            json (ErrorBody "OpenRouter API key not configured") 400
        | None =>
            createLog accountId error "OpenRouter API key not configured";;
            json (ErrorBody "OpenRouter API key not configured") 400
        end
      else
        createLog accountId error "YouTube channel not linked";;
        json (ErrorBody "YouTube channel not linked") 400
    else
      createLog accountId error "YouTube OAuth not connected";;
      json (ErrorBody "YouTube OAuth not connected") 400
  | None =>
      createLog accountId error "YouTube OAuth not connected";;
      json (ErrorBody "YouTube OAuth not connected") 400
  end.

Definition POST (request : Request) : M Response :=
  try_catch
    (match request_json request with
     | None => throw "Unexpected token in JSON"
     | Some body =>
       if negb (Js.truthy (json_accountId body)) then
         json (ErrorBody "accountId is required") 400
       else
         let accountId := Js.the (json_accountId body) in
         let* account := account_findUnique accountId in
         match account with
         | None => json (ErrorBody "Account not found") 404
         | Some account => validate accountId account
         end
     end)
    (fun error => json (ErrorBody "Pipeline failed unexpectedly") 500).

End YouTube.

(** * Vocabulary of the properties *)

Section Orderings.
Context {A : Type} (key : A -> Z).

(** [c] is the earliest element of [l] with the greatest key. *)
Definition earliest_top (l : list A) (c : A) : Prop :=
  exists pre post,
    l = (pre ++ c :: post)%list
    /\ Forall (fun p => key p < key c) pre
    /\ Forall (fun p => key p <= key c) post.

Definition descending (l : list A) : Prop :=
  Sorted (fun a b => key a >= key b) l.
End Orderings.

(** "More than five minutes in the future", the test both token
    refreshers make on the stored expiry. *)
Definition expires_later (env : Env) (tokenExpiresAt : option Z) : bool :=
  match tokenExpiresAt with
  | Some t => t >? now env + 5 * 60 * 1000
  | None => false
  end.

(** ** What a run may change, and what it answers

    [frame s s'] bounds the effect of any piece of handler code that
    takes the world from [s] to [s']: requests are only appended, a
    comment sent to a platform is at most 500 characters long, and every
    interaction row is either an old row or carries a reply of at most
    500 characters. *)

Definition short (s : string) : Prop := (String.length s <= 500)%nat.

Definition short_call (c : Call) : Prop :=
  match c with
  | RedditComment _ _ text => short text
  | YouTubeCommentInsert _ _ textOriginal => short textOriginal
  | _ => True
  end.

Definition short_reply (r : YouTubeCommentInteraction) : Prop :=
  exists t, ourReply r = Some t /\ short t.

Record frame (s s' : State) : Prop := {
  frame_calls : exists sent, calls s' = (calls s ++ sent)%list /\ Forall short_call sent;
  frame_reddit : forall r, r ∈ redditInteractions s' ->
                   r ∈ redditInteractions s \/ short (ourComment r);
  frame_youtube : forall r, r ∈ youTubeCommentInteractions s' ->
                    r ∈ youTubeCommentInteractions s \/ short_reply r;
}.

(** [m] keeps within the frame, and a value it returns satisfies [Q]. *)
Definition triple {A} (m : M A) (Q : A -> Prop) : Prop :=
  forall env s,
    frame s (m env s).2
    /\ match (m env s).1 with
       | Ok a => Q a
       | Throw _ => True
       end.

(** The answers the handlers give: a completed run answers 200, an
    error body carries one of the four error statuses, and a reply
    reported to the caller is at most 500 characters long. *)
Definition good_response (r : Response) : Prop :=
  match body r with
  | RepliedReddit _ _ comment => status r = 200 /\ short comment
  | RepliedYouTube _ _ _ _ reply => status r = 200 /\ short reply
  | NotReplied _ => status r = 200
  | ErrorBody _ => status r = 400 \/ status r = 401 \/ status r = 404 \/ status r = 500
  end.

(** The status as a function of the outcome class alone. *)
Definition status_reflects_outcome (r : Response) : Prop :=
  match replied (body r) with
  | Some _ => status r = 200
  | None => status r = 400 \/ status r = 401 \/ status r = 404 \/ status r = 500
  end.

(** The checks of "Validate credentials", as one condition each. *)
Definition reddit_connected (account : Account) : bool :=
  Js.truthy (redditCredentials account ≫= r_accessToken).

Definition youtube_connected (account : Account) : bool :=
  Js.truthy (youtubeCredentials account ≫= y_accessToken).

Definition reddit_ready (account : Account) : bool :=
  reddit_connected account
  && Js.truthy (redditConfig account ≫= keywords)
  && negb (String.eqb (Js.trim (Js.the (redditConfig account ≫= keywords))) EmptyString)
  && Js.truthy (openRouterCredentials account ≫= apiKey)
  && Js.truthy (openRouterCredentials account ≫= selectedModel).

Definition youtube_ready (account : Account) : bool :=
  youtube_connected account
  && Js.truthy (youtubeCredentials account ≫= y_channelId)
  && Js.truthy (openRouterCredentials account ≫= apiKey)
  && Js.truthy (openRouterCredentials account ≫= selectedModel).

(** * Sample worlds

    One account owned by user [u1], connected to both platforms; peers
    that answer every request; a scheduler request and a request that
    carries neither the shared secret nor a session. *)

Module Sample.

Definition post (i a : string) (u : Z) : RedditPost :=
  {| id := i; name := "t3_" +:+ i; title := "T" +:+ i; selftext := EmptyString;
     author := a; subreddit := "coq"; url := EmptyString;
     permalink := "/r/coq/" +:+ i; ups := u; num_comments := 0;
     created_utc := 0 |}.

Definition comment (i a : string) (l : Z) : YouTubeComment :=
  {| commentId := i; videoId := "v1"; videoTitle := "V1"; userComment := "nice";
     authorName := a; authorChannelId := "UC" +:+ a; likeCount := l;
     publishedAt := 1000000000 |}.

Definition thread (i a : string) (l : Z) : Thread :=
  {| t_id := i; textDisplay := "nice"; authorDisplayName := a;
     t_authorChannelId := Some ("UC" +:+ a); t_likeCount := Some l;
     t_publishedAt := 1000000000 |}.

Definition world : Peers := {|
  reddit_token := fun _ _ _ =>
    OkJson {| access_token := "fresh"; expires_in := 3600; refresh_token := None |};
  reddit_search := fun _ _ _ _ =>
    OkJson [post "a" "alice" 3; post "b" "bob" 20; post "c" "carol" 20];
  reddit_comment := fun _ _ _ => OkJson (Some "t1_x");
  openrouter_chat := fun _ _ _ _ =>
    OkJson {| content := Some "  hello  "; stringify := "{}" |};
  google_token := fun _ _ _ => NotOk 400 "invalid_grant";
  youtube_channels := fun _ => OkJson (Some "UU");
  youtube_playlistItems := fun _ _ _ =>
    OkJson [ {| v_videoId := "v1"; v_title := "V1" |} ];
  youtube_commentThreads := fun _ _ _ => OkJson [thread "c1" "me" 9];
  youtube_comment_insert := fun _ _ _ => OkJson "r1";
|}.

Definition env : Env := {|
  now := 1000000000;
  CRON_SECRET := Some "s3cret";
  session_user_id := None;
  new_id := "row1";
  new_createdAt := 1000000000;
  storage_down := fun _ => false;
  peers := world;
|}.

(** The same surroundings with one storage operation out of order. *)
Definition env_down (op : DbOp) : Env := {|
  now := 1000000000;
  CRON_SECRET := Some "s3cret";
  session_user_id := None;
  new_id := "row1";
  new_createdAt := 1000000000;
  storage_down := fun o => bool_decide (o = op);
  peers := world;
|}.

Definition llm : OpenRouterCredentials := {|
  apiKey := Some "k"; selectedModel := Some "m"; systemPrompt := None;
  noHashtags := true; noEmojis := false; noCapitalization := false;
  badGrammar := false;
|}.

Definition reddit_creds (access refresh : option string) (expires : option Z)
    : RedditCredentials := {|
  r_clientId := "ci"; r_clientSecret := "cs"; r_accessToken := access;
  r_refreshToken := refresh; r_tokenExpiresAt := expires;
  r_username := Some "bob";
|}.

Definition youtube_creds (access refresh : option string) (expires : option Z)
    : YouTubeCredentials := {|
  y_clientId := "ci"; y_clientSecret := "cs"; y_accessToken := access;
  y_refreshToken := refresh; y_tokenExpiresAt := expires;
  y_channelId := Some "UCme";
|}.

Definition reddit_config (minimum : option Z) : RedditConfiguration :=
  {| keywords := Some "coq, rocq"; timeRange := None; minimumUpvotes := minimum |}.

Definition account (rc : RedditCredentials) (yc : YouTubeCredentials) : Account := {|
  a_id := "acc"; userId := "u1";
  redditCredentials := Some rc;
  redditConfig := Some (reddit_config (Some 10));
  youtubeCredentials := Some yc;
  youtubeConfig := None;
  openRouterCredentials := Some llm;
|}.

Definition connected : Account :=
  account (reddit_creds (Some "tok") (Some "rt") (Some 2000000000))
          (youtube_creds (Some "tok") (Some "rt") (Some 2000000000)).

(** Tokens present but no refresh token, expiry far ahead. *)
Definition no_refresh_token : Account :=
  account (reddit_creds (Some "tok") None (Some 2000000000))
          (youtube_creds (Some "tok") None (Some 2000000000)).

(** After "disconnect": no tokens at all. *)
Definition disconnected : Account :=
  account (reddit_creds None None None) (youtube_creds None None None).

Definition store (a : Account) : State :=
  {| accounts := [a]; redditInteractions := [];
     youTubeCommentInteractions := []; logs := []; calls := [] |}.

Definition from_scheduler : Request :=
  {| request_json := Some {| json_accountId := Some "acc" |};
     x_cron_secret := Some "s3cret" |}.

Definition from_anyone : Request :=
  {| request_json := Some {| json_accountId := Some "acc" |};
     x_cron_secret := None |}.

Definition interaction (i : string) (created : Z) : RedditInteraction :=
  {| ri_id := i; ri_accountId := "acc"; postId := "p" +:+ i; ri_subreddit := "coq";
     postTitle := EmptyString; postAuthor := "alice"; postUrl := EmptyString; upvotes := 12;
     commentCount := 0; ourComment := "hi"; ourCommentId := "t1_" +:+ i;
     ri_repliedAt := created; ri_createdAt := created |}.

Definition youtube_interaction (i : string) (created : Z)
    : YouTubeCommentInteraction :=
  {| yi_id := i; yi_accountId := "acc"; yi_commentId := "c" +:+ i;
     yi_videoId := "v1"; yi_videoTitle := "V1"; yi_userComment := "nice";
     yi_authorName := "alice"; yi_authorChannelId := "UCalice"; yi_likeCount := 7;
     ourReply := Some "thanks"; ourReplyId := Some ("r" +:+ i);
     yi_repliedAt := created; yi_createdAt := created |}.

Definition with_history : State :=
  {| accounts := [connected];
     redditInteractions := [interaction "1" 5; interaction "2" 7];
     youTubeCommentInteractions :=
       [youtube_interaction "1" 5; youtube_interaction "2" 999999999];
     logs := []; calls := [] |}.

End Sample.

(** * Further vocabulary *)

(** The key of the unique constraint of each interaction table. *)
Definition reddit_key (r : RedditInteraction) : string * string :=
  (ri_accountId r, postId r).

Definition youtube_key (r : YouTubeCommentInteraction) : string * string :=
  (yi_accountId r, yi_commentId r).

(** The set of post identifiers the Reddit handler builds from the rows
    of the account ([repliedPostIds]). *)
Definition repliedPostIds (accountId : string) (rows : list RedditInteraction)
    : gset string :=
  list_to_set
    (map postId (List.filter (fun r => String.eqb (ri_accountId r) accountId) rows)).

(** The set of comment identifiers the YouTube handler builds from the
    rows of the account that concern the fetched comments and carry a
    reply ([repliedCommentIds]). *)
Definition repliedCommentIds (accountId : string) (allComments : list YouTubeComment)
    (rows : list YouTubeCommentInteraction) : gset string :=
  list_to_set
    (map yi_commentId
       (List.filter (fun i => Js.truthy (ourReply i))
          (List.filter (fun r =>
               String.eqb (yi_accountId r) accountId
               && bool_decide (yi_commentId r ∈ map commentId allComments))
             rows))).

(** The row the YouTube upsert writes: all columns from the comment and
    the reply, the identifier and creation time as given. *)
Definition youtube_written (env : Env) (accountId : string) (c : YouTubeComment)
    (generatedReply replyId : string) (rowId : string) (createdAt : Z)
    : YouTubeCommentInteraction :=
  {| yi_id := rowId; yi_accountId := accountId;
     yi_commentId := commentId c; yi_videoId := videoId c;
     yi_videoTitle := videoTitle c; yi_userComment := userComment c;
     yi_authorName := authorName c; yi_authorChannelId := authorChannelId c;
     yi_likeCount := likeCount c;
     ourReply := Some generatedReply; ourReplyId := Some replyId;
     yi_repliedAt := now env; yi_createdAt := createdAt |}.

(** The state after the requests [cs] have been sent, in order. *)
Definition add_calls (cs : list Call) (s : State) : State :=
  {| accounts := accounts s;
     redditInteractions := redditInteractions s;
     youTubeCommentInteractions := youTubeCommentInteractions s;
     logs := logs s;
     calls := calls s ++ cs |}.

(** ** The requests of a run *)

Definition is_chat (c : Call) : bool :=
  match c with
  | OpenRouterChat _ _ _ _ => true
  | _ => false
  end.

(** The text a publish request carries; [None] for any other request. *)
Definition published_text (c : Call) : option string :=
  match c with
  | RedditComment _ _ text => Some text
  | YouTubeCommentInsert _ _ textOriginal => Some textOriginal
  | _ => None
  end.

Definition is_publish (c : Call) : bool :=
  match published_text c with Some _ => true | None => false end.

(** A request that is neither a chat completion nor a publish. *)
Definition is_quiet (c : Call) : Prop := is_chat c = false /\ is_publish c = false.

(** The reply a response reports ([comment] on Reddit, [reply] on
    YouTube); [None] when it reports none. *)
Definition reported_reply (b : ResponseBody) : option string :=
  match b with
  | RepliedReddit _ _ comment => Some comment
  | RepliedYouTube _ _ _ _ reply => Some reply
  | _ => None
  end.

Definition is_error (b : ResponseBody) : Prop := exists e, b = ErrorBody e.

(** [m] appends the requests [sent] to those sent before, and [Q]
    relates its outcome to them. *)
Definition emits {A} (m : M A) (Q : Result A -> list Call -> Prop) : Prop :=
  forall env s,
    exists sent, calls (m env s).2 = (calls s ++ sent)%list /\ Q (m env s).1 sent.

(** The requests of one run, against its outcome: after any number of
    token and read requests, either nothing more and no reply is
    reported; or one chat request and an error; or one chat request
    followed by one publish request, and then the reply reported, if
    any, is the text that was published. *)
Definition run_trace (r : Result Response) (sent : list Call) : Prop :=
  exists reads,
    Forall is_quiet reads
    /\ ((sent = reads
         /\ match r with
            | Ok resp => reported_reply (body resp) = None
            | Throw _ => True
            end)
        \/ (exists chat,
              is_chat chat = true /\ sent = (reads ++ [chat])%list
              /\ match r with
                 | Ok resp => is_error (body resp)
                 | Throw _ => True
                 end)
        \/ (exists chat pub text,
              is_chat chat = true /\ published_text pub = Some text
              /\ sent = (reads ++ [chat; pub])%list
              /\ match r with
                 | Ok resp =>
                     is_error (body resp) \/ reported_reply (body resp) = Some text
                 | Throw _ => True
                 end)).

(** Code that sends nothing. *)
Definition silent {A} (m : M A) : Prop := emits m (fun _ sent => sent = []).

(** Code that sends token and read requests only. *)
Definition reads_only {A} (m : M A) : Prop := emits m (fun _ sent => Forall is_quiet sent).

(** Code that sends nothing and whose outcome satisfies [P]. *)
Definition quietly {A} (m : M A) (P : Result A -> Prop) : Prop :=
  emits m (fun r sent => sent = [] /\ P r).

(** An answer that reports an error, or an exception. *)
Definition fails (r : Result Response) : Prop :=
  match r with
  | Ok resp => is_error (body resp)
  | Throw _ => True
  end.

(** An answer that reports the reply [text] or an error, or an exception. *)
Definition reports (text : string) (r : Result Response) : Prop :=
  match r with
  | Ok resp => is_error (body resp) \/ reported_reply (body resp) = Some text
  | Throw _ => True
  end.

(** The requests of a run once the chat request is sent. *)
Definition after_chat (r : Result Response) (sent : list Call) : Prop :=
  (sent = [] /\ fails r)
  \/ (exists pub text, published_text pub = Some text /\ sent = [pub] /\ reports text r).

(** The list [keywordList] that [searchPosts] builds from the keywords. *)
Definition keywordList (keywords : string) : list string :=
  List.filter (fun k => (0 <? String.length k)%nat)
    (map Js.trim (Js.split ","%char keywords)).


(** A store in which the sample account has 101 Reddit interactions,
    created at times 1 to 101. *)
Definition crowded : State :=
  {| accounts := [Sample.connected];
     redditInteractions :=
       map (fun i => Sample.interaction (pretty i) (Z.of_nat i)) (seq 1 101);
     youTubeCommentInteractions := [];
     logs := []; calls := [] |}.

(** * Further handlers *)

(** ** The YouTube disconnect handler ([api/youtube/disconnect]) *)

Module YouTubeDisconnect.

(** [{ success: true }] or [{ error }]. *)
Inductive DisconnectBody :=
| Success
| Failure (error : string).

Record DisconnectResponse := {
  d_status : Z;
  d_body : DisconnectBody;
}.

(** The [data] of the update: the OAuth tokens and the channel are set
    to [null], the application's client identifier and secret stay. *)
Definition cleared (c : YouTubeCredentials) : YouTubeCredentials :=
  {| y_clientId := y_clientId c;
     y_clientSecret := y_clientSecret c;
     y_accessToken := None;
     y_refreshToken := None;
     y_tokenExpiresAt := None;
     y_channelId := None |}.

(** [db.youTubeCredentials.update({ where: { accountId }, data })]; the
    update throws when the account has no credentials row. *)
Definition credentials_update (accountId : string)
    (data : YouTubeCredentials -> YouTubeCredentials) : M unit :=
  storage CredentialsUpdate;;
  let* s := get in
  if existsb (fun a => String.eqb (a_id a) accountId
                       && bool_decide (is_Some (youtubeCredentials a)))
       (accounts s)
  then
    set_accounts
      (map (fun a =>
         if String.eqb (a_id a) accountId then
           {| a_id := a_id a; userId := userId a;
              redditCredentials := redditCredentials a;
              redditConfig := redditConfig a;
              youtubeCredentials := option_map data (youtubeCredentials a);
              youtubeConfig := youtubeConfig a;
              openRouterCredentials := openRouterCredentials a |}
         else a))
  else throw "Record to update not found.".

(** [accountId] is [searchParams.get("accountId")]. *)
Definition POST (accountId : option string) : M DisconnectResponse :=
  try_catch
    (if negb (Js.truthy accountId) then
       ret {| d_status := 400; d_body := Failure "accountId is required" |}
     else
       credentials_update (Js.the accountId) cleared;;
       ret {| d_status := 200; d_body := Success |})
    (fun error => ret {| d_status := 500; d_body := Failure "Failed to disconnect" |}).

End YouTubeDisconnect.

(** ** The page guard ([proxy]) *)

Module Proxy.

(** What the guard looks at in a request: the two session cookies and
    the path. *)
Record NextRequest := {
  session_token : option string;         (* cookies.get("authjs.session-token")?.value *)
  secure_session_token : option string;  (* cookies.get("__Secure-authjs.session-token")?.value *)
  pathname : string;                     (* nextUrl.pathname *)
}.

(** [NextResponse.next()] or [NextResponse.redirect(new URL(path, req.url))]. *)
Inductive NextResponse :=
| next
| redirect (path : string).

Definition proxy (req : NextRequest) : NextResponse :=
  let sessionToken :=
    if Js.truthy (session_token req) then session_token req
    else secure_session_token req in
  let isLoggedIn := Js.truthy sessionToken in
  let isLoginPage := String.eqb (pathname req) "/login" in
  let isApiRoute := String.prefix "/api" (pathname req) in
  if isApiRoute then next
  else if negb isLoggedIn && negb isLoginPage then redirect "/login"
  else if isLoggedIn && isLoginPage then redirect "/"
  else next.

(** The request a browser sends when it follows a redirect: the same
    cookies, the new path. *)
Definition follow (req : NextRequest) (path : string) : NextRequest :=
  {| session_token := session_token req;
     secure_session_token := secure_session_token req;
     pathname := path |}.

End Proxy.

(** ** The YouTube scheduler ([api/cron/youtube-comments]) *)

Module Cron.

(** [checkSchedule], with [minutes = now.getMinutes()] and
    [hours = now.getHours()]. *)
Definition checkSchedule (minutes hours : Z) (schedule : string) : bool :=
  if String.eqb schedule "every_5_min" then true
  else if String.eqb schedule "every_10_min" then Z.rem minutes 10 =? 0
  else if String.eqb schedule "every_30_min" then (minutes =? 0) || (minutes =? 30)
  else if String.eqb schedule "every_hour" then minutes =? 0
  else if String.eqb schedule "every_3_hours" then (minutes =? 0) && (Z.rem hours 3 =? 0)
  else if String.eqb schedule "every_6_hours" then (minutes =? 0) && (Z.rem hours 6 =? 0)
  else minutes =? 0.

(** The columns of a [youTubeConfiguration] row the scheduler reads. *)
Record Configuration := {
  c_accountId : string;
  enabled : bool;
  schedule : string;
}.

(** What the scheduler is given besides the store of the run handlers:
    the configuration table (and whether reading it throws), the
    wall-clock minute and hour, and the [authorization] header. *)
Record Tick := {
  authorization : option string;         (* headers.get("authorization") *)
  configurations : list Configuration;
  configurations_down : bool;
  minutes : Z;                           (* new Date().getMinutes() *)
  hours : Z;                             (* new Date().getHours() *)
}.

(** One element of [results]. *)
Record Outcome := {
  o_accountId : string;
  o_success : bool;
  o_message : string;
}.

Inductive CronBody :=
| CronFailure (error : string)
| Completed (timestamp : Z) (processed : nat) (results : list Outcome).

Record CronResponse := {
  c_status : Z;
  c_body : CronBody;
}.

(** [response.ok]. *)
Definition ok (response : Response) : bool :=
  (200 <=? status response) && (status response <=? 299).

(** The element pushed for an account whose run answered. *)
Definition answered (accountId : string) (response : Response) : Outcome :=
  if ok response then
    {| o_accountId := accountId;
       o_success := true;
       o_message :=
         match body response with
         | RepliedReddit repliedTo _ _
         | RepliedYouTube repliedTo _ _ _ _ => "Replied to " +:+ repliedTo
         | NotReplied message => Js.or_else (Some message) "No action needed"
         | ErrorBody _ => "No action needed"
         end |}
  else
    {| o_accountId := accountId;
       o_success := false;
       o_message :=
         match body response with
         | ErrorBody e => Js.or_else (Some e) "Unknown error"
         | _ => "Unknown error"
         end |}.

(** [db.youTubeConfiguration.findMany({ where: { enabled: true },
    include: { account: { include: { youtubeCredentials: true } } } })]:
    each enabled row with its account, [None] when the table holds no
    account of that identifier. *)
Definition findMany (tick : Tick) : M (list (Configuration * option Account)) :=
  if configurations_down tick then throw "storage unavailable"
  else
    let* s := get in
    ret (map (fun config =>
                (config,
                 List.find (fun a => String.eqb (a_id a) (c_accountId config))
                   (accounts s)))
           (List.filter enabled (configurations tick))).

Section Run.

(** [fetch(`${baseUrl}/api/youtube/run`, { method: "POST", body:
    JSON.stringify({ accountId }) })] followed by [response.json()]:
    the answer of the run endpoint, or an exception when the request or
    the parsing fails. *)
Variable run : string -> M Response.

(** "Process each enabled account".  [config.account.youtubeCredentials]
    is read without a test of [config.account], outside the inner [try]. *)
Fixpoint process (tick : Tick)
    (enabledConfigs : list (Configuration * option Account))
    : M (list Outcome) :=
  match enabledConfigs with
  | [] => ret []
  | (config, account) :: rest =>
      let accountId := c_accountId config in
      match account with
      | None => throw "Cannot read properties of null (reading 'youtubeCredentials')"
      | Some account =>
      let credentials := youtubeCredentials account in
      if negb (Js.truthy (credentials ≫= y_accessToken))
         || negb (Js.truthy (credentials ≫= y_channelId))
      then
        let* results := process tick rest in
        ret ({| o_accountId := accountId; o_success := false;
                o_message := "Missing YouTube credentials" |} :: results)
      else if negb (checkSchedule (minutes tick) (hours tick) (schedule config))
      then process tick rest
      else
        let* pushed :=
          try_catch
            (let* response := run accountId in
             ret (answered accountId response))
            (fun error =>
               ret {| o_accountId := accountId; o_success := false;
                      o_message := e_message error |}) in
        let* results := process tick rest in
        ret (pushed :: results)
      end
  end.

Definition GET (tick : Tick) : M CronResponse :=
  let* env := ask in
  let expected :=
    "Bearer " +:+ match CRON_SECRET env with
                  | Some secret => secret
                  | None => "undefined"
                  end in
  if negb (bool_decide (authorization tick = Some expected)) then
    ret {| c_status := 401; c_body := CronFailure "Unauthorized" |}
  else
    try_catch
      (let* enabledConfigs := findMany tick in
       let* results := process tick enabledConfigs in
       ret {| c_status := 200;
              c_body := Completed (now env) (List.length results) results |})
      (fun error =>
         ret {| c_status := 500;
                c_body := CronFailure "Failed to process YouTube comments" |}).

End Run.

(** The run endpoint when the request reaches this deployment: the
    YouTube run handler, given the body [{ accountId }] and no
    [x-cron-secret] header. *)
Definition self (accountId : string) : M Response :=
  YouTube.POST {| request_json := Some {| json_accountId := Some accountId |};
                  x_cron_secret := None |}.

(** The accounts of the table that get an element in [results]: the
    enabled ones that lack credentials, and the enabled ones that have
    them and are due. *)
Definition reported (s : State) (tick : Tick) (config : Configuration) : bool :=
  let credentials :=
    List.find (fun a => String.eqb (a_id a) (c_accountId config)) (accounts s)
    ≫= youtubeCredentials in
  enabled config
  && (negb (Js.truthy (credentials ≫= y_accessToken))
      || negb (Js.truthy (credentials ≫= y_channelId))
      || checkSchedule (minutes tick) (hours tick) (schedule config)).


(** The length of the cycle of a schedule, in minutes. *)
Definition period (schedule : string) : Z :=
  if String.eqb schedule "every_5_min" then 5
  else if String.eqb schedule "every_10_min" then 10
  else if String.eqb schedule "every_30_min" then 30
  else if String.eqb schedule "every_hour" then 60
  else if String.eqb schedule "every_3_hours" then 180
  else if String.eqb schedule "every_6_hours" then 360
  else 60.

(** Every enabled row of the table has its account (the foreign key
    of the configuration table). *)
Definition accounts_present (s : State) (tick : Tick) : Prop :=
  Forall (fun config =>
            enabled config = true ->
            is_Some (List.find (fun a => String.eqb (a_id a) (c_accountId config))
                       (accounts s)))
    (configurations tick).

(** A sample tick: two enabled rows and a disabled one. *)
Definition sample_tick (header : option string) (m h : Z) : Tick :=
  {| authorization := header;
     configurations :=
       [ {| c_accountId := "acc"; enabled := true; schedule := "every_10_min" |};
         {| c_accountId := "other"; enabled := true; schedule := "every_hour" |};
         {| c_accountId := "off"; enabled := false; schedule := "every_5_min" |} ];
     configurations_down := false;
     minutes := m;
     hours := h |}.

(** A store with the accounts of the sample tick: the connected sample
    account and an account [other] that is not connected to YouTube. *)
Definition sample_store : State :=
  {| accounts :=
       [ Sample.connected;
         {| a_id := "other"; userId := "u2";
            redditCredentials := None; redditConfig := None;
            youtubeCredentials := None; youtubeConfig := None;
            openRouterCredentials := None |} ];
     redditInteractions := []; youTubeCommentInteractions := [];
     logs := []; calls := [] |}.

(** The sample surroundings without [CRON_SECRET]. *)
Definition unset_secret : Env := {|
  now := now Sample.env;
  CRON_SECRET := None;
  session_user_id := session_user_id Sample.env;
  new_id := new_id Sample.env;
  new_createdAt := new_createdAt Sample.env;
  storage_down := storage_down Sample.env;
  peers := peers Sample.env;
|}.

End Cron.


(** ** What a run may touch *)

Definition is_reddit_call (c : Call) : bool :=
  match c with
  | RedditToken _ _ _ | RedditSearch _ _ _ _ | RedditComment _ _ _ => true
  | _ => false
  end.

Definition is_youtube_call (c : Call) : bool :=
  match c with
  | GoogleToken _ _ _ | YouTubeChannels _ | YouTubePlaylistItems _ _ _
  | YouTubeCommentThreads _ _ _ | YouTubeCommentInsert _ _ _ => true
  | _ => false
  end.

(** [a'] is [a] up to the Reddit access token and its expiry. *)
Definition same_but_reddit_token (a a' : Account) : Prop :=
  a_id a' = a_id a /\ userId a' = userId a
  /\ redditConfig a' = redditConfig a
  /\ youtubeCredentials a' = youtubeCredentials a
  /\ youtubeConfig a' = youtubeConfig a
  /\ openRouterCredentials a' = openRouterCredentials a
  /\ match redditCredentials a, redditCredentials a' with
     | Some c, Some c' =>
         r_clientId c' = r_clientId c /\ r_clientSecret c' = r_clientSecret c
         /\ r_refreshToken c' = r_refreshToken c /\ r_username c' = r_username c
     | None, None => True
     | _, _ => False
     end.

(** [a'] is [a] up to the YouTube access token, refresh token and expiry. *)
Definition same_but_youtube_tokens (a a' : Account) : Prop :=
  a_id a' = a_id a /\ userId a' = userId a
  /\ redditCredentials a' = redditCredentials a
  /\ redditConfig a' = redditConfig a
  /\ youtubeConfig a' = youtubeConfig a
  /\ openRouterCredentials a' = openRouterCredentials a
  /\ match youtubeCredentials a, youtubeCredentials a' with
     | Some c, Some c' =>
         y_clientId c' = y_clientId c /\ y_clientSecret c' = y_clientSecret c
         /\ y_channelId c' = y_channelId c
     | None, None => True
     | _, _ => False
     end.

(** The account table after a run for [accountId]: the same accounts in
    the same order, those of another identifier unchanged, those of
    [accountId] changed at most as [touched] allows. *)
Definition accounts_kept (accountId : string) (touched : Account -> Account -> Prop)
    (before after : list Account) : Prop :=
  Forall2 (fun a a' => if String.eqb (a_id a) accountId then touched a a' else a' = a)
    before after.

(** The log lines a run for [accountId] adds carry its identifier. *)
Definition logs_kept (accountId : string) (before after : list Log) : Prop :=
  exists new,
    after = (before ++ new)%list /\ Forall (fun l => log_accountId l = accountId) new.

(** Requests are only added, and none of the added ones is [foreign]. *)
Definition calls_kept (foreign : Call -> bool) (before after : list Call) : Prop :=
  exists sent, after = (before ++ sent)%list /\ Forall (fun c => foreign c = false) sent.

(** The interaction rows of the accounts other than [accountId]. *)
Definition others_reddit (accountId : string) (rows : list RedditInteraction)
    : list RedditInteraction :=
  List.filter (fun r => negb (String.eqb (ri_accountId r) accountId)) rows.

Definition others_youtube (accountId : string) (rows : list YouTubeCommentInteraction)
    : list YouTubeCommentInteraction :=
  List.filter (fun r => negb (String.eqb (yi_accountId r) accountId)) rows.

(** No row of another account shares its identifier with a row of
    [accountId] or with the row about to be created. *)
Definition ids_apart (accountId : string) (env : Env) (rows : list RedditInteraction)
    : Prop :=
  forall r, r ∈ rows -> ri_accountId r <> accountId ->
    ri_id r <> new_id env
    /\ forall r', r' ∈ rows -> ri_accountId r' = accountId -> ri_id r' <> ri_id r.

(** The Reddit rows after a run for [accountId]: while identifiers are
    apart, the rows of the other accounts are as before, and the rows of
    [accountId] carry identifiers it had before or the new one. *)
Definition reddit_rows_kept (accountId : string) (env : Env)
    (before after : list RedditInteraction) : Prop :=
  ids_apart accountId env before ->
  others_reddit accountId after = others_reddit accountId before
  /\ forall r', r' ∈ after -> ri_accountId r' = accountId ->
       ri_id r' = new_id env
       \/ exists r, r ∈ before /\ ri_accountId r = accountId /\ ri_id r = ri_id r'.

Record reddit_footprint (accountId : string) (env : Env) (s s' : State) : Prop := {
  rf_accounts : accounts_kept accountId same_but_reddit_token (accounts s) (accounts s');
  rf_reddit : reddit_rows_kept accountId env (redditInteractions s) (redditInteractions s');
  rf_youtube : youTubeCommentInteractions s' = youTubeCommentInteractions s;
  rf_logs : logs_kept accountId (logs s) (logs s');
  rf_calls : calls_kept is_youtube_call (calls s) (calls s');
}.

Record youtube_footprint (accountId : string) (env : Env) (s s' : State) : Prop := {
  yf_accounts : accounts_kept accountId same_but_youtube_tokens (accounts s) (accounts s');
  yf_reddit : redditInteractions s' = redditInteractions s;
  yf_youtube : others_youtube accountId (youTubeCommentInteractions s')
               = others_youtube accountId (youTubeCommentInteractions s);
  yf_logs : logs_kept accountId (logs s) (logs s');
  yf_calls : calls_kept is_reddit_call (calls s) (calls s');
}.

(** A relation between the store before and after that holds of doing
    nothing and of doing one thing after another. *)
Class Footprint (R : Env -> State -> State -> Prop) : Prop := {
  footprint_refl : forall env s, R env s s;
  footprint_trans : forall env s1 s2 s3, R env s1 s2 -> R env s2 s3 -> R env s1 s3;
}.

(** [m] changes the store within [R]. *)
Definition keeps (R : Env -> State -> State -> Prop) {A} (m : M A) : Prop :=
  forall env s, R env s (m env s).2.

(** The account a run request names. *)
Definition requested (request : Request) : string :=
  match request_json request with
  | Some b => Js.the (json_accountId b)
  | None => EmptyString
  end.

(** ** The stages of a run and their outcomes *)

(** In the surroundings [env] the stage [m] ends with [r], whatever
    the store. *)
Definition gives {A} (m : M A) (env : Env) (r : Result A) : Prop :=
  forall s, (m env s).1 = r.

(** The stages of the Reddit run, with the arguments the handler gives
    them. *)
Definition reddit_started (accountId : string) (s : State) : State :=
  add_log {| log_accountId := accountId; level := info;
             message := "Starting Reddit pipeline" |} s.

Definition reddit_refreshing (accountId : string) (rc : RedditCredentials) : M string :=
  Reddit.refreshTokenIfNeeded accountId (r_clientId rc) (r_clientSecret rc)
    (Js.the (r_accessToken rc)) (r_refreshToken rc) (r_tokenExpiresAt rc).

Definition reddit_searching (cfg : RedditConfiguration) (accessToken : string)
    : M (list RedditPost) :=
  Reddit.searchPosts accessToken (Js.the (keywords cfg))
    (Js.or_else (timeRange cfg) "day") 25.

Definition reddit_selecting (accountId : string) (rc : RedditCredentials)
    (cfg : RedditConfiguration) (s : State) (posts : list RedditPost)
    : option RedditPost :=
  Reddit.targetPost
    (Reddit.eligiblePosts (repliedPostIds accountId (redditInteractions s))
       (minimumUpvotes cfg) (r_username rc) posts).

Definition reddit_generating (orc : OpenRouterCredentials) (targetPost : RedditPost)
    : M string :=
  Reddit.generateReplyWithLLM (Js.the (apiKey orc)) (Js.the (selectedModel orc))
    (Js.or_else (systemPrompt orc) EmptyString)
    (title targetPost) (selftext targetPost) (author targetPost)
    (subreddit targetPost) orc.

Definition reddit_publishing (accessToken : string) (targetPost : RedditPost)
    (generatedReply : string) : M string :=
  Reddit.postComment accessToken (name targetPost) generatedReply.

(** The account the Reddit handler finds for a request: by identifier
    for a scheduler call, by identifier and owner for a user call. *)
Definition reddit_lookup (request : Request) (env : Env) (s : State)
    (accountId : string) : option Account :=
  if Reddit.isCronCall env request then
    List.find (fun a => String.eqb (a_id a) accountId) (accounts s)
  else if Js.truthy (session_user_id env) then
    List.find (fun a => String.eqb (a_id a) accountId
                        && String.eqb (userId a) (Js.the (session_user_id env)))
      (accounts s)
  else None.

(** A request for [accountId] whose account the Reddit handler finds:
    the body names the account, the storage is available and the
    lookup returns [account]. *)
Definition reddit_found (request : Request) (env : Env) (s : State)
    (accountId : string) (account : Account) : Prop :=
  request_json request = Some {| json_accountId := Some accountId |}
  /\ Js.truthy (Some accountId) = true
  /\ (forall op, storage_down env op = false)
  /\ reddit_lookup request env s accountId = Some account.

(** The stages of the YouTube run. *)
Definition youtube_refreshing (yc : YouTubeCredentials)
    : M (option YouTubeClient.Tokens) :=
  YouTubeClient.refreshTokenIfNeeded (y_clientId yc) (y_clientSecret yc)
    (y_accessToken yc) (y_refreshToken yc) (y_tokenExpiresAt yc).

Definition youtube_listing (tokens : YouTubeClient.Tokens) : M (list YouTubeVideo) :=
  YouTubeClient.fetchChannelVideos (YouTubeClient.accessToken tokens) 5.

Definition youtube_collecting (cfg : option YouTubeConfiguration)
    (tokens : YouTubeClient.Tokens) (videos : list YouTubeVideo)
    : M (list YouTubeComment) :=
  YouTube.allComments (YouTubeClient.accessToken tokens)
    (Js.nullish (cfg ≫= minimumLikesCount) 5) videos.

Definition youtube_selecting (accountId : string) (s : State)
    (allComments : list YouTubeComment) : option YouTubeComment :=
  YouTube.bestComment
    (YouTube.unrepliedComments
       (repliedCommentIds accountId allComments (youTubeCommentInteractions s))
       allComments).

Definition youtube_generating (orc : OpenRouterCredentials)
    (bestComment : YouTubeComment) : M string :=
  YouTube.generateReplyWithLLM (Js.the (apiKey orc)) (Js.the (selectedModel orc))
    (Js.or_else (systemPrompt orc) EmptyString)
    (userComment bestComment) (authorName bestComment) (videoTitle bestComment) orc.

Definition youtube_publishing (tokens : YouTubeClient.Tokens)
    (bestComment : YouTubeComment) (generatedReply : string) : M string :=
  YouTubeClient.postCommentReply (YouTubeClient.accessToken tokens)
    (commentId bestComment) generatedReply.

(** The same for the YouTube handler, which looks the account up by
    its identifier alone. *)
Definition youtube_found (request : Request) (env : Env) (s : State)
    (accountId : string) (account : Account) : Prop :=
  request_json request = Some {| json_accountId := Some accountId |}
  /\ Js.truthy (Some accountId) = true
  /\ (forall op, storage_down env op = false)
  /\ List.find (fun a => String.eqb (a_id a) accountId) (accounts s) = Some account.

(** Stages that leave the Reddit interactions, or the accounts and the
    YouTube interactions, as they were. *)
Definition reddit_rows_same (_ : Env) (s s' : State) : Prop :=
  redditInteractions s' = redditInteractions s.

Definition youtube_store_same (_ : Env) (s s' : State) : Prop :=
  accounts s' = accounts s
  /\ youTubeCommentInteractions s' = youTubeCommentInteractions s.

Definition youtube_rows_same (_ : Env) (s s' : State) : Prop :=
  youTubeCommentInteractions s' = youTubeCommentInteractions s.

Definition youtube_started (accountId : string) (s : State) : State :=
  add_log {| log_accountId := accountId; level := info;
             message := "YouTube pipeline started" |} s.


(** Surroundings for the examples: those of [Sample.env] among other
    peers. *)
Definition among (p : Peers) : Env := {|
  now := 1000000000;
  CRON_SECRET := Some "s3cret";
  session_user_id := None;
  new_id := "row1";
  new_createdAt := 1000000000;
  storage_down := fun _ => false;
  peers := p;
|}.

(** Peers whose search and channel listing are out of order. *)
Definition search_out : Peers := {|
  reddit_token := reddit_token Sample.world;
  reddit_search := fun _ _ _ _ => NotOk 503 "unavailable";
  reddit_comment := reddit_comment Sample.world;
  openrouter_chat := openrouter_chat Sample.world;
  google_token := google_token Sample.world;
  youtube_channels := fun _ => NotOk 503 "unavailable";
  youtube_playlistItems := youtube_playlistItems Sample.world;
  youtube_commentThreads := youtube_commentThreads Sample.world;
  youtube_comment_insert := youtube_comment_insert Sample.world;
|}.

(** Peers whose language model is out of order. *)
Definition chat_out : Peers := {|
  reddit_token := reddit_token Sample.world;
  reddit_search := reddit_search Sample.world;
  reddit_comment := reddit_comment Sample.world;
  openrouter_chat := fun _ _ _ _ => NotOk 502 "bad gateway";
  google_token := google_token Sample.world;
  youtube_channels := youtube_channels Sample.world;
  youtube_playlistItems := youtube_playlistItems Sample.world;
  youtube_commentThreads := youtube_commentThreads Sample.world;
  youtube_comment_insert := youtube_comment_insert Sample.world;
|}.

(** Peers that refuse the reply. *)
Definition publish_out : Peers := {|
  reddit_token := reddit_token Sample.world;
  reddit_search := reddit_search Sample.world;
  reddit_comment := fun _ _ _ => NotOk 403 "forbidden";
  openrouter_chat := openrouter_chat Sample.world;
  google_token := google_token Sample.world;
  youtube_channels := youtube_channels Sample.world;
  youtube_playlistItems := youtube_playlistItems Sample.world;
  youtube_commentThreads := youtube_commentThreads Sample.world;
  youtube_comment_insert := fun _ _ _ => NotOk 403 "forbidden";
|}.

(** An account whose tokens are stored without expiry and without a
    refresh token. *)
Definition stale : Account :=
  Sample.account (Sample.reddit_creds (Some "tok") None None)
                 (Sample.youtube_creds (Some "tok") (Some "rt") None).

(** ** A comment on record *)

(** The table holds for [accountId] a row of the comment [c] that
    carries a reply and was created no earlier than the comment was
    published. *)
Definition youtube_recorded (accountId : string) (c : YouTubeComment)
    (rows : list YouTubeCommentInteraction) : Prop :=
  exists r, r ∈ rows /\ youtube_key r = (accountId, commentId c)
            /\ Js.truthy (ourReply r) = true
            /\ publishedAt c <= yi_createdAt r.

(** Started in a store whose [table] is [rows], [m] ends in a store
    that satisfies [Q]. *)
Definition from_rows {A X} (table : State -> X) (env : Env) (rows : X)
    (m : M A) (Q : State -> Prop) : Prop :=
  forall s, table s = rows -> Q (m env s).2.

(** What a YouTube run for [accountId] makes of the interactions
    [rows]: it leaves them, or it ends with the store step for a comment
    that was unreplied among those it fetched. *)
Definition youtube_run_rows (env : Env) (accountId : string)
    (rows : list YouTubeCommentInteraction) (s' : State) : Prop :=
  youTubeCommentInteractions s' = rows
  \/ exists allComments bestComment generatedReply replyId s,
       youTubeCommentInteractions s = rows
       /\ bestComment
          ∈ YouTube.unrepliedComments (repliedCommentIds accountId allComments rows)
              allComments
       /\ youTubeCommentInteractions s'
          = youTubeCommentInteractions
              (YouTube.storeInteraction accountId bestComment generatedReply replyId
                 env s).2.

(** What a Reddit run for [accountId] makes of the interactions [rows]:
    it leaves them, or it ends with the store step for some post. *)
Definition reddit_run_rows (env : Env) (accountId : string)
    (rows : list RedditInteraction) (s' : State) : Prop :=
  redditInteractions s' = rows
  \/ exists targetPost generatedReply commentId s,
       redditInteractions s = rows
       /\ redditInteractions s'
          = redditInteractions
              (Reddit.storeInteraction accountId targetPost generatedReply commentId
                 env s).2.

(** The surroundings of a run one hour after [Sample.env]. *)
Definition an_hour_later : Env := {|
  now := 1003600000;
  CRON_SECRET := Some "s3cret";
  session_user_id := None;
  new_id := "row2";
  new_createdAt := 1003600000;
  storage_down := fun _ => false;
  peers := Sample.world;
|}.
(** * Properties *)

(** ** Descending stable sort *)

Section SortDescending.
Context {A : Type} (key : A -> Z).

Let cmp (a b : A) : Z := key b - key a.

Lemma insert_Permutation (x : A) (l : list A) :
  Js.insert cmp x l ≡ₚ x :: l.
Proof.
  induction l as [|y ys IH]; simpl; [done|].
  destruct (cmp x y <=? 0); [done|].
  rewrite IH. apply perm_swap.
Qed.

Lemma sort_Permutation (l : list A) : Js.sort cmp l ≡ₚ l.
Proof.
  induction l as [|x l IH]; simpl; [done|].
  rewrite insert_Permutation. by rewrite IH.
Qed.

Lemma insert_HdRel (R : A -> A -> Prop) (a x : A) (l : list A) :
  R a x -> HdRel R a l -> HdRel R a (Js.insert cmp x l).
Proof.
  intros Hax Hl. destruct l as [|y ys]; simpl.
  - by constructor.
  - destruct (cmp x y <=? 0); constructor; [done|].
    by inversion Hl.
Qed.

Lemma insert_descending (x : A) (l : list A) :
  descending key l -> descending key (Js.insert cmp x l).
Proof.
  unfold descending. induction l as [|y ys IH]; simpl; intros Hs.
  - repeat constructor.
  - destruct (cmp x y <=? 0) eqn:E.
    + constructor; [done|]. constructor. unfold cmp in E. lia.
    + inversion Hs as [|? ? Hys Hhd]; subst.
      constructor; [by apply IH|].
      apply insert_HdRel; [|done]. unfold cmp in E. lia.
Qed.

Lemma sort_descending (l : list A) : descending key (Js.sort cmp l).
Proof.
  induction l as [|x l IH]; simpl.
  - constructor.
  - by apply insert_descending.
Qed.

Lemma head_insert (x : A) (l : list A) :
  head (Js.insert cmp x l)
  = match head l with
    | Some m => if key m <=? key x then Some x else Some m
    | None => Some x
    end.
Proof.
  destruct l as [|y ys]; simpl; [done|].
  unfold cmp. destruct (key y - key x <=? 0) eqn:E1;
    destruct (key y <=? key x) eqn:E2; simpl; try done; lia.
Qed.

Lemma head_sort_earliest_top (l : list A) :
  l <> [] -> exists c, head (Js.sort cmp l) = Some c /\ earliest_top key l c.
Proof.
  induction l as [|x l IH]; [done|]. intros _.
  simpl. rewrite head_insert.
  destruct l as [|y l'].
  - simpl. exists x. split; [done|]. exists [], []. by repeat constructor.
  - destruct IH as (m & Hm & pre & post & Hl & Hpre & Hpost); [done|].
    rewrite Hm. destruct (key m <=? key x) eqn:E.
    + exists x. split; [done|]. exists [], (y :: l').
      split; [done|]. split; [constructor|].
      rewrite Hl. apply Forall_app. split.
      * eapply Forall_impl; [exact Hpre|]. simpl. intros; lia.
      * constructor; [lia|].
        eapply Forall_impl; [exact Hpost|]. simpl. intros; lia.
    + exists m. split; [done|]. exists (x :: pre), post.
      split; [by rewrite Hl|]. split; [|done].
      constructor; [lia|done].
Qed.

End SortDescending.

(** ** C8: candidate selection *)

(** C8.  For a non-empty eligible list, the Reddit handler's
    [sortedPosts[0]] and the YouTube handler's [unrepliedComments[0]]
    after the sort are the first element of the list, in fetch order,
    that carries the greatest engagement (upvotes, likes); the sorted
    list is a rearrangement of the eligible list in descending order of
    that metric. *)
Theorem selection_first_greatest
    (eligible : list RedditPost) (unreplied : list YouTubeComment) :
  eligible <> [] -> unreplied <> [] ->
  (exists c, Reddit.targetPost eligible = Some c
     /\ earliest_top ups eligible c
     /\ Reddit.sortedPosts eligible ≡ₚ eligible
     /\ descending ups (Reddit.sortedPosts eligible))
  /\ (exists c, YouTube.bestComment unreplied = Some c
     /\ earliest_top likeCount unreplied c
     /\ YouTube.sortedComments unreplied ≡ₚ unreplied
     /\ descending likeCount (YouTube.sortedComments unreplied)).
Proof.
  intros He Hu. split.
  - destruct (head_sort_earliest_top ups eligible He) as (c & Hc & Htop).
    exists c. repeat split; [exact Hc|exact Htop| |].
    + apply sort_Permutation.
    + apply sort_descending.
  - destruct (head_sort_earliest_top likeCount unreplied Hu) as (c & Hc & Htop).
    exists c. repeat split; [exact Hc|exact Htop| |].
    + apply sort_Permutation.
    + apply sort_descending.
Qed.

(** Two candidates tie at 20: the one fetched first is selected. *)
Lemma selection_first_greatest_witness :
  [Sample.post "x" "alice" 20; Sample.post "y" "bob" 20] <> []
  /\ [Sample.comment "x" "alice" 20; Sample.comment "y" "bob" 20] <> []
  /\ (exists c, Reddit.targetPost
                  [Sample.post "x" "alice" 20; Sample.post "y" "bob" 20] = Some c)
  /\ (exists c, YouTube.bestComment
                  [Sample.comment "x" "alice" 20; Sample.comment "y" "bob" 20] = Some c).
Proof.
  assert ([Sample.post "x" "alice" 20; Sample.post "y" "bob" 20] <> []) as He
    by discriminate.
  assert ([Sample.comment "x" "alice" 20; Sample.comment "y" "bob" 20] <> []) as Hu
    by discriminate.
  destruct (selection_first_greatest _ _ He Hu) as [(c & Hc & _) (d & Hd & _)].
  split; [exact He|]. split; [exact Hu|]. split; eauto.
Defined.

Example tie_first_fetched_wins :
  Reddit.targetPost [Sample.post "a" "al" 3; Sample.post "x" "alice" 20;
                     Sample.post "y" "bob" 20]
  = Some (Sample.post "x" "alice" 20).
Proof. reflexivity. Qed.

(** ** Reasoning about handler code *)

Lemma frame_refl (s : State) : frame s s.
Proof.
  split.
  - exists []. by rewrite app_nil_r.
  - auto.
  - auto.
Qed.

Lemma frame_trans (s1 s2 s3 : State) : frame s1 s2 -> frame s2 s3 -> frame s1 s3.
Proof.
  intros [(t1 & E1 & F1) R1 Y1] [(t2 & E2 & F2) R2 Y2]. split.
  - exists (t1 ++ t2)%list. rewrite E2, E1, <- app_assoc. split; [done|].
    apply Forall_app; auto.
  - intros r Hr. destruct (R2 r Hr); auto.
  - intros r Hr. destruct (Y2 r Hr); auto.
Qed.

Section Triples.
Context {A B : Type}.

Lemma triple_ret (a : A) (Q : A -> Prop) : Q a -> triple (ret a) Q.
Proof. intros Ha env s. simpl. split; [apply frame_refl|done]. Qed.

Lemma triple_throw (msg : string) (Q : A -> Prop) : triple (throw msg) Q.
Proof. intros env s. simpl. split; [apply frame_refl|done]. Qed.

Lemma triple_weaken (m : M A) (Q Q' : A -> Prop) :
  triple m Q -> (forall a, Q a -> Q' a) -> triple m Q'.
Proof.
  intros Hm HQ env s. destruct (Hm env s) as [Hf Hq]. split; [done|].
  destruct (m env s).1; auto.
Qed.

Lemma triple_bind (m : M A) (k : A -> M B) (Q1 : A -> Prop) (Q : B -> Prop) :
  triple m Q1 -> (forall a, Q1 a -> triple (k a) Q) -> triple (bind m k) Q.
Proof.
  intros Hm Hk env s. unfold bind.
  destruct (Hm env s) as [Hf Hq].
  destruct (m env s) as [[a|e] s1]; simpl in *; [|done].
  destruct (Hk a Hq env s1) as [Hf' Hq']. split; [|done].
  by eapply frame_trans.
Qed.

Lemma triple_try_catch (m : M A) (h : Exn -> M A) (Q : A -> Prop) :
  triple m Q -> (forall e, triple (h e) Q) -> triple (try_catch m h) Q.
Proof.
  intros Hm Hh env s. unfold try_catch.
  destruct (Hm env s) as [Hf Hq].
  destruct (m env s) as [[a|e] s1]; simpl in *; [done|].
  destruct (Hh e env s1) as [Hf' Hq']. split; [|done].
  by eapply frame_trans.
Qed.

Lemma triple_attempt (m : M A) (Q : A -> Prop) :
  triple m Q ->
  triple (attempt m) (fun r => match r with Ok a => Q a | Throw _ => True end).
Proof.
  intros Hm env s. unfold attempt.
  destruct (Hm env s) as [Hf Hq].
  by destruct (m env s) as [[a|e] s1].
Qed.

End Triples.

Lemma triple_ask : triple ask (fun _ => True).
Proof. intros env s. simpl. split; [apply frame_refl|done]. Qed.

Lemma triple_get : triple get (fun _ => True).
Proof. intros env s. simpl. split; [apply frame_refl|done]. Qed.

Lemma triple_storage (op : DbOp) : triple (storage op) (fun _ => True).
Proof.
  intros env s. unfold storage.
  destruct (storage_down env op); simpl; (split; [apply frame_refl|done]).
Qed.

Lemma triple_json (b : ResponseBody) (st : Z) (Q : Response -> Prop) :
  Q {| status := st; body := b |} -> triple (json b st) Q.
Proof. apply triple_ret. Qed.

Lemma frame_add_call (c : Call) (s : State) : short_call c -> frame s (add_call c s).
Proof.
  intros Hc. split; simpl; auto. exists [c]. split; [done|]. by constructor.
Qed.

Lemma frame_add_log (l : Log) (s : State) : frame s (add_log l s).
Proof. split; simpl; auto. exists []. by rewrite app_nil_r. Qed.

Lemma triple_fetch {A} (c : Call) (answer : Peers -> Http A) :
  short_call c -> triple (fetch c answer) (fun _ => True).
Proof.
  intros Hc env s. unfold fetch.
  destruct (answer (peers env)); simpl; (split; [by apply frame_add_call|done]).
Qed.

Lemma triple_createLog (accountId : string) (lvl : Level) (msg : string) :
  triple (createLog accountId lvl msg) (fun _ => True).
Proof.
  intros env s. unfold createLog, bind, storage, get, put.
  destruct (storage_down env LogCreate); simpl.
  - split; [apply frame_refl|done].
  - split; [apply frame_add_log|done].
Qed.

Lemma triple_set_accounts (f : list Account -> list Account) :
  triple (set_accounts f) (fun _ => True).
Proof.
  intros env s. unfold set_accounts, bind, get, put. simpl.
  split; [|done]. split; simpl; auto. exists []. by rewrite app_nil_r.
Qed.

Lemma triple_set_redditInteractions
    (f : list RedditInteraction -> list RedditInteraction) :
  (forall rows r, r ∈ f rows -> r ∈ rows \/ short (ourComment r)) ->
  triple (set_redditInteractions f) (fun _ => True).
Proof.
  intros Hf env s. unfold set_redditInteractions, bind, get, put. simpl.
  split; [|done]. split; simpl; auto. exists []. by rewrite app_nil_r.
Qed.

Lemma triple_set_youTubeCommentInteractions
    (f : list YouTubeCommentInteraction -> list YouTubeCommentInteraction) :
  (forall rows r, r ∈ f rows -> r ∈ rows \/ short_reply r) ->
  triple (set_youTubeCommentInteractions f) (fun _ => True).
Proof.
  intros Hf env s. unfold set_youTubeCommentInteractions, bind, get, put. simpl.
  split; [|done]. split; simpl; auto. exists []. by rewrite app_nil_r.
Qed.

Lemma triple_then_log {A} (m : M A) (accountId : string) (lvl : Level)
    (msg : A -> string) (Q : A -> Prop) :
  triple m Q ->
  triple (let* x := m in createLog accountId lvl (msg x);; ret x) Q.
Proof.
  intros Hm. eapply triple_bind; [exact Hm|]. intros x Hx.
  eapply triple_bind; [apply triple_createLog|]. intros _ _.
  by apply triple_ret.
Qed.

Create HintDb triples.

(** One step of symbolic execution of handler code under [triple];
    the stages proved so far are taken from the hint database. *)
Ltac triple_prim lem :=
  first [ apply lem | eapply triple_weaken; [apply lem|intros ? ?] ].

Ltac triple_step :=
  lazymatch goal with
  | |- triple (bind _ (fun x => bind (createLog _ _ _) (fun _ => ret x))) _ =>
      apply triple_then_log
  | |- triple (bind _ _) _ => eapply triple_bind; [|intros ? ?]
  | |- triple (json _ _) _ => apply triple_json
  | |- triple (ret _) ?Q =>
      tryif is_evar Q then apply (triple_ret _ (fun _ => True)); exact I
      else apply triple_ret
  | |- triple (throw _) _ => apply triple_throw
  | |- triple (attempt _) _ =>
      first [ apply triple_attempt
            | eapply triple_weaken; [apply triple_attempt|intros ? ?] ]
  | |- triple (try_catch _ _) _ => apply triple_try_catch; [|intros ?]
  | |- triple (createLog _ _ _) _ => triple_prim triple_createLog
  | |- triple (storage _) _ => triple_prim triple_storage
  | |- triple ask _ => triple_prim triple_ask
  | |- triple get _ => triple_prim triple_get
  | |- triple (set_accounts _) _ => triple_prim triple_set_accounts
  | |- triple (fetch _ _) _ => triple_prim @triple_fetch
  | |- triple (if ?b then _ else _) _ => destruct b eqn:?
  | |- triple (match ?x with _ => _ end) _ => destruct x eqn:?
  | |- triple _ _ =>
      first [ solve [eauto 3 with triples]
            | eapply triple_weaken; [solve [eauto 3 with triples]|intros ? ?] ]
  end.

Ltac triple_auto :=
  repeat (triple_step; simpl in *; try exact I; try assumption).
(** ** Every stage keeps within the frame *)

Lemma slice0_length (n : nat) (s : string) : (String.length (Js.slice0 n s) <= n)%nat.
Proof.
  revert s. induction n as [|n IH]; intros [|a r]; simpl; try lia.
  specialize (IH r). lia.
Qed.

Lemma slice0_short (s : string) : short (Js.slice0 500 s).
Proof. apply slice0_length. Qed.

Lemma triple_account_findUnique (accountId : string) :
  triple (account_findUnique accountId) (fun _ => True).
Proof. unfold account_findUnique. triple_auto. Qed.

Lemma triple_account_findFirst (accountId user : string) :
  triple (account_findFirst accountId user) (fun _ => True).
Proof. unfold account_findFirst. triple_auto. Qed.

#[global] Hint Resolve triple_account_findUnique triple_account_findFirst : triples.

Lemma reddit_refreshTokenIfNeeded_frame (accountId ci cs tok : string)
    (rt : option string) (exp : option Z) :
  triple (Reddit.refreshTokenIfNeeded accountId ci cs tok rt exp) (fun _ => True).
Proof. unfold Reddit.refreshTokenIfNeeded. triple_auto. Qed.

Lemma reddit_searchPosts_frame (tok kw tr : string) (lim : Z) :
  triple (Reddit.searchPosts tok kw tr lim) (fun _ => True).
Proof. unfold Reddit.searchPosts. triple_auto. Qed.

Lemma reddit_postComment_frame (tok nm text : string) :
  short text -> triple (Reddit.postComment tok nm text) (fun _ => True).
Proof. intros Ht. unfold Reddit.postComment. triple_auto. Qed.

Lemma reddit_generateReplyWithLLM_frame (k m sp t b a sr : string)
    (so : OpenRouterCredentials) :
  triple (Reddit.generateReplyWithLLM k m sp t b a sr so) short.
Proof.
  unfold Reddit.generateReplyWithLLM. triple_auto. apply slice0_short.
Qed.

Lemma reddit_interaction_upsert_frame (acc : string) (p : RedditPost)
    (reply cid : string) :
  short reply -> triple (Reddit.interaction_upsert acc p reply cid) (fun _ => True).
Proof.
  intros Hr. unfold Reddit.interaction_upsert. triple_auto.
  apply triple_set_redditInteractions. intros rows r.
  destruct (existsb _ rows).
  - rewrite list_elem_of_fmap. intros (r0 & -> & Hin).
    destruct (_ && _); simpl; auto.
  - rewrite elem_of_app, list_elem_of_singleton. intros [?| ->]; simpl; auto.
Qed.

Lemma reddit_cleanup_frame (acc : string) :
  triple (Reddit.cleanup acc) (fun _ => True).
Proof.
  unfold Reddit.cleanup. triple_auto.
  apply triple_set_redditInteractions. intros rows r.
  unfold Reddit.deleteMany. rewrite !list_elem_of_In, filter_In. tauto.
Qed.

#[global] Hint Resolve reddit_refreshTokenIfNeeded_frame reddit_searchPosts_frame
  reddit_postComment_frame reddit_generateReplyWithLLM_frame
  reddit_interaction_upsert_frame reddit_cleanup_frame : triples.

Lemma reddit_storeInteraction_frame (acc : string) (p : RedditPost)
    (reply cid : string) :
  short reply -> triple (Reddit.storeInteraction acc p reply cid) good_response.
Proof.
  intros Hr. unfold Reddit.storeInteraction. triple_auto. by split.
Qed.

#[global] Hint Resolve reddit_storeInteraction_frame : triples.

Lemma reddit_pipeline_frame (acc : string) (rc : RedditCredentials)
    (cfg : RedditConfiguration) (orc : OpenRouterCredentials) :
  triple (Reddit.pipeline acc rc cfg orc) good_response.
Proof.
  unfold Reddit.pipeline. triple_auto.
  all: try (unfold good_response; simpl; tauto).
Qed.

Lemma reddit_validate_frame (acc : string) (a : Account) :
  triple (Reddit.validate acc a) good_response.
Proof.
  unfold Reddit.validate. triple_auto.
  all: try (unfold good_response; simpl; tauto).
  all: apply reddit_pipeline_frame.
Qed.

Lemma reddit_found_frame (acc : string) (a : option Account) :
  triple (Reddit.found acc a) good_response.
Proof.
  unfold Reddit.found. triple_auto.
  all: try (unfold good_response; simpl; tauto).
  apply reddit_validate_frame.
Qed.

#[global] Hint Resolve reddit_found_frame : triples.

Lemma reddit_POST_frame (request : Request) :
  triple (Reddit.POST request) good_response.
Proof.
  unfold Reddit.POST. triple_auto.
  all: try (unfold good_response; simpl; tauto).
Qed.


Lemma youtube_refreshTokenIfNeeded_frame (ci cs : string)
    (tok rt : option string) (exp : option Z) :
  triple (YouTubeClient.refreshTokenIfNeeded ci cs tok rt exp) (fun _ => True).
Proof. unfold YouTubeClient.refreshTokenIfNeeded. triple_auto. Qed.

Lemma youtube_fetchChannelVideos_frame (tok : string) (n : Z) :
  triple (YouTubeClient.fetchChannelVideos tok n) (fun _ => True).
Proof. unfold YouTubeClient.fetchChannelVideos. triple_auto. Qed.

Lemma youtube_fetchVideoComments_frame (tok v t : string) (n : Z) :
  triple (YouTubeClient.fetchVideoComments tok v t n) (fun _ => True).
Proof. unfold YouTubeClient.fetchVideoComments. triple_auto. Qed.

Lemma youtube_postCommentReply_frame (tok parent text : string) :
  short text -> triple (YouTubeClient.postCommentReply tok parent text) (fun _ => True).
Proof. intros Ht. unfold YouTubeClient.postCommentReply. triple_auto. Qed.

Lemma youtube_generateReplyWithLLM_frame (k m sp c a v : string)
    (so : OpenRouterCredentials) :
  triple (YouTube.generateReplyWithLLM k m sp c a v so) short.
Proof. unfold YouTube.generateReplyWithLLM. triple_auto. apply slice0_short. Qed.

#[global] Hint Resolve youtube_refreshTokenIfNeeded_frame youtube_fetchChannelVideos_frame
  youtube_fetchVideoComments_frame youtube_postCommentReply_frame youtube_generateReplyWithLLM_frame
  : triples.

Lemma youtube_allComments_frame (tok : string) (min : Z)
    (videos : list YouTubeVideo) :
  triple (YouTube.allComments tok min videos) (fun _ => True).
Proof.
  induction videos as [|v rest IH]; simpl; triple_auto.
Qed.

Lemma youtube_persistTokens_frame (acc : string) (yc : YouTubeCredentials)
    (t : YouTubeClient.Tokens) :
  triple (YouTube.persistTokens acc yc t) (fun _ => True).
Proof. unfold YouTube.persistTokens. triple_auto. Qed.

Lemma youtube_interaction_upsert_frame (acc : string) (c : YouTubeComment)
    (reply rid : string) :
  short reply -> triple (YouTube.interaction_upsert acc c reply rid) (fun _ => True).
Proof.
  intros Hr. unfold YouTube.interaction_upsert. triple_auto.
  apply triple_set_youTubeCommentInteractions. intros rows r.
  destruct (existsb _ rows).
  - rewrite list_elem_of_fmap. intros (r0 & -> & Hin).
    destruct (_ && _); simpl; auto. right. by eexists.
  - rewrite elem_of_app, list_elem_of_singleton. intros [?| ->]; simpl; auto.
    right. by eexists.
Qed.

Lemma youtube_cleanup_frame (acc : string) :
  triple (YouTube.cleanup acc) (fun _ => True).
Proof.
  unfold YouTube.cleanup. triple_auto.
  apply triple_set_youTubeCommentInteractions. intros rows r.
  rewrite !list_elem_of_In, filter_In. tauto.
Qed.

#[global] Hint Resolve youtube_allComments_frame youtube_persistTokens_frame
  youtube_interaction_upsert_frame youtube_cleanup_frame : triples.

Lemma youtube_storeInteraction_frame (acc : string) (c : YouTubeComment)
    (reply rid : string) :
  short reply -> triple (YouTube.storeInteraction acc c reply rid) good_response.
Proof.
  intros Hr. unfold YouTube.storeInteraction. triple_auto. by split.
Qed.

#[global] Hint Resolve youtube_storeInteraction_frame : triples.

Lemma youtube_pipeline_frame (acc : string) (yc : YouTubeCredentials)
    (cfg : option YouTubeConfiguration) (orc : OpenRouterCredentials) :
  triple (YouTube.pipeline acc yc cfg orc) good_response.
Proof.
  unfold YouTube.pipeline. triple_auto.
  all: try (unfold good_response; simpl; tauto).
Qed.

Lemma youtube_validate_frame (acc : string) (a : Account) :
  triple (YouTube.validate acc a) good_response.
Proof.
  unfold YouTube.validate. triple_auto.
  all: try (unfold good_response; simpl; tauto).
  all: apply youtube_pipeline_frame.
Qed.

Lemma youtube_POST_frame (request : Request) :
  triple (YouTube.POST request) good_response.
Proof.
  unfold YouTube.POST. triple_auto.
  all: try (unfold good_response; simpl; tauto).
  all: apply youtube_validate_frame.
Qed.

(** ** C4: the engagement threshold *)

Lemma filter_length_le {A} (f g : A -> bool) (l : list A) :
  (forall x, f x = true -> g x = true) ->
  (List.length (List.filter f l) <= List.length (List.filter g l))%nat.
Proof.
  intros Hfg. induction l as [|x l IH]; simpl; [lia|].
  destruct (f x) eqn:Ef.
  - rewrite (Hfg x Ef). simpl. lia.
  - destruct (g x); simpl; lia.
Qed.

(** The YouTube filter is monotone in [minimumLikesCount]. *)
Lemma youtube_threshold_monotone (x y : Z) (comments : list YouTubeComment) :
  x < y ->
  (List.length (YouTube.filteredComments y comments)
   <= List.length (YouTube.filteredComments x comments))%nat.
Proof.
  intros Hxy. apply filter_length_le. intros c Hc. lia.
Qed.

(** The Reddit filter is monotone in [minimumUpvotes] as long as the
    lower setting is not [0]. *)
Lemma reddit_threshold_monotone (x y : Z) (replied : gset string)
    (username : option string) (posts : list RedditPost) :
  x <> 0 -> x < y ->
  (List.length (Reddit.eligiblePosts replied (Some y) username posts)
   <= List.length (Reddit.eligiblePosts replied (Some x) username posts))%nat.
Proof.
  intros Hx Hxy. apply filter_length_le. intros p. unfold Reddit.eligible.
  rewrite !andb_true_iff. intros [[[H1 H2] H3] H4]. repeat split; try done.
  simpl in *. destruct (x =? 0) eqn:Ex; [lia|].
  destruct (y =? 0) eqn:Ey; lia.
Qed.

(** C4.  The Reddit handler reads the threshold as [minimumUpvotes ||
    10], so the setting [0] acts as [10]: raising [minimumUpvotes] from
    [0] to [5] lets a post with 7 upvotes in, and the eligible set grows
    from no post to one. *)
Theorem reddit_threshold_zero_raised :
  0 < 5
  /\ Reddit.eligiblePosts ∅ (Some 0) (Some "bob") [Sample.post "p" "alice" 7] = []
  /\ Reddit.eligiblePosts ∅ (Some 5) (Some "bob") [Sample.post "p" "alice" 7]
     = [Sample.post "p" "alice" 7].
Proof. split; [lia|]. split; reflexivity. Qed.

(** ** C1: no reply to one's own content *)

(** The Reddit filter drops every post written by the account itself. *)
Lemma reddit_excludes_own_posts (replied : gset string) (minimum : option Z)
    (username : string) (posts : list RedditPost) (p : RedditPost) :
  p ∈ Reddit.eligiblePosts replied minimum (Some username) posts ->
  author p <> username.
Proof.
  unfold Reddit.eligiblePosts. rewrite list_elem_of_In, filter_In.
  unfold Reddit.eligible. rewrite !andb_true_iff. intros [_ [[[_ _] H] _]].
  apply negb_true_iff, bool_decide_eq_false in H. congruence.
Qed.

(** The top candidate of a Reddit run is never the account's own post. *)
Lemma reddit_target_not_own (replied : gset string) (minimum : option Z)
    (username : string) (posts : list RedditPost) (p : RedditPost) :
  Reddit.targetPost (Reddit.eligiblePosts replied minimum (Some username) posts)
  = Some p ->
  author p <> username.
Proof.
  intros Hp. apply (reddit_excludes_own_posts replied minimum username posts).
  unfold Reddit.targetPost in Hp. apply head_Some_elem_of in Hp.
  by rewrite (sort_Permutation ups) in Hp.
Qed.

(** C1.  The YouTube handler filters on likes and on earlier replies
    only.  With one comment on the channel, written by the channel
    itself ([authorChannelId] equal to the credentials' [channelId]) and
    liked 9 times, the run selects it, posts a reply to it and records
    the interaction. *)
Theorem youtube_replies_to_own_comment :
  let run := YouTube.POST Sample.from_scheduler Sample.env
               (Sample.store Sample.connected) in
  (youtubeCredentials Sample.connected ≫= y_channelId) = Some "UCme"
  /\ run.1 = Ok {| status := 200;
                   body := RepliedYouTube "me" "c1" "V1" "r1" "hello" |}
  /\ YouTubeCommentInsert "tok" "c1" "hello" ∈ calls run.2
  /\ map (fun r => (yi_commentId r, yi_authorChannelId r))
       (youTubeCommentInteractions run.2) = [("c1", "UCme")].
Proof.
  vm_compute. split; [done|]. split; [done|]. split; [|done].
  apply list_elem_of_In. do 4 right. by left.
Qed.

(** ** Running single steps *)

Lemma createLog_up (env : Env) (s : State) (accountId : string) (lvl : Level)
    (msg : string) :
  storage_down env LogCreate = false ->
  createLog accountId lvl msg env s
  = (Ok tt, add_log {| log_accountId := accountId; level := lvl; message := msg |} s).
Proof. intros Hup. unfold createLog, bind, storage, get, put. by rewrite Hup. Qed.

Lemma storage_up (env : Env) (s : State) (op : DbOp) :
  storage_down env op = false -> storage op env s = (Ok tt, s).
Proof. intros Hup. unfold storage. by rewrite Hup. Qed.

Lemma storage_out (env : Env) (s : State) (op : DbOp) :
  storage_down env op = true ->
  storage op env s = (Throw (JsError "storage unavailable"), s).
Proof. intros Hdown. unfold storage. by rewrite Hdown. Qed.

(** Both handlers always answer: whatever is thrown inside is caught by
    the outermost [try]. *)
Lemma reddit_POST_answers (request : Request) (env : Env) (s : State) :
  exists r, (Reddit.POST request env s).1 = Ok r.
Proof.
  unfold Reddit.POST, try_catch.
  destruct (_ env s) as [[r|e] s']; simpl; eauto.
Qed.

Lemma youtube_POST_answers (request : Request) (env : Env) (s : State) :
  exists r, (YouTube.POST request env s).1 = Ok r.
Proof.
  unfold YouTube.POST, try_catch.
  destruct (_ env s) as [[r|e] s']; simpl; eauto.
Qed.

(** ** C2: a reply that was posted but could not be recorded *)

(** In the Reddit handler a failing upsert is caught: one warning is
    logged and the run answers that it replied. *)
Lemma reddit_record_failure_still_replied (env : Env) (s : State)
    (accountId : string) (targetPost : RedditPost)
    (generatedReply commentId : string) :
  storage_down env InteractionUpsert = true ->
  storage_down env LogCreate = false ->
  Reddit.storeInteraction accountId targetPost generatedReply commentId env s
  = (Ok {| status := 200;
           body := RepliedReddit (author targetPost) (title targetPost)
                     generatedReply |},
     add_log {| log_accountId := accountId; level := warning;
                message := "Comment posted but failed to record in database" |} s).
Proof.
  intros Hdown Hlog.
  unfold Reddit.storeInteraction, bind, try_catch, Reddit.interaction_upsert, bind.
  rewrite (storage_out _ _ _ Hdown). by rewrite (createLog_up _ _ _ _ _ Hlog).
Qed.

(** C2.  The YouTube handler stores the interaction outside any inner
    [try].  With the reply posted and the upsert failing, the run
    answers 500 "Pipeline failed unexpectedly" and logs no warning. *)
Theorem youtube_record_failure_fails_run :
  let run := YouTube.POST Sample.from_scheduler (Sample.env_down InteractionUpsert)
               (Sample.store Sample.connected) in
  YouTubeCommentInsert "tok" "c1" "hello" ∈ calls run.2
  /\ run.1 = Ok {| status := 500; body := ErrorBody "Pipeline failed unexpectedly" |}
  /\ List.filter (fun l => bool_decide (level l = warning)) (logs run.2) = [].
Proof.
  vm_compute. split; [|done].
  apply list_elem_of_In. do 4 right. by left.
Qed.

(** ** C3: who may start a run *)

(** A Reddit request without the scheduler's secret and without a
    session is turned away before anything is read or written. *)
Lemma reddit_no_session_unauthorized (request : Request) (env : Env) (s : State)
    (b : Body) :
  request_json request = Some b ->
  Js.truthy (json_accountId b) = true ->
  Reddit.isCronCall env request = false ->
  Js.truthy (session_user_id env) = false ->
  Reddit.POST request env s
  = (Ok {| status := 401; body := ErrorBody "Unauthorized" |}, s).
Proof.
  intros Hb Hacc Hcron Hsess. unfold Reddit.POST, try_catch.
  rewrite Hb, Hacc. simpl. unfold bind, ask. by rewrite Hcron, Hsess.
Qed.

(** A Reddit request of a user who does not own the account finds no
    account, and no stage of the pipeline runs. *)
Lemma reddit_not_owner_not_found (request : Request) (env : Env) (s : State)
    (b : Body) :
  request_json request = Some b ->
  Js.truthy (json_accountId b) = true ->
  Reddit.isCronCall env request = false ->
  Js.truthy (session_user_id env) = true ->
  storage_down env AccountFind = false ->
  (forall a, a ∈ accounts s -> a_id a = Js.the (json_accountId b) ->
             userId a <> Js.the (session_user_id env)) ->
  Reddit.POST request env s
  = (Ok {| status := 404; body := ErrorBody "Account not found" |}, s).
Proof.
  intros Hb Hacc Hcron Hsess Hup Hown. unfold Reddit.POST, try_catch.
  rewrite Hb, Hacc. simpl. unfold bind, ask. rewrite Hcron, Hsess. simpl.
  unfold account_findFirst, bind, get. rewrite (storage_up _ _ _ Hup). simpl.
  destruct (List.find _ (accounts s)) as [a|] eqn:Hfind; [|done].
  apply find_some in Hfind as [Hin Hmatch].
  apply andb_true_iff in Hmatch as [H1 H2].
  apply String.eqb_eq in H1, H2.
  exfalso. eapply Hown; eauto. by apply list_elem_of_In.
Qed.

(** C3.  The YouTube handler looks the account up by its identifier
    alone.  A request that carries no secret, from a caller without a
    session, for an account of user [u1], runs the whole pipeline. *)
Theorem youtube_run_asks_no_caller :
  let run := YouTube.POST Sample.from_anyone Sample.env
               (Sample.store Sample.connected) in
  x_cron_secret Sample.from_anyone = None
  /\ session_user_id Sample.env = None
  /\ map userId (accounts (Sample.store Sample.connected)) = ["u1"]
  /\ run.1 = Ok {| status := 200;
                   body := RepliedYouTube "me" "c1" "V1" "r1" "hello" |}
  /\ existsb is_fetch_call (calls run.2) = true
  /\ YouTubeCommentInsert "tok" "c1" "hello" ∈ calls run.2.
Proof.
  vm_compute. do 5 (split; [done|]).
  apply list_elem_of_In. do 4 right. by left.
Qed.

(** ** The token refreshers, case by case *)

Lemma reddit_refresh_reuses (env : Env) (s : State) (accountId : string)
    (clientId clientSecret accessToken : string) (refreshToken : option string)
    (tokenExpiresAt : option Z) :
  expires_later env tokenExpiresAt = true ->
  Reddit.refreshTokenIfNeeded accountId clientId clientSecret accessToken
    refreshToken tokenExpiresAt env s
  = (Ok accessToken, s).
Proof.
  intros Hlater. unfold Reddit.refreshTokenIfNeeded, bind, ask.
  unfold expires_later in Hlater. by rewrite Hlater.
Qed.

Lemma reddit_refresh_without_token (env : Env) (s : State) (accountId : string)
    (clientId clientSecret accessToken : string) (refreshToken : option string)
    (tokenExpiresAt : option Z) :
  expires_later env tokenExpiresAt = false ->
  Js.truthy refreshToken = false ->
  Reddit.refreshTokenIfNeeded accountId clientId clientSecret accessToken
    refreshToken tokenExpiresAt env s
  = (Throw (JsError "No refresh token available"), s).
Proof.
  intros Hlater Hrt. unfold Reddit.refreshTokenIfNeeded, bind, ask.
  unfold expires_later in Hlater. by rewrite Hlater, Hrt.
Qed.

Lemma youtube_refresh_without_token (env : Env) (s : State)
    (clientId clientSecret : string) (accessToken refreshToken : option string)
    (tokenExpiresAt : option Z) :
  Js.truthy refreshToken = false ->
  YouTubeClient.refreshTokenIfNeeded clientId clientSecret accessToken
    refreshToken tokenExpiresAt env s
  = (Ok None, s).
Proof.
  intros Hrt. unfold YouTubeClient.refreshTokenIfNeeded.
  rewrite Hrt. by rewrite orb_true_r.
Qed.

Lemma youtube_refresh_reuses (env : Env) (s : State)
    (clientId clientSecret : string) (accessToken refreshToken : option string)
    (t : Z) :
  Js.truthy accessToken = true ->
  Js.truthy refreshToken = true ->
  t > now env + 5 * 60 * 1000 ->
  YouTubeClient.refreshTokenIfNeeded clientId clientSecret accessToken
    refreshToken (Some t) env s
  = (Ok (Some {| YouTubeClient.accessToken := Js.the accessToken;
                 YouTubeClient.refreshToken := Js.the refreshToken;
                 YouTubeClient.expiresAt := t |}), s).
Proof.
  intros Hat Hrt Ht. unfold YouTubeClient.refreshTokenIfNeeded.
  rewrite Hat, Hrt. simpl. unfold bind, ask.
  destruct (t >? now env + 5 * 60 * 1000) eqn:E; [done|lia].
Qed.

Lemma truthy_the (x : option string) : Js.truthy x = true -> Some (Js.the x) = x.
Proof.
  destruct x as [v|]; simpl; [|done].
  unfold Js.the. simpl. by destruct (String.eqb v EmptyString).
Qed.

(** A refresh that throws ends a validated Reddit run with 401. *)
Lemma reddit_pipeline_refresh_throws (env : Env) (s s2 : State) (accountId : string)
    (rc : RedditCredentials) (cfg : RedditConfiguration)
    (orc : OpenRouterCredentials) (e : Exn) :
  storage_down env LogCreate = false ->
  Reddit.refreshTokenIfNeeded accountId (r_clientId rc) (r_clientSecret rc)
    (Js.the (r_accessToken rc)) (r_refreshToken rc) (r_tokenExpiresAt rc) env
    (add_log {| log_accountId := accountId; level := info;
                message := "Starting Reddit pipeline" |} s)
  = (Throw e, s2) ->
  Reddit.pipeline accountId rc cfg orc env s
  = (Ok {| status := 401; body := ErrorBody "Failed to refresh token" |},
     add_log {| log_accountId := accountId; level := error;
                message := "Token refresh failed: " +:+ e_message e |} s2).
Proof.
  intros Hlog Hthrow. unfold Reddit.pipeline.
  unfold bind at 1. rewrite (createLog_up _ _ _ _ _ Hlog).
  unfold bind at 1. unfold attempt. rewrite Hthrow.
  unfold bind. by rewrite (createLog_up _ _ _ _ _ Hlog).
Qed.

(** A refresher that yields no token ends a validated YouTube run with 401. *)
Lemma youtube_pipeline_no_token (env : Env) (s s2 : State) (accountId : string)
    (yc : YouTubeCredentials) (cfg : option YouTubeConfiguration)
    (orc : OpenRouterCredentials) :
  storage_down env LogCreate = false ->
  YouTubeClient.refreshTokenIfNeeded (y_clientId yc) (y_clientSecret yc)
    (y_accessToken yc) (y_refreshToken yc) (y_tokenExpiresAt yc) env
    (add_log {| log_accountId := accountId; level := info;
                message := "YouTube pipeline started" |} s)
  = (Ok None, s2) ->
  YouTube.pipeline accountId yc cfg orc env s
  = (Ok {| status := 401; body := ErrorBody "YouTube authentication failed" |},
     add_log {| log_accountId := accountId; level := error;
                message := "Failed to get valid access token" |} s2).
Proof.
  intros Hlog Hnone. unfold YouTube.pipeline.
  unfold bind at 1. rewrite (createLog_up _ _ _ _ _ Hlog).
  unfold bind at 1. rewrite Hnone.
  unfold bind. by rewrite (createLog_up _ _ _ _ _ Hlog).
Qed.

(** ** The checks before the pipeline *)

Ltac failed_check Hlog :=
  unfold bind; rewrite (createLog_up _ _ _ _ _ Hlog); eexists; reflexivity.

(** An account that fails one of the checks of "Validate credentials"
    is answered 400, with the reason logged. *)
Lemma reddit_validate_not_ready (env : Env) (s : State) (accountId : string)
    (account : Account) :
  storage_down env LogCreate = false ->
  reddit_ready account = false ->
  exists msg,
    Reddit.validate accountId account env s
    = (Ok {| status := 400; body := ErrorBody msg |},
       add_log {| log_accountId := accountId; level := error; message := msg |} s).
Proof.
  intros Hlog Hready. unfold Reddit.validate.
  unfold reddit_ready, reddit_connected in Hready.
  destruct (redditCredentials account) as [rc|]; simpl in *; [|failed_check Hlog].
  destruct (Js.truthy (r_accessToken rc)); simpl in *; [|failed_check Hlog].
  destruct (redditConfig account) as [cfg|]; simpl in *; [|failed_check Hlog].
  destruct (Js.truthy (keywords cfg)); simpl in *; [|failed_check Hlog].
  destruct (negb _); simpl in *; [|failed_check Hlog].
  destruct (openRouterCredentials account) as [orc|]; simpl in *;
    [|failed_check Hlog].
  destruct (Js.truthy (apiKey orc)); simpl in *; [|failed_check Hlog].
  destruct (Js.truthy (selectedModel orc)); simpl in *; [done|failed_check Hlog].
Qed.

Lemma youtube_validate_not_ready (env : Env) (s : State) (accountId : string)
    (account : Account) :
  storage_down env LogCreate = false ->
  youtube_ready account = false ->
  exists msg,
    YouTube.validate accountId account env s
    = (Ok {| status := 400; body := ErrorBody msg |},
       add_log {| log_accountId := accountId; level := error; message := msg |} s).
Proof.
  intros Hlog Hready. unfold YouTube.validate.
  unfold youtube_ready, youtube_connected in Hready.
  destruct (youtubeCredentials account) as [yc|]; simpl in *; [|failed_check Hlog].
  destruct (Js.truthy (y_accessToken yc)); simpl in *; [|failed_check Hlog].
  destruct (Js.truthy (y_channelId yc)); simpl in *; [|failed_check Hlog].
  destruct (openRouterCredentials account) as [orc|]; simpl in *;
    [|failed_check Hlog].
  destruct (Js.truthy (apiKey orc)); simpl in *; [|failed_check Hlog].
  destruct (Js.truthy (selectedModel orc)); simpl in *; [done|failed_check Hlog].
Qed.

(** With no access token stored the first check fails. *)
Lemma reddit_validate_not_connected (env : Env) (s : State) (accountId : string)
    (account : Account) :
  storage_down env LogCreate = false ->
  reddit_connected account = false ->
  Reddit.validate accountId account env s
  = (Ok {| status := 400; body := ErrorBody "Reddit OAuth not connected" |},
     add_log {| log_accountId := accountId; level := error;
                message := "Reddit OAuth not connected" |} s).
Proof.
  intros Hlog Hc. unfold Reddit.validate. unfold reddit_connected in Hc.
  destruct (redditCredentials account) as [rc|]; simpl in *.
  - rewrite Hc. unfold bind. by rewrite (createLog_up _ _ _ _ _ Hlog).
  - unfold bind. by rewrite (createLog_up _ _ _ _ _ Hlog).
Qed.

Lemma youtube_validate_not_connected (env : Env) (s : State) (accountId : string)
    (account : Account) :
  storage_down env LogCreate = false ->
  youtube_connected account = false ->
  YouTube.validate accountId account env s
  = (Ok {| status := 400; body := ErrorBody "YouTube OAuth not connected" |},
     add_log {| log_accountId := accountId; level := error;
                message := "YouTube OAuth not connected" |} s).
Proof.
  intros Hlog Hc. unfold YouTube.validate. unfold youtube_connected in Hc.
  destruct (youtubeCredentials account) as [yc|]; simpl in *.
  - rewrite Hc. unfold bind. by rewrite (createLog_up _ _ _ _ _ Hlog).
  - unfold bind. by rewrite (createLog_up _ _ _ _ _ Hlog).
Qed.

(** ** C5: credentials without a refresh token *)

(** C5, as the code has it.  With no refresh token stored, neither
    refresher sends a request.  An account with no access token either
    does not reach the token step: the validation answers 400, and no
    request is sent.  In a validated run, the YouTube refresher yields
    no token and the run ends with 401 and no request sent; the Reddit
    refresher, when the stored expiry is not more than five minutes
    ahead, throws "No refresh token available" and the run ends with
    401 and no request sent. *)
Theorem no_refresh_token_outcome (env : Env) (s : State) (accountId : string)
    (off : Account)
    (rc : RedditCredentials) (cfg : RedditConfiguration)
    (yc : YouTubeCredentials) (ycfg : option YouTubeConfiguration)
    (orc : OpenRouterCredentials) :
  Js.truthy (r_refreshToken rc) = false ->
  expires_later env (r_tokenExpiresAt rc) = false ->
  Js.truthy (y_refreshToken yc) = false ->
  reddit_connected off = false ->
  youtube_connected off = false ->
  storage_down env LogCreate = false ->
  Reddit.refreshTokenIfNeeded accountId (r_clientId rc) (r_clientSecret rc)
    (Js.the (r_accessToken rc)) (r_refreshToken rc) (r_tokenExpiresAt rc) env s
  = (Throw (JsError "No refresh token available"), s)
  /\ YouTubeClient.refreshTokenIfNeeded (y_clientId yc) (y_clientSecret yc)
       (y_accessToken yc) (y_refreshToken yc) (y_tokenExpiresAt yc) env s
     = (Ok None, s)
  /\ (exists s',
        Reddit.pipeline accountId rc cfg orc env s
        = (Ok {| status := 401; body := ErrorBody "Failed to refresh token" |}, s')
        /\ calls s' = calls s)
  /\ (exists s',
        YouTube.pipeline accountId yc ycfg orc env s
        = (Ok {| status := 401; body := ErrorBody "YouTube authentication failed" |}, s')
        /\ calls s' = calls s)
  /\ (exists s',
        Reddit.validate accountId off env s
        = (Ok {| status := 400; body := ErrorBody "Reddit OAuth not connected" |}, s')
        /\ calls s' = calls s)
  /\ (exists s',
        YouTube.validate accountId off env s
        = (Ok {| status := 400; body := ErrorBody "YouTube OAuth not connected" |}, s')
        /\ calls s' = calls s).
Proof.
  intros Hr Hstale Hy Hoff Hoff' Hlog.
  split; [|split; [|split; [|split; [|split]]]].
  - by apply reddit_refresh_without_token.
  - by apply youtube_refresh_without_token.
  - eexists. split.
    + apply reddit_pipeline_refresh_throws; [done|].
      by apply reddit_refresh_without_token.
    + done.
  - eexists. split.
    + apply youtube_pipeline_no_token; [done|].
      by apply youtube_refresh_without_token.
    + done.
  - eexists. split; [by apply reddit_validate_not_connected|done].
  - eexists. split; [by apply youtube_validate_not_connected|done].
Qed.

Lemma no_refresh_token_outcome_witness :
  Js.truthy (r_refreshToken (Sample.reddit_creds (Some "tok") None None)) = false
  /\ expires_later Sample.env
       (r_tokenExpiresAt (Sample.reddit_creds (Some "tok") None None)) = false
  /\ Js.truthy (y_refreshToken (Sample.youtube_creds (Some "tok") None None)) = false
  /\ storage_down Sample.env LogCreate = false
  /\ exists s', Reddit.pipeline "acc" (Sample.reddit_creds (Some "tok") None None)
                  (Sample.reddit_config (Some 10)) Sample.llm Sample.env
                  (Sample.store Sample.connected)
                = (Ok {| status := 401;
                         body := ErrorBody "Failed to refresh token" |}, s')
                /\ calls s' = calls (Sample.store Sample.connected).
Proof.
  split; [reflexivity|]. split; [reflexivity|]. split; [reflexivity|].
  split; [reflexivity|].
  apply (no_refresh_token_outcome Sample.env (Sample.store Sample.connected) "acc"
           Sample.disconnected
           (Sample.reddit_creds (Some "tok") None None)
           (Sample.reddit_config (Some 10))
           (Sample.youtube_creds (Some "tok") None None) None Sample.llm);
    reflexivity.
Defined.

(** The claim as stated fails.  On the Reddit handler, with no refresh
    token but an expiry far ahead, the refresher returns the stored
    token, the search request is sent and the run replies.  On both
    handlers, an account with no tokens at all is answered 400 by the
    validation, before the token step. *)
Lemma no_refresh_token_run_not_401 :
  let rc := Sample.reddit_creds (Some "tok") None (Some 2000000000) in
  let s := Sample.store Sample.no_refresh_token in
  let run := Reddit.POST Sample.from_scheduler Sample.env s in
  let off := Sample.store Sample.disconnected in
  Js.truthy (r_refreshToken rc) = false
  /\ Reddit.refreshTokenIfNeeded "acc" (r_clientId rc) (r_clientSecret rc) "tok"
       (r_refreshToken rc) (r_tokenExpiresAt rc) Sample.env s
     = (Ok "tok", s)
  /\ run.1 = Ok {| status := 200; body := RepliedReddit "carol" "Tc" "hello" |}
  /\ existsb is_fetch_call (calls run.2) = true
  /\ (redditCredentials Sample.disconnected ≫= r_refreshToken) = None
  /\ (youtubeCredentials Sample.disconnected ≫= y_refreshToken) = None
  /\ (Reddit.POST Sample.from_scheduler Sample.env off).1
     = Ok {| status := 400; body := ErrorBody "Reddit OAuth not connected" |}
  /\ (YouTube.POST Sample.from_scheduler Sample.env off).1
     = Ok {| status := 400; body := ErrorBody "YouTube OAuth not connected" |}.
Proof. vm_compute. repeat split. Qed.

(** ** C6: a token that is still good *)

(** C6.  With a refresh token stored and the expiry more than five
    minutes ahead, the token step of either handler returns the stored
    access token and leaves the world as it was: no request is sent and
    the credentials are not written.  (The YouTube step is reached with
    an access token: the handler has checked it before.) *)
Theorem fresh_token_reused (env : Env) (s : State) (accountId : string)
    (rc : RedditCredentials) (yc : YouTubeCredentials) (t_r t_y : Z) :
  Js.truthy (r_refreshToken rc) = true ->
  r_tokenExpiresAt rc = Some t_r ->
  t_r > now env + 5 * 60 * 1000 ->
  Js.truthy (y_accessToken yc) = true ->
  Js.truthy (y_refreshToken yc) = true ->
  y_tokenExpiresAt yc = Some t_y ->
  t_y > now env + 5 * 60 * 1000 ->
  Reddit.refreshTokenIfNeeded accountId (r_clientId rc) (r_clientSecret rc)
    (Js.the (r_accessToken rc)) (r_refreshToken rc) (r_tokenExpiresAt rc) env s
  = (Ok (Js.the (r_accessToken rc)), s)
  /\ exists tokens,
       YouTubeClient.refreshTokenIfNeeded (y_clientId yc) (y_clientSecret yc)
         (y_accessToken yc) (y_refreshToken yc) (y_tokenExpiresAt yc) env s
       = (Ok (Some tokens), s)
       /\ Some (YouTubeClient.accessToken tokens) = y_accessToken yc
       /\ Some (YouTubeClient.refreshToken tokens) = y_refreshToken yc
       /\ Some (YouTubeClient.expiresAt tokens) = y_tokenExpiresAt yc
       /\ YouTube.persistTokens accountId yc tokens env s = (Ok tt, s).
Proof.
  intros Hrt Hexp Ht Hyat Hyrt Hyexp Hyt. split.
  - apply reddit_refresh_reuses. rewrite Hexp. simpl. lia.
  - eexists. split; [rewrite Hyexp; by apply youtube_refresh_reuses|].
    simpl. rewrite !truthy_the by done. repeat split; [done|].
    unfold YouTube.persistTokens. simpl. rewrite truthy_the by done.
    by rewrite bool_decide_eq_true_2.
Qed.

Lemma fresh_token_reused_witness :
  let rc := Sample.reddit_creds (Some "tok") (Some "rt") (Some 2000000000) in
  let s := Sample.store Sample.connected in
  Reddit.refreshTokenIfNeeded "acc" (r_clientId rc) (r_clientSecret rc)
    (Js.the (r_accessToken rc)) (r_refreshToken rc) (r_tokenExpiresAt rc)
    Sample.env s
  = (Ok "tok", s).
Proof.
  apply (fresh_token_reused Sample.env (Sample.store Sample.connected) "acc"
           (Sample.reddit_creds (Some "tok") (Some "rt") (Some 2000000000))
           (Sample.youtube_creds (Some "tok") (Some "rt") (Some 2000000000))
           2000000000 2000000000); first [reflexivity | simpl; lia].
Defined.

(** ** C7: length of the reply *)

(** C7.  Whatever the model returns, a reply the generator accepts is
    at most 500 characters long, and so is every comment a run sends to
    the platform, every reply it writes into an interaction row, and the
    reply it reports to the caller. *)
Theorem reply_at_most_500 (request : Request) (env : Env) (s : State)
    (apiKey model systemPrompt title body author context : string)
    (styleOptions : OpenRouterCredentials) :
  match (Reddit.generateReplyWithLLM apiKey model systemPrompt title body author
           context styleOptions env s).1 with
  | Ok reply => (String.length reply <= 500)%nat
  | Throw _ => True
  end
  /\ match (YouTube.generateReplyWithLLM apiKey model systemPrompt body author
              title styleOptions env s).1 with
     | Ok reply => (String.length reply <= 500)%nat
     | Throw _ => True
     end
  /\ frame s (Reddit.POST request env s).2
  /\ match (Reddit.POST request env s).1 with
     | Ok r => good_response r
     | Throw _ => True
     end
  /\ frame s (YouTube.POST request env s).2
  /\ match (YouTube.POST request env s).1 with
     | Ok r => good_response r
     | Throw _ => True
     end.
Proof.
  split; [apply reddit_generateReplyWithLLM_frame|].
  split; [apply youtube_generateReplyWithLLM_frame|].
  split; [apply reddit_POST_frame|].
  split; [apply reddit_POST_frame|].
  split; [apply youtube_POST_frame|].
  apply youtube_POST_frame.
Qed.

Example long_answer_is_cut :
  String.length (Js.slice0 500 (Js.trim (String.concat EmptyString (replicate 300 "ab"))))
  = 500%nat.
Proof. reflexivity. Qed.

(** ** C9: retention *)

Lemma filter_length_Permutation {A} (f : A -> bool) (l l' : list A) :
  l ≡ₚ l' -> List.length (List.filter f l) = List.length (List.filter f l').
Proof.
  induction 1 as [|x l l' _ IH|x y l|l l' l'' _ IH1 _ IH2]; simpl.
  - done.
  - destruct (f x); simpl; lia.
  - destruct (f x), (f y); simpl; lia.
  - lia.
Qed.

Lemma filter_filter_comm {A} (f g : A -> bool) (l : list A) :
  List.filter f (List.filter g l) = List.filter g (List.filter f l).
Proof.
  induction l as [|x l IH]; simpl; [done|].
  destruct (f x) eqn:Ef, (g x) eqn:Eg; simpl; rewrite ?Ef, ?Eg, ?IH; done.
Qed.

Lemma filter_none {A} (f : A -> bool) (l : list A) :
  Forall (fun x => f x = false) l -> List.filter f l = [].
Proof.
  induction 1 as [|x l Hx _ IH]; simpl; [done|]. by rewrite Hx.
Qed.

Lemma filter_length_bound {A} (f : A -> bool) (l : list A) :
  (List.length (List.filter f l) <= List.length l)%nat.
Proof. induction l as [|x l IH]; simpl; [lia|]. destruct (f x); simpl; lia. Qed.

Lemma same_key_same_row {A} (key : A -> string) (l : list A) (x y : A) :
  NoDup (map key l) -> x ∈ l -> y ∈ l -> key x = key y -> x = y.
Proof.
  induction l as [|z l IH]; simpl; intros Hnd Hx Hy Hk.
  - by apply elem_of_nil in Hx.
  - apply NoDup_cons in Hnd as [Hz Hnd].
    apply elem_of_cons in Hx as [->|Hx]; apply elem_of_cons in Hy as [->|Hy].
    + done.
    + exfalso. apply Hz. rewrite Hk. by apply list_elem_of_fmap_2.
    + exfalso. apply Hz. rewrite <- Hk. by apply list_elem_of_fmap_2.
    + by apply IH.
Qed.

Lemma StronglySorted_app_cross {A} (R : A -> A -> Prop) (l1 l2 : list A) (x y : A) :
  StronglySorted R (l1 ++ l2) -> x ∈ l1 -> y ∈ l2 -> R x y.
Proof.
  induction l1 as [|z l1 IH]; simpl; intros Hs Hx Hy.
  - by apply elem_of_nil in Hx.
  - apply StronglySorted_inv in Hs as [Hs Hall].
    apply elem_of_cons in Hx as [->|Hx]; [|by apply IH].
    rewrite Forall_forall in Hall. apply Hall.
    apply elem_of_app. by right.
Qed.

Section RedditRetention.
Context (accountId : string) (rows : list RedditInteraction).

Let mine (r : RedditInteraction) : bool := String.eqb (ri_accountId r) accountId.
Let ordered : list RedditInteraction := orderByDesc ri_createdAt (List.filter mine rows).
Let old : list RedditInteraction := Reddit.oldInteractions accountId rows.
Let kept : list RedditInteraction := Reddit.deleteMany (map ri_id old) rows.

Lemma ordered_split : ordered = (take 100 ordered ++ old)%list.
Proof. unfold old, Reddit.oldInteractions. by rewrite take_drop. Qed.

Lemma old_in_rows (r : RedditInteraction) :
  r ∈ old -> r ∈ rows /\ ri_accountId r = accountId.
Proof.
  intros Hr. assert (r ∈ ordered) as Ho.
  { rewrite ordered_split. apply elem_of_app. by right. }
  unfold ordered, orderByDesc in Ho. rewrite (sort_Permutation ri_createdAt) in Ho.
  apply list_elem_of_In, filter_In in Ho as [Hin Hm].
  split; [by apply list_elem_of_In|]. by apply String.eqb_eq.
Qed.

Lemma kept_in_rows (r : RedditInteraction) : r ∈ kept -> r ∈ rows.
Proof.
  unfold kept, Reddit.deleteMany. rewrite !list_elem_of_In, filter_In. tauto.
Qed.

Lemma kept_at_most_100 : (List.length (List.filter mine kept) <= 100)%nat.
Proof.
  unfold kept, Reddit.deleteMany. rewrite filter_filter_comm.
  rewrite (filter_length_Permutation _ (List.filter mine rows) ordered)
    by (symmetry; apply (sort_Permutation ri_createdAt)).
  rewrite ordered_split at 1. rewrite List.filter_app, length_app.
  rewrite (filter_none _ old).
  - simpl.
    pose proof (filter_length_bound
      (fun r => negb (bool_decide (ri_id r ∈ map ri_id old))) (take 100 ordered)) as Hb.
    rewrite length_take in Hb. lia.
  - apply Forall_forall. intros r Hr. apply negb_false_iff, bool_decide_eq_true.
    by apply list_elem_of_fmap_2.
Qed.

Lemma kept_iff_not_old (r : RedditInteraction) :
  NoDup (map ri_id rows) -> r ∈ rows -> r ∈ kept <-> r ∉ old.
Proof.
  intros Hnd Hr. unfold kept, Reddit.deleteMany.
  rewrite list_elem_of_In, filter_In, negb_true_iff, bool_decide_eq_false.
  rewrite <- list_elem_of_In. split.
  - intros [_ Hid] Hold. apply Hid. by apply list_elem_of_fmap_2.
  - intros Hold. split; [done|]. intros Hid.
    apply list_elem_of_fmap in Hid as (r' & Hk & Hr').
    apply Hold. replace r with r'; [done|].
    symmetry. eapply (same_key_same_row ri_id rows); eauto.
    by apply old_in_rows.
Qed.

Lemma kept_not_older (k d : RedditInteraction) :
  NoDup (map ri_id rows) -> k ∈ kept -> ri_accountId k = accountId -> d ∈ old ->
  ri_createdAt d <= ri_createdAt k.
Proof.
  intros Hnd Hk Hacc Hd.
  assert (k ∈ rows) as Hrows by by apply kept_in_rows.
  assert (k ∉ old) as Hnold by by apply kept_iff_not_old.
  assert (k ∈ take 100 ordered) as Htake.
  { assert (k ∈ ordered) as Ho.
    { unfold ordered, orderByDesc. rewrite (sort_Permutation ri_createdAt).
      apply list_elem_of_In, filter_In. split; [by apply list_elem_of_In|].
      by apply String.eqb_eq. }
    rewrite ordered_split in Ho. apply elem_of_app in Ho as [?|?]; done. }
  assert (StronglySorted (fun a b => ri_createdAt a >= ri_createdAt b) ordered) as Hs.
  { apply Sorted_StronglySorted; [intros x y z; lia|].
    apply (sort_descending ri_createdAt). }
  rewrite ordered_split in Hs.
  pose proof (StronglySorted_app_cross _ _ _ k d Hs Htake Hd). simpl in *. lia.
Qed.

End RedditRetention.

Lemma filter_all {A} (f : A -> bool) (l : list A) :
  Forall (fun x => f x = true) l -> List.filter f l = l.
Proof.
  induction 1 as [|x l Hx _ IH]; simpl; [done|]. by rewrite Hx, IH.
Qed.

Lemma NoDup_map_filter {A B} (key : A -> B) (f : A -> bool) (l : list A) :
  NoDup (map key l) -> NoDup (map key (List.filter f l)).
Proof.
  induction l as [|x l IH]; simpl; [done|]. intros Hnd.
  apply NoDup_cons in Hnd as [Hx Hnd]. destruct (f x); simpl; [|by apply IH].
  apply NoDup_cons. split; [|by apply IH]. intros Hin. apply Hx.
  apply list_elem_of_fmap in Hin as (y & -> & Hy).
  apply list_elem_of_In, filter_In in Hy as [Hy _].
  by apply list_elem_of_fmap_2, list_elem_of_In.
Qed.

(** The clean-up keeps exactly the hundred newest rows of the account:
    all of them when there are at most a hundred. *)
Lemma kept_newest_100 (accountId : string) (rows : list RedditInteraction) :
  NoDup (map ri_id rows) ->
  List.length
    (List.filter (fun r => String.eqb (ri_accountId r) accountId)
       (Reddit.deleteMany (map ri_id (Reddit.oldInteractions accountId rows)) rows))
  = Nat.min (List.length
               (List.filter (fun r => String.eqb (ri_accountId r) accountId) rows))
      100.
Proof.
  intros Hnd.
  set (mine := fun r => String.eqb (ri_accountId r) accountId).
  set (ordered := orderByDesc ri_createdAt (List.filter mine rows)).
  set (old := Reddit.oldInteractions accountId rows).
  assert (ordered ≡ₚ List.filter mine rows) as Hperm
    by apply (sort_Permutation ri_createdAt).
  assert (ordered = (take 100 ordered ++ old)%list) as Hsplit
    by (unfold old, Reddit.oldInteractions; by rewrite take_drop).
  assert (NoDup (map ri_id (take 100 ordered) ++ map ri_id old)) as Hids.
  { rewrite <- map_app, <- Hsplit. rewrite Hperm. by apply NoDup_map_filter. }
  apply NoDup_app in Hids as (_ & Hapart & _).
  unfold Reddit.deleteMany. rewrite filter_filter_comm.
  rewrite (filter_length_Permutation _ (List.filter mine rows) ordered)
    by by symmetry.
  rewrite Hsplit at 1. rewrite List.filter_app, length_app.
  rewrite (filter_none _ old).
  - rewrite filter_all.
    + simpl. rewrite length_take, Nat.add_0_r.
      rewrite (Permutation_length Hperm). lia.
    + apply Forall_forall. intros r Hr.
      apply negb_true_iff, bool_decide_eq_false. intros Hin.
      apply (Hapart (ri_id r)); [by apply list_elem_of_fmap_2|done].
  - apply Forall_forall. intros r Hr. apply negb_false_iff, bool_decide_eq_true.
    by apply list_elem_of_fmap_2.
Qed.

(** What the two store operations of the Reddit handler do when the
    storage is available. *)
Lemma reddit_upsert_runs (env : Env) (s : State) (accountId : string)
    (targetPost : RedditPost) (generatedReply commentId : string) :
  storage_down env InteractionUpsert = false ->
  NoDup (map ri_id (redditInteractions s)) ->
  new_id env ∉ map ri_id (redditInteractions s) ->
  exists s1,
    Reddit.interaction_upsert accountId targetPost generatedReply commentId env s
    = (Ok tt, s1)
    /\ NoDup (map ri_id (redditInteractions s1)).
Proof.
  intros Hup Hnd Hnew. eexists. split.
  - unfold Reddit.interaction_upsert, bind, ask, set_redditInteractions, bind, get, put.
    by rewrite (storage_up _ _ _ Hup).
  - simpl. destruct (existsb _ _).
    + rewrite map_map. erewrite map_ext; [exact Hnd|].
      intros r. by destruct (_ && _).
    + rewrite map_app. simpl. apply NoDup_app. split; [done|].
      split; [|apply NoDup_singleton].
      intros x Hx Hx'. apply list_elem_of_singleton in Hx'. by subst.
Qed.

Lemma reddit_cleanup_runs (env : Env) (s : State) (accountId : string) :
  storage_down env InteractionFindMany = false ->
  storage_down env InteractionDeleteMany = false ->
  exists s',
    Reddit.cleanup accountId env s = (Ok tt, s')
    /\ redditInteractions s'
       = Reddit.deleteMany
           (map ri_id (Reddit.oldInteractions accountId (redditInteractions s)))
           (redditInteractions s).
Proof.
  intros Hfind Hdel. unfold Reddit.cleanup, bind, get.
  rewrite (storage_up _ _ _ Hfind).
  destruct (0 <? _)%nat eqn:Hold.
  - unfold bind, set_redditInteractions, bind, get, put.
    rewrite (storage_up _ _ _ Hdel). by eexists.
  - exists s. split; [done|].
    apply Nat.ltb_ge in Hold.
    destruct (Reddit.oldInteractions accountId (redditInteractions s)) as [|? ?];
      [|simpl in Hold; lia].
    unfold Reddit.deleteMany. simpl. symmetry. apply filter_all.
    by apply Forall_forall.
Qed.

Lemma youtube_upsert_runs (env : Env) (s : State) (accountId : string)
    (bestComment : YouTubeComment) (generatedReply replyId : string) :
  storage_down env InteractionUpsert = false ->
  exists s1,
    YouTube.interaction_upsert accountId bestComment generatedReply replyId env s
    = (Ok tt, s1).
Proof.
  intros Hup. eexists.
  unfold YouTube.interaction_upsert, bind, ask, set_youTubeCommentInteractions,
    bind, get, put.
  by rewrite (storage_up _ _ _ Hup).
Qed.

Lemma youtube_cleanup_runs (env : Env) (s : State) (accountId : string) :
  storage_down env InteractionDeleteMany = false ->
  exists s',
    YouTube.cleanup accountId env s = (Ok tt, s')
    /\ youTubeCommentInteractions s'
       = List.filter (fun r =>
           negb (String.eqb (yi_accountId r) accountId
                 && (yi_createdAt r <? now env - 14 * 24 * 60 * 60 * 1000)))
           (youTubeCommentInteractions s).
Proof.
  intros Hdel. eexists. split.
  - unfold YouTube.cleanup, bind, ask, set_youTubeCommentInteractions, bind, get, put.
    by rewrite (storage_up _ _ _ Hdel).
  - done.
Qed.

#[local] Instance RedditInteraction_eq_dec : EqDecision RedditInteraction.
Proof. solve_decision. Defined.

(** C9.  With the storage available, the store step of a run is the
    upsert followed by the clean-up.  After it a Reddit account has
    exactly its hundred newest interaction rows, or all of them when
    there are at most a hundred: the number of its rows is the smaller
    of a hundred and the number before the clean-up, every row that was
    removed belongs to the account and is at least as old as every row
    the account keeps; a YouTube account has no row created more than
    14 days ago, and only such rows of the account were removed. *)
Theorem retention_after_record (env : Env) (s : State) (accountId : string)
    (targetPost : RedditPost) (bestComment : YouTubeComment)
    (generatedReply platformReplyId : string) :
  (forall op, storage_down env op = false) ->
  NoDup (map ri_id (redditInteractions s)) ->
  new_id env ∉ map ri_id (redditInteractions s) ->
  let recorded :=
    (Reddit.interaction_upsert accountId targetPost generatedReply platformReplyId
       env s).2 in
  let pruned := (Reddit.cleanup accountId env recorded).2 in
  let recorded_y :=
    (YouTube.interaction_upsert accountId bestComment generatedReply platformReplyId
       env s).2 in
  let pruned_y := (YouTube.cleanup accountId env recorded_y).2 in
  let fourteenDaysAgo := now env - 14 * 24 * 60 * 60 * 1000 in
  (Reddit.storeInteraction accountId targetPost generatedReply platformReplyId
     env s).2 = pruned
  /\ (List.length
        (List.filter (fun r => String.eqb (ri_accountId r) accountId)
           (redditInteractions pruned)) <= 100)%nat
  /\ List.length
       (List.filter (fun r => String.eqb (ri_accountId r) accountId)
          (redditInteractions pruned))
     = Nat.min
         (List.length
            (List.filter (fun r => String.eqb (ri_accountId r) accountId)
               (redditInteractions recorded)))
         100
  /\ Forall (fun k => k ∈ redditInteractions recorded) (redditInteractions pruned)
  /\ Forall (fun r =>
        r ∈ redditInteractions pruned
        \/ (ri_accountId r = accountId
            /\ Forall (fun k => ri_accountId k <> accountId
                                \/ ri_createdAt r <= ri_createdAt k)
                 (redditInteractions pruned)))
       (redditInteractions recorded)
  /\ (YouTube.storeInteraction accountId bestComment generatedReply platformReplyId
        env s).2 = pruned_y
  /\ Forall (fun r => yi_accountId r <> accountId \/ fourteenDaysAgo <= yi_createdAt r)
       (youTubeCommentInteractions pruned_y)
  /\ Forall (fun r =>
        r ∈ youTubeCommentInteractions pruned_y
        \/ (yi_accountId r = accountId /\ yi_createdAt r < fourteenDaysAgo))
       (youTubeCommentInteractions recorded_y).
Proof.
  intros Hup Hnd Hnew. simpl.
  destruct (reddit_upsert_runs env s accountId targetPost generatedReply
              platformReplyId (Hup _) Hnd Hnew) as (s1 & Hs1 & Hnd1).
  destruct (reddit_cleanup_runs env s1 accountId (Hup _) (Hup _)) as (s2 & Hs2 & Hrows).
  destruct (youtube_upsert_runs env s accountId bestComment generatedReply
              platformReplyId (Hup _)) as (y1 & Hy1).
  destruct (youtube_cleanup_runs env y1 accountId (Hup _)) as (y2 & Hy2 & Hyrows).
  rewrite Hs1, Hy1. simpl. rewrite Hs2, Hy2. simpl.
  split; [|split; [|split; [|split; [|split; [|split; [|split]]]]]].
  - unfold Reddit.storeInteraction, bind, try_catch, bind. by rewrite Hs1, Hs2.
  - rewrite Hrows. apply kept_at_most_100.
  - rewrite Hrows. by apply kept_newest_100.
  - rewrite Hrows. apply Forall_forall. intros k. apply kept_in_rows.
  - rewrite Hrows. apply Forall_forall. intros r Hr.
    destruct (decide (r ∈ Reddit.oldInteractions accountId (redditInteractions s1)))
      as [Hold|Hold].
    + right. split; [by destruct (old_in_rows _ _ _ Hold)|].
      apply Forall_forall. intros k Hk.
      destruct (decide (ri_accountId k = accountId)) as [Hacc|]; [right|by left].
      by eapply kept_not_older.
    + left. by apply kept_iff_not_old.
  - unfold YouTube.storeInteraction, bind. by rewrite Hy1, Hy2.
  - rewrite Hyrows. apply Forall_forall. intros r.
    rewrite list_elem_of_In, filter_In, negb_true_iff, andb_false_iff.
    intros [_ [H|H]].
    + left. by apply String.eqb_neq.
    + right. lia.
  - rewrite Hyrows. apply Forall_forall. intros r Hr.
    destruct (String.eqb (yi_accountId r) accountId
              && (yi_createdAt r <? now env - 14 * 24 * 60 * 60 * 1000)) eqn:E.
    + right. apply andb_true_iff in E as [E1 E2].
      apply String.eqb_eq in E1. split; [done|lia].
    + left. apply list_elem_of_In, filter_In. split; [by apply list_elem_of_In|].
      by rewrite E.
Qed.

Lemma retention_after_record_witness :
  let recorded :=
    (Reddit.interaction_upsert "acc" (Sample.post "c" "carol" 20) "hello" "t1_x"
       Sample.env crowded).2 in
  let after :=
    (Reddit.storeInteraction "acc" (Sample.post "c" "carol" 20) "hello" "t1_x"
       Sample.env crowded).2 in
  List.length (redditInteractions recorded) = 102%nat
  /\ List.length
       (List.filter (fun r => String.eqb (ri_accountId r) "acc")
          (redditInteractions after)) = 100%nat
  /\ Forall (fun r => 3 <= ri_createdAt r) (redditInteractions after).
Proof.
  assert (forall op, storage_down Sample.env op = false) as Hup by reflexivity.
  assert (NoDup (map ri_id (redditInteractions crowded))) as Hnd.
  { refine (bool_decide_unpack _ _). vm_compute. reflexivity. }
  assert (new_id Sample.env ∉ map ri_id (redditInteractions crowded)) as Hnew.
  { refine (bool_decide_unpack _ _). vm_compute. reflexivity. }
  destruct (retention_after_record Sample.env crowded "acc"
              (Sample.post "c" "carol" 20) (Sample.comment "c1" "me" 9)
              "hello" "t1_x" Hup Hnd Hnew) as (E & _ & Hexact & _ & Hremoved & _).
  intros recorded after. unfold recorded, after. rewrite E.
  split; [vm_compute; reflexivity|]. split.
  - etrans; [exact Hexact|]. vm_compute. reflexivity.
  - refine (bool_decide_unpack _ _). vm_compute. reflexivity.
Defined.

(** ** The status of the answer *)

Lemma good_response_status (r : Response) :
  good_response r -> status_reflects_outcome r.
Proof.
  unfold good_response, status_reflects_outcome.
  destruct (body r); simpl; tauto.
Qed.

Lemma reddit_POST_status (request : Request) (env : Env) (s : State) :
  match (Reddit.POST request env s).1 with
  | Ok r => status_reflects_outcome r
  | Throw _ => False
  end.
Proof.
  destruct (reddit_POST_answers request env s) as [r Hr].
  pose proof (reddit_POST_frame request env s) as [_ Hq].
  rewrite Hr in *. by apply good_response_status.
Qed.

Lemma youtube_POST_status (request : Request) (env : Env) (s : State) :
  match (YouTube.POST request env s).1 with
  | Ok r => status_reflects_outcome r
  | Throw _ => False
  end.
Proof.
  destruct (youtube_POST_answers request env s) as [r Hr].
  pose proof (youtube_POST_frame request env s) as [_ Hq].
  rewrite Hr in *. by apply good_response_status.
Qed.

(** An outage of the account table is answered 500. *)
Lemma reddit_lookup_fails (request : Request) (env : Env) (s : State) (b : Body) :
  request_json request = Some b ->
  Js.truthy (json_accountId b) = true ->
  Reddit.isCronCall env request = true ->
  storage_down env AccountFind = true ->
  Reddit.POST request env s
  = (Ok {| status := 500; body := ErrorBody "Pipeline failed" |}, s).
Proof.
  intros Hb Hacc Hcron Hdown. unfold Reddit.POST, try_catch.
  rewrite Hb, Hacc. simpl. unfold bind, ask. rewrite Hcron.
  unfold account_findUnique, bind. by rewrite (storage_out _ _ _ Hdown).
Qed.

Lemma youtube_lookup_fails (request : Request) (env : Env) (s : State) (b : Body) :
  request_json request = Some b ->
  Js.truthy (json_accountId b) = true ->
  storage_down env AccountFind = true ->
  YouTube.POST request env s
  = (Ok {| status := 500; body := ErrorBody "Pipeline failed unexpectedly" |}, s).
Proof.
  intros Hb Hacc Hdown. unfold YouTube.POST, try_catch.
  rewrite Hb, Hacc. simpl.
  unfold account_findUnique, bind. by rewrite (storage_out _ _ _ Hdown).
Qed.

(** The claim as stated fails on both handlers: an account that is not
    connected (no tokens stored) is answered 400, not 401. *)
Lemma missing_connection_answers_400 :
  let s := Sample.store Sample.disconnected in
  (redditCredentials Sample.disconnected ≫= r_accessToken) = None
  /\ (redditCredentials Sample.disconnected ≫= r_refreshToken) = None
  /\ (youtubeCredentials Sample.disconnected ≫= y_accessToken) = None
  /\ (youtubeCredentials Sample.disconnected ≫= y_refreshToken) = None
  /\ (Reddit.POST Sample.from_scheduler Sample.env s).1
     = Ok {| status := 400; body := ErrorBody "Reddit OAuth not connected" |}
  /\ (YouTube.POST Sample.from_scheduler Sample.env s).1
     = Ok {| status := 400; body := ErrorBody "YouTube OAuth not connected" |}.
Proof. vm_compute. repeat split. Qed.

(** ** From the request to the pipeline

    A scheduler call for an account that passes every check runs the
    pipeline; what the pipeline answers is what the handler answers. *)


Lemma youtube_POST_runs_pipeline (request : Request) (env : Env) (s : State)
    (b : Body) (account : Account) (yc : YouTubeCredentials)
    (orc : OpenRouterCredentials) :
  request_json request = Some b ->
  Js.truthy (json_accountId b) = true ->
  storage_down env AccountFind = false ->
  List.find (fun a => String.eqb (a_id a) (Js.the (json_accountId b))) (accounts s)
  = Some account ->
  youtubeCredentials account = Some yc ->
  openRouterCredentials account = Some orc ->
  youtube_ready account = true ->
  YouTube.POST request env s
  = try_catch
      (YouTube.pipeline (Js.the (json_accountId b)) yc (youtubeConfig account) orc)
      (fun error => json (ErrorBody "Pipeline failed unexpectedly") 500) env s.
Proof.
  intros Hb Hacc Hup Hfind Hyc Horc Hready.
  unfold youtube_ready, youtube_connected in Hready.
  rewrite Hyc, Horc in Hready. simpl in Hready.
  repeat (apply andb_true_iff in Hready as [Hready ?]).
  unfold YouTube.POST, try_catch. rewrite Hb, Hacc. simpl.
  unfold bind at 1. unfold account_findUnique, bind, get.
  rewrite (storage_up _ _ _ Hup), Hfind. simpl.
  unfold YouTube.validate. rewrite Hyc, Horc, Hready.
  by repeat match goal with H : _ = true |- _ => rewrite H; clear H end.
Qed.

(** * Further properties of the code *)

(** ** What a run replies to *)

Lemma head_sort_None {A} (cmp : A -> A -> Z) (l : list A) :
  head (Js.sort cmp l) = None -> l = [].
Proof.
  destruct l as [|x l]; [done|]. simpl.
  destruct (Js.sort cmp l) as [|y ys]; simpl; [done|].
  by destruct (cmp x y <=? 0).
Qed.

Lemma earliest_top_greatest {A} (key : A -> Z) (l : list A) (c x : A) :
  earliest_top key l c -> x ∈ l -> key x <= key c.
Proof.
  intros (pre & post & -> & Hpre & Hpost) Hx.
  rewrite Forall_forall in Hpre, Hpost.
  apply elem_of_app in Hx as [Hx|Hx]; [specialize (Hpre x Hx); simpl in *; lia|].
  apply elem_of_cons in Hx as [->|Hx]; [lia|]. by apply Hpost.
Qed.

(** X1.  The post a Reddit run picks was fetched in this run, has not been
    replied to, reaches the threshold the handler applies, is neither
    the account's own nor by a deleted user, and no eligible post has
    more upvotes. *)
Theorem reddit_target_sound (replied : gset string) (minimum : option Z)
    (username : option string) (posts : list RedditPost) (p : RedditPost) :
  Reddit.targetPost (Reddit.eligiblePosts replied minimum username posts) = Some p ->
  p ∈ posts
  /\ (id p ∉ replied)
  /\ Js.num_or minimum 10 <= ups p
  /\ Some (author p) <> username
  /\ author p <> "[deleted]"
  /\ Forall (fun q => Reddit.eligible replied minimum username q = false
                      \/ ups q <= ups p) posts.
Proof.
  intros Hp.
  assert (p ∈ Reddit.eligiblePosts replied minimum username posts) as Hin.
  { unfold Reddit.targetPost in Hp. apply head_Some_elem_of in Hp.
    by rewrite (sort_Permutation ups) in Hp. }
  pose proof Hin as Hel. unfold Reddit.eligiblePosts in Hel.
  apply list_elem_of_In, filter_In in Hel as [Hposts Hok].
  unfold Reddit.eligible in Hok. rewrite !andb_true_iff in Hok.
  destruct Hok as [[[H1 H2] H3] H4].
  apply negb_true_iff, bool_decide_eq_false in H1, H3.
  apply negb_true_iff, String.eqb_neq in H4.
  split; [by apply list_elem_of_In|]. split; [done|]. split; [lia|].
  split; [done|]. split; [done|].
  apply Forall_forall. intros q Hq.
  destruct (Reddit.eligible replied minimum username q) eqn:Eq; [right|by left].
  assert (Reddit.eligiblePosts replied minimum username posts <> []) as Hne.
  { intros E. rewrite E in Hin. by apply elem_of_nil in Hin. }
  destruct (head_sort_earliest_top ups _ Hne) as (c & Hc & Htop).
  unfold Reddit.targetPost, Reddit.sortedPosts in Hp. rewrite Hp in Hc.
  injection Hc as <-.
  apply (earliest_top_greatest ups _ _ _ Htop).
  apply list_elem_of_In, filter_In. split; [by apply list_elem_of_In|done].
Qed.

Lemma reddit_target_sound_witness :
  Some (author (Sample.post "c" "carol" 20)) <> Some "bob".
Proof.
  assert (Reddit.targetPost
            (Reddit.eligiblePosts ∅ (Some 10) (Some "bob")
               [Sample.post "a" "alice" 3; Sample.post "b" "bob" 20;
                Sample.post "c" "carol" 20])
          = Some (Sample.post "c" "carol" 20)) as H by reflexivity.
  exact (proj1 (proj2 (proj2 (proj2 (reddit_target_sound _ _ _ _ _ H))))).
Defined.

(** The handler's second test for "no eligible posts", after the sort,
    never fires: the sorted list has a first element whenever the
    eligible list is not empty. *)
Theorem reddit_target_exists (eligible : list RedditPost) :
  Reddit.targetPost eligible = None -> eligible = [].
Proof. apply head_sort_None. Qed.

(** X10.  The comment a YouTube run picks is one of the collected comments,
    has no recorded reply, and no unreplied comment has more likes. *)
Theorem youtube_best_sound (replied : gset string)
    (allComments : list YouTubeComment) (c : YouTubeComment) :
  YouTube.bestComment (YouTube.unrepliedComments replied allComments) = Some c ->
  c ∈ allComments
  /\ (commentId c ∉ replied)
  /\ Forall (fun q => commentId q ∈ replied \/ likeCount q <= likeCount c) allComments.
Proof.
  intros Hc.
  assert (c ∈ YouTube.unrepliedComments replied allComments) as Hin.
  { unfold YouTube.bestComment in Hc. apply head_Some_elem_of in Hc.
    by rewrite (sort_Permutation likeCount) in Hc. }
  pose proof Hin as Hel. unfold YouTube.unrepliedComments in Hel.
  apply list_elem_of_In, filter_In in Hel as [Hall Hok].
  apply negb_true_iff, bool_decide_eq_false in Hok.
  split; [by apply list_elem_of_In|]. split; [done|].
  apply Forall_forall. intros q Hq.
  destruct (decide (commentId q ∈ replied)) as [|Hnot]; [by left|right].
  assert (YouTube.unrepliedComments replied allComments <> []) as Hne.
  { intros E. rewrite E in Hin. by apply elem_of_nil in Hin. }
  destruct (head_sort_earliest_top likeCount _ Hne) as (d & Hd & Htop).
  unfold YouTube.bestComment, YouTube.sortedComments in Hc. rewrite Hc in Hd.
  injection Hd as <-.
  apply (earliest_top_greatest likeCount _ _ _ Htop).
  apply list_elem_of_In, filter_In. split; [by apply list_elem_of_In|].
  by apply negb_true_iff, bool_decide_eq_false.
Qed.

Lemma youtube_best_sound_witness :
  commentId (Sample.comment "c2" "ann" 9) ∉ ({[ "c1" ]} : gset string).
Proof.
  assert (YouTube.bestComment
            (YouTube.unrepliedComments {[ "c1" ]}
               [Sample.comment "c1" "me" 30; Sample.comment "c2" "ann" 9])
          = Some (Sample.comment "c2" "ann" 9)) as H by (vm_compute; reflexivity).
  exact (proj1 (proj2 (youtube_best_sound _ _ _ H))).
Defined.

(** ** Recording an interaction *)

Lemma reddit_upsert_rows (env : Env) (s : State) (accountId : string)
    (targetPost : RedditPost) (generatedReply commentId : string) :
  storage_down env InteractionUpsert = false ->
  exists s',
    Reddit.interaction_upsert accountId targetPost generatedReply commentId env s
    = (Ok tt, s')
    /\ accounts s' = accounts s
    /\ youTubeCommentInteractions s' = youTubeCommentInteractions s
    /\ logs s' = logs s /\ calls s' = calls s
    /\ redditInteractions s'
       = (let hit r := String.eqb (ri_accountId r) accountId
                       && String.eqb (postId r) (id targetPost) in
          if existsb hit (redditInteractions s) then
            map (fun r =>
              if hit r then
                {| ri_id := ri_id r; ri_accountId := ri_accountId r;
                   postId := postId r; ri_subreddit := ri_subreddit r;
                   postTitle := postTitle r; postAuthor := postAuthor r;
                   postUrl := postUrl r; upvotes := upvotes r;
                   commentCount := commentCount r;
                   ourComment := generatedReply; ourCommentId := commentId;
                   ri_repliedAt := now env; ri_createdAt := ri_createdAt r |}
              else r) (redditInteractions s)
          else
            (redditInteractions s
             ++ [ {| ri_id := new_id env; ri_accountId := accountId;
                     postId := id targetPost;
                     ri_subreddit := subreddit targetPost;
                     postTitle := title targetPost;
                     postAuthor := author targetPost;
                     postUrl := "https://reddit.com" +:+ permalink targetPost;
                     upvotes := ups targetPost;
                     commentCount := num_comments targetPost;
                     ourComment := generatedReply; ourCommentId := commentId;
                     ri_repliedAt := now env;
                     ri_createdAt := new_createdAt env |} ])%list).
Proof.
  intros Hup. eexists. split.
  - unfold Reddit.interaction_upsert, bind, ask, set_redditInteractions, bind, get, put.
    by rewrite (storage_up _ _ _ Hup).
  - done.
Qed.

Lemma reddit_hit_key (accountId : string) (p : RedditPost) (r : RedditInteraction) :
  String.eqb (ri_accountId r) accountId && String.eqb (postId r) (id p) = true
  <-> reddit_key r = (accountId, id p).
Proof.
  unfold reddit_key. rewrite andb_true_iff, !String.eqb_eq. split.
  - by intros [-> ->].
  - by intros [= -> ->].
Qed.

Lemma reddit_upsert_has_row (env : Env) (s : State) (accountId : string)
    (targetPost : RedditPost) (generatedReply commentId : string) :
  storage_down env InteractionUpsert = false ->
  exists r,
    r ∈ redditInteractions
          (Reddit.interaction_upsert accountId targetPost generatedReply commentId
             env s).2
    /\ reddit_key r = (accountId, id targetPost)
    /\ ourComment r = generatedReply /\ ourCommentId r = commentId.
Proof.
  intros Hup.
  destruct (reddit_upsert_rows env s accountId targetPost generatedReply commentId Hup)
    as (s' & Hrun & _ & _ & _ & _ & Hrows).
  rewrite Hrun. simpl. rewrite Hrows. clear Hrun Hrows.
  set (hit := fun r => String.eqb (ri_accountId r) accountId
                       && String.eqb (postId r) (id targetPost)).
  simpl. fold hit.
  destruct (existsb hit (redditInteractions s)) eqn:Hex.
  - apply existsb_exists in Hex as (r & Hr & Hh).
    eexists. split.
    + apply list_elem_of_fmap. exists r. split; [reflexivity|].
      by apply list_elem_of_In.
    + rewrite Hh. simpl. split; [by apply (reddit_hit_key accountId targetPost)|done].
  - eexists. split; [apply elem_of_app; right; by apply list_elem_of_singleton|].
    done.
Qed.

(** X2.  The Reddit upsert keeps one row per (account, post): with the keys
    distinct before, they are distinct after; the row of the post
    exists and carries the reply just written; every other row is as
    it was; a row is added only when the key was absent.  Writing the
    same post twice therefore leaves one row, with the later reply. *)
Theorem reddit_upsert_one_row_per_post (env : Env) (s : State) (accountId : string)
    (targetPost : RedditPost) (generatedReply commentId : string) :
  storage_down env InteractionUpsert = false ->
  NoDup (map reddit_key (redditInteractions s)) ->
  let rows := redditInteractions s in
  let rows' :=
    redditInteractions
      (Reddit.interaction_upsert accountId targetPost generatedReply commentId
         env s).2 in
  NoDup (map reddit_key rows')
  /\ (exists r, r ∈ rows' /\ reddit_key r = (accountId, id targetPost)
                /\ ourComment r = generatedReply /\ ourCommentId r = commentId)
  /\ Forall (fun r => reddit_key r = (accountId, id targetPost) \/ r ∈ rows') rows
  /\ List.length rows'
     = (if bool_decide ((accountId, id targetPost) ∈ map reddit_key rows)
        then List.length rows else S (List.length rows)).
Proof.
  intros Hup Hnd rows rows'. subst rows'.
  destruct (reddit_upsert_rows env s accountId targetPost generatedReply commentId Hup)
    as (s' & Hrun & _ & _ & _ & _ & Hrows).
  rewrite Hrun. simpl. rewrite Hrows. clear Hrun Hrows. fold rows.
  set (hit := fun r => String.eqb (ri_accountId r) accountId
                       && String.eqb (postId r) (id targetPost)).
  simpl. fold hit.
  assert (forall r, hit r = true <-> reddit_key r = (accountId, id targetPost)) as Hhit
    by (intros r; apply reddit_hit_key).
  destruct (existsb hit rows) eqn:Hex.
  - assert ((accountId, id targetPost) ∈ map reddit_key rows) as Hkey.
    { apply existsb_exists in Hex as (r & Hr & Hh). apply Hhit in Hh.
      rewrite <- Hh. apply list_elem_of_fmap_2. by apply list_elem_of_In. }
    rewrite (bool_decide_eq_true_2 _ Hkey).
    split; [|split; [|split]].
    + rewrite map_map. erewrite map_ext; [exact Hnd|].
      intros r. by destruct (hit r).
    + apply existsb_exists in Hex as (r & Hr & Hh).
      eexists. split.
      * apply list_elem_of_fmap. exists r. split; [reflexivity|].
        by apply list_elem_of_In.
      * rewrite Hh. simpl. split; [by apply Hhit|done].
    + apply Forall_forall. intros r Hr.
      destruct (hit r) eqn:Hh; [left; by apply Hhit|right].
      apply list_elem_of_fmap. exists r. by rewrite Hh.
    + by rewrite length_map.
  - assert ((accountId, id targetPost) ∉ map reddit_key rows) as Hkey.
    { intros Hin. apply list_elem_of_fmap in Hin as (r & Hk & Hr).
      assert (existsb hit rows = true) as Hyes; [|congruence].
      apply existsb_exists. exists r. split; [by apply list_elem_of_In|].
      by apply Hhit. }
    rewrite (bool_decide_eq_false_2 _ Hkey).
    split; [|split; [|split]].
    + rewrite map_app. simpl. apply NoDup_app. split; [done|].
      split; [|apply NoDup_singleton].
      intros k Hk Hk'. apply list_elem_of_singleton in Hk'. subst k.
      by apply Hkey.
    + eexists. split; [apply elem_of_app; right; by apply list_elem_of_singleton|].
      done.
    + apply Forall_forall. intros r Hr. right. apply elem_of_app. by left.
    + rewrite length_app. simpl. lia.
Qed.

Lemma reddit_upsert_one_row_per_post_witness :
  List.length
    (redditInteractions
       (Reddit.interaction_upsert "acc" (Sample.post "p1" "alice" 12) "again" "t1_9"
          Sample.env Sample.with_history).2)
  = 2%nat.
Proof.
  assert (storage_down Sample.env InteractionUpsert = false) as Hup by reflexivity.
  assert (NoDup (map reddit_key (redditInteractions Sample.with_history))) as Hnd.
  { simpl. apply NoDup_cons. split; [|apply NoDup_singleton].
    intros H. apply list_elem_of_singleton in H. discriminate. }
  destruct (reddit_upsert_one_row_per_post Sample.env Sample.with_history "acc"
              (Sample.post "p1" "alice" 12) "again" "t1_9" Hup Hnd)
    as (_ & _ & _ & Hlen).
  etrans; [exact Hlen|]. vm_compute. reflexivity.
Defined.

Lemma filter_map_same {A B} (f : A -> bool) (g : A -> A) (key : A -> B)
    (l : list A) :
  (forall x, f (g x) = f x) -> (forall x, key (g x) = key x) ->
  map key (List.filter f (map g l)) = map key (List.filter f l).
Proof.
  intros Hf Hkey. induction l as [|x l IH]; [done|]. cbn [map List.filter].
  rewrite Hf. destruct (f x); cbn [map]; by rewrite ?Hkey, IH.
Qed.

(** The upsert adds at most one row to the account, and the rows it
    rewrites keep their account and post. *)
Lemma reddit_upsert_account_rows (env : Env) (s : State) (accountId : string)
    (targetPost : RedditPost) (generatedReply commentId : string) :
  storage_down env InteractionUpsert = false ->
  let mine r := String.eqb (ri_accountId r) accountId in
  let rows' :=
    redditInteractions
      (Reddit.interaction_upsert accountId targetPost generatedReply commentId
         env s).2 in
  (List.length (List.filter mine rows')
   <= S (List.length (List.filter mine (redditInteractions s))))%nat
  /\ repliedPostIds accountId (redditInteractions s) ⊆ repliedPostIds accountId rows'.
Proof.
  intros Hup mine rows'. subst rows'.
  destruct (reddit_upsert_rows env s accountId targetPost generatedReply commentId Hup)
    as (s' & Hrun & _ & _ & _ & _ & Hrows).
  rewrite Hrun. simpl. rewrite Hrows. clear Hrun Hrows.
  set (hit := fun r => String.eqb (ri_accountId r) accountId
                       && String.eqb (postId r) (id targetPost)).
  simpl. fold hit. unfold repliedPostIds. fold mine.
  destruct (existsb hit (redditInteractions s)).
  - match goal with
    | |- context [map ?g (redditInteractions s)] =>
        assert (forall rows, map postId (List.filter mine (map g rows))
                             = map postId (List.filter mine rows)) as Hsame
    end.
    { intros rows. apply filter_map_same; intros r; by destruct (hit r). }
    split.
    + pose proof (f_equal List.length (Hsame (redditInteractions s))) as Hlen.
      rewrite !length_map in Hlen. rewrite Hlen. lia.
    + by rewrite Hsame.
  - rewrite List.filter_app, length_app. split.
    + cbn [List.filter]. destruct (mine _); simpl; lia.
    + rewrite map_app, list_to_set_app_L. by apply union_subseteq_l.
Qed.

(** With at most a hundred rows for the account the clean-up removes
    nothing. *)
Lemma reddit_cleanup_nothing (env : Env) (s : State) (accountId : string) :
  storage_down env InteractionFindMany = false ->
  (List.length
     (List.filter (fun r => String.eqb (ri_accountId r) accountId)
        (redditInteractions s)) <= 100)%nat ->
  Reddit.cleanup accountId env s = (Ok tt, s).
Proof.
  intros Hup Hfew. unfold Reddit.cleanup, bind, get.
  rewrite (storage_up _ _ _ Hup).
  assert (Reddit.oldInteractions accountId (redditInteractions s) = []) as ->; [|done].
  unfold Reddit.oldInteractions. apply drop_ge.
  unfold orderByDesc. by rewrite (sort_Permutation ri_createdAt).
Qed.

Lemma youtube_hit_key (accountId : string) (c : YouTubeComment)
    (r : YouTubeCommentInteraction) :
  String.eqb (yi_accountId r) accountId && String.eqb (yi_commentId r) (commentId c)
  = true
  <-> youtube_key r = (accountId, commentId c).
Proof.
  unfold youtube_key. rewrite andb_true_iff, !String.eqb_eq. split.
  - by intros [-> ->].
  - by intros [= -> ->].
Qed.

Lemma youtube_upsert_rows (env : Env) (s : State) (accountId : string)
    (c : YouTubeComment) (generatedReply replyId : string) :
  storage_down env InteractionUpsert = false ->
  exists s',
    YouTube.interaction_upsert accountId c generatedReply replyId env s = (Ok tt, s')
    /\ accounts s' = accounts s
    /\ redditInteractions s' = redditInteractions s
    /\ logs s' = logs s /\ calls s' = calls s
    /\ youTubeCommentInteractions s'
       = (let hit r := String.eqb (yi_accountId r) accountId
                       && String.eqb (yi_commentId r) (commentId c) in
          if existsb hit (youTubeCommentInteractions s) then
            map (fun r =>
                   if hit r
                   then youtube_written env accountId c generatedReply replyId
                          (yi_id r) (yi_createdAt r)
                   else r) (youTubeCommentInteractions s)
          else
            (youTubeCommentInteractions s
             ++ [youtube_written env accountId c generatedReply replyId
                   (new_id env) (new_createdAt env)])%list).
Proof.
  intros Hup. eexists. split.
  - unfold YouTube.interaction_upsert, bind, ask, set_youTubeCommentInteractions,
      bind, get, put.
    by rewrite (storage_up _ _ _ Hup).
  - done.
Qed.

Lemma youtube_upsert_has_row (env : Env) (s : State) (accountId : string)
    (c : YouTubeComment) (generatedReply replyId : string) :
  storage_down env InteractionUpsert = false ->
  exists r,
    r ∈ youTubeCommentInteractions
          (YouTube.interaction_upsert accountId c generatedReply replyId env s).2
    /\ youtube_key r = (accountId, commentId c)
    /\ ourReply r = Some generatedReply /\ ourReplyId r = Some replyId.
Proof.
  intros Hup.
  destruct (youtube_upsert_rows env s accountId c generatedReply replyId Hup)
    as (s' & Hrun & _ & _ & _ & _ & Hrows).
  rewrite Hrun. simpl. rewrite Hrows. clear Hrun Hrows.
  set (hit := fun r => String.eqb (yi_accountId r) accountId
                       && String.eqb (yi_commentId r) (commentId c)).
  simpl. fold hit.
  destruct (existsb hit (youTubeCommentInteractions s)) eqn:Hex.
  - apply existsb_exists in Hex as (r & Hr & Hh).
    eexists. split.
    + apply list_elem_of_fmap. exists r. split; [reflexivity|].
      by apply list_elem_of_In.
    + rewrite Hh. done.
  - eexists. split; [apply elem_of_app; right; by apply list_elem_of_singleton|].
    done.
Qed.

(** X11.  The YouTube upsert keeps one row per (account, comment): distinct
    keys stay distinct, the row of the comment exists with the reply
    just written, other rows are as they were, and a row is added only
    when the key was absent. *)
Theorem youtube_upsert_one_row_per_comment (env : Env) (s : State)
    (accountId : string) (c : YouTubeComment) (generatedReply replyId : string) :
  storage_down env InteractionUpsert = false ->
  NoDup (map youtube_key (youTubeCommentInteractions s)) ->
  let rows := youTubeCommentInteractions s in
  let rows' :=
    youTubeCommentInteractions
      (YouTube.interaction_upsert accountId c generatedReply replyId env s).2 in
  NoDup (map youtube_key rows')
  /\ (exists r, r ∈ rows' /\ youtube_key r = (accountId, commentId c)
                /\ ourReply r = Some generatedReply /\ ourReplyId r = Some replyId)
  /\ Forall (fun r => youtube_key r = (accountId, commentId c) \/ r ∈ rows') rows
  /\ List.length rows'
     = (if bool_decide ((accountId, commentId c) ∈ map youtube_key rows)
        then List.length rows else S (List.length rows)).
Proof.
  intros Hup Hnd rows rows'.
  split; [|split; [by apply youtube_upsert_has_row|]]; subst rows'.
  - destruct (youtube_upsert_rows env s accountId c generatedReply replyId Hup)
      as (s' & Hrun & _ & _ & _ & _ & Hrows).
    rewrite Hrun. simpl. rewrite Hrows. clear Hrun Hrows. fold rows.
    set (hit := fun r => String.eqb (yi_accountId r) accountId
                         && String.eqb (yi_commentId r) (commentId c)).
    simpl. fold hit.
    destruct (existsb hit rows) eqn:Hex.
    + rewrite map_map. erewrite map_ext_in; [exact Hnd|].
      intros r Hr. destruct (hit r) eqn:Hh; [|done].
      apply (youtube_hit_key accountId c) in Hh. by rewrite Hh.
    + rewrite map_app. simpl. apply NoDup_app. split; [done|].
      split; [|apply NoDup_singleton].
      intros k Hk Hk'. apply list_elem_of_singleton in Hk'. subst k.
      apply list_elem_of_fmap in Hk as (r & Hkey & Hr).
      assert (existsb hit rows = true) as Hyes; [|congruence].
      apply existsb_exists. exists r. split; [by apply list_elem_of_In|].
      by apply (youtube_hit_key accountId c).
  - destruct (youtube_upsert_rows env s accountId c generatedReply replyId Hup)
      as (s' & Hrun & _ & _ & _ & _ & Hrows).
    rewrite Hrun. simpl. rewrite Hrows. clear Hrun Hrows. fold rows.
    set (hit := fun r => String.eqb (yi_accountId r) accountId
                         && String.eqb (yi_commentId r) (commentId c)).
    simpl. fold hit.
    assert (forall r, hit r = true <-> youtube_key r = (accountId, commentId c))
      as Hhit by (intros r; apply youtube_hit_key).
    destruct (existsb hit rows) eqn:Hex.
    + assert ((accountId, commentId c) ∈ map youtube_key rows) as Hkey.
      { apply existsb_exists in Hex as (r & Hr & Hh). apply Hhit in Hh.
        rewrite <- Hh. apply list_elem_of_fmap_2. by apply list_elem_of_In. }
      rewrite (bool_decide_eq_true_2 _ Hkey). split.
      * apply Forall_forall. intros r Hr.
        destruct (hit r) eqn:Hh; [left; by apply Hhit|right].
        apply list_elem_of_fmap. exists r. by rewrite Hh.
      * by rewrite length_map.
    + assert ((accountId, commentId c) ∉ map youtube_key rows) as Hkey.
      { intros Hin. apply list_elem_of_fmap in Hin as (r & Hk & Hr).
        assert (existsb hit rows = true) as Hyes; [|congruence].
        apply existsb_exists. exists r. split; [by apply list_elem_of_In|].
        by apply Hhit. }
      rewrite (bool_decide_eq_false_2 _ Hkey). split.
      * apply Forall_forall. intros r Hr. right. apply elem_of_app. by left.
      * rewrite length_app. simpl. lia.
Qed.

Lemma youtube_upsert_one_row_per_comment_witness :
  List.length
    (youTubeCommentInteractions
       (YouTube.interaction_upsert "acc" (Sample.comment "c1" "me" 9) "again" "r9"
          Sample.env Sample.with_history).2)
  = 2%nat.
Proof.
  assert (storage_down Sample.env InteractionUpsert = false) as Hup by reflexivity.
  assert (NoDup (map youtube_key (youTubeCommentInteractions Sample.with_history)))
    as Hnd.
  { simpl. apply NoDup_cons. split; [|apply NoDup_singleton].
    intros H. apply list_elem_of_singleton in H. discriminate. }
  destruct (youtube_upsert_one_row_per_comment Sample.env Sample.with_history "acc"
              (Sample.comment "c1" "me" 9) "again" "r9" Hup Hnd)
    as (_ & _ & _ & Hlen).
  etrans; [exact Hlen|]. vm_compute. reflexivity.
Defined.

(** ** Fetching comments *)

Lemma add_calls_nil (s : State) : add_calls [] s = s.
Proof. destruct s. unfold add_calls. simpl. by rewrite app_nil_r. Qed.

Lemma add_calls_cons (c : Call) (cs : list Call) (s : State) :
  add_calls cs (add_call c s) = add_calls (c :: cs) s.
Proof. unfold add_calls, add_call. simpl. by rewrite <- app_assoc. Qed.

Lemma fetchVideoComments_tagged (env : Env) (s : State)
    (accessToken vid title : string) (maxResults : Z) :
  (YouTubeClient.fetchVideoComments accessToken vid title maxResults env s).2
  = add_call (YouTubeCommentThreads accessToken vid maxResults) s
  /\ forall comments,
       (YouTubeClient.fetchVideoComments accessToken vid title maxResults env s).1
       = Ok comments ->
       Forall (fun c => videoId c = vid /\ videoTitle c = title
                        /\ now env - 7 * 24 * 60 * 60 * 1000 <= publishedAt c)
         comments.
Proof.
  unfold YouTubeClient.fetchVideoComments, bind, fetch.
  destruct (youtube_commentThreads (peers env) accessToken vid maxResults)
    as [reason|st text|items]; simpl.
  - by split.
  - destruct (st =? 403); simpl; (split; [done|]); [|done].
    intros comments [= <-]. constructor.
  - split; [done|]. intros comments [= <-].
    apply Forall_map. apply Forall_forall. intros t Ht. simpl.
    apply list_elem_of_In, filter_In in Ht as [_ Ht].
    apply negb_true_iff in Ht. split; [done|]. split; [done|lia].
Qed.

(** X17.  One request per call of [fetchVideoComments].  A 403 (comments
    disabled) gives no comments and no error, any other refusal an
    error; of the threads returned, exactly those published within the
    last seven days are kept, in order, each tagged with the video. *)
Theorem fetchVideoComments_outcome (env : Env) (s : State)
    (accessToken vid title : string) (maxResults : Z) :
  let run := YouTubeClient.fetchVideoComments accessToken vid title maxResults env s in
  let sevenDaysAgo := now env - 7 * 24 * 60 * 60 * 1000 in
  run.2 = add_call (YouTubeCommentThreads accessToken vid maxResults) s
  /\ match youtube_commentThreads (peers env) accessToken vid maxResults with
     | OkJson items =>
         exists comments,
           run.1 = Ok comments
           /\ map commentId comments
              = map t_id (List.filter (fun t => sevenDaysAgo <=? t_publishedAt t) items)
           /\ Forall (fun c => videoId c = vid /\ videoTitle c = title
                               /\ sevenDaysAgo <= publishedAt c) comments
     | NotOk st _ =>
         if st =? 403 then run.1 = Ok [] else exists e, run.1 = Throw e
     | Rejected _ => exists e, run.1 = Throw e
     end.
Proof.
  intros run sevenDaysAgo. subst run.
  unfold YouTubeClient.fetchVideoComments, bind, fetch.
  destruct (youtube_commentThreads (peers env) accessToken vid maxResults)
    as [reason|st text|items]; simpl.
  - split; [done|]. by eexists.
  - destruct (st =? 403); simpl; [done|]. split; [done|]. by eexists.
  - split; [done|]. eexists. split; [reflexivity|]. split.
    + rewrite map_map. simpl. f_equal. apply filter_ext. intros t.
      subst sevenDaysAgo. destruct (_ <? _) eqn:E1, (_ <=? _) eqn:E2; simpl; try done; lia.
    + apply Forall_map. apply Forall_forall. intros t Ht. simpl.
      apply list_elem_of_In, filter_In in Ht as [_ Ht].
      apply negb_true_iff in Ht. subst sevenDaysAgo. split; [done|]. split; [done|lia].
Qed.

(** X13.  The loop over the videos never fails and sends one request per
    video, in order, changing nothing else: a video whose comments
    cannot be fetched is passed over.  Every comment collected has at
    least [minimumLikesCount] likes, was published within the last
    seven days and belongs to one of the videos. *)
Theorem allComments_collects (accessToken : string) (minimumLikesCount : Z)
    (videos : list YouTubeVideo) (env : Env) (s : State) :
  exists comments,
    YouTube.allComments accessToken minimumLikesCount videos env s
    = (Ok comments,
       add_calls (map (fun v => YouTubeCommentThreads accessToken (v_videoId v) 50)
                    videos) s)
    /\ Forall (fun c =>
         minimumLikesCount <= likeCount c
         /\ now env - 7 * 24 * 60 * 60 * 1000 <= publishedAt c
         /\ exists v, v ∈ videos /\ videoId c = v_videoId v
                      /\ videoTitle c = v_title v) comments.
Proof.
  revert s. induction videos as [|v rest IH]; intros s.
  - exists []. split; [|by constructor].
    change (YouTube.allComments accessToken minimumLikesCount [] env s = (Ok [], add_calls [] s)).
    by rewrite add_calls_nil.
  - simpl.
    destruct (fetchVideoComments_tagged env s accessToken (v_videoId v) (v_title v) 50)
      as [Hstate Hres].
    unfold bind at 1. unfold try_catch. unfold bind at 1.
    destruct (YouTubeClient.fetchVideoComments accessToken (v_videoId v) (v_title v)
                50 env s) as [r s1] eqn:Hfetch.
    simpl in Hstate, Hres. subst s1.
    destruct (IH (add_call (YouTubeCommentThreads accessToken (v_videoId v) 50) s))
      as (more & Hmore & Hall).
    assert (Forall (fun c =>
         minimumLikesCount <= likeCount c
         /\ now env - 7 * 24 * 60 * 60 * 1000 <= publishedAt c
         /\ exists v0, v0 ∈ v :: rest /\ videoId c = v_videoId v0
                       /\ videoTitle c = v_title v0) more) as Hall'.
    { eapply Forall_impl; [exact Hall|]. simpl.
      intros c (H1 & H2 & v0 & Hv0 & H3). split; [done|]. split; [done|].
      exists v0. split; [by apply elem_of_cons; right|done]. }
    destruct r as [comments|e]; simpl.
    + unfold bind. rewrite Hmore. rewrite add_calls_cons. eexists. split; [done|].
      apply Forall_app. split; [|done].
      assert (Forall (fun c => videoId c = v_videoId v /\ videoTitle c = v_title v
                /\ now env - 7 * 24 * 60 * 60 * 1000 <= publishedAt c) comments) as Hc.
      { by apply Hres. }
      unfold YouTube.filteredComments. apply Forall_forall. intros c Hin.
      apply list_elem_of_In, filter_In in Hin as [Hin Hlikes].
      rewrite Forall_forall in Hc. apply list_elem_of_In in Hin.
      destruct (Hc c Hin) as (Hv & Ht & Hrecent).
      split; [lia|]. split; [done|]. exists v. split; [by apply elem_of_cons; left|done].
    + unfold bind. rewrite Hmore. rewrite add_calls_cons. eexists. split; [done|].
      done.
Qed.

(** ** Refreshing a token *)



Lemma the_Some (v : string) : Js.the (Some v) = v.
Proof.
  unfold Js.the. simpl. destruct (String.eqb v EmptyString) eqn:E; [|done].
  by apply String.eqb_eq in E.
Qed.


(** X4.  A successful Reddit refresh for an account that has a
    credentials row sends one request, returns the new access token and
    stores it with its expiry in the credentials of the account,
    leaving the other columns and the other accounts as they were.
    When the new token lasts more than five minutes, the next call on
    the stored credentials returns it without a request. *)
Theorem reddit_refresh_then_reuse (env : Env) (s : State) (accountId : string)
    (rc : RedditCredentials) (data : TokenData) :
  expires_later env (r_tokenExpiresAt rc) = false ->
  Js.truthy (r_refreshToken rc) = true ->
  reddit_token (peers env) (r_clientId rc) (r_clientSecret rc)
    (Js.the (r_refreshToken rc)) = OkJson data ->
  storage_down env CredentialsUpdate = false ->
  (exists a, a ∈ accounts s /\ a_id a = accountId /\ is_Some (redditCredentials a)) ->
  let run :=
    Reddit.refreshTokenIfNeeded accountId (r_clientId rc) (r_clientSecret rc)
      (Js.the (r_accessToken rc)) (r_refreshToken rc) (r_tokenExpiresAt rc) env s in
  let stored :=
    {| r_clientId := r_clientId rc; r_clientSecret := r_clientSecret rc;
       r_accessToken := Some (access_token data);
       r_refreshToken := r_refreshToken rc;
       r_tokenExpiresAt := Some (now env + expires_in data * 1000);
       r_username := r_username rc |} in
  run.1 = Ok (access_token data)
  /\ calls run.2
     = (calls s ++ [RedditToken (r_clientId rc) (r_clientSecret rc)
                      (Js.the (r_refreshToken rc))])%list
  /\ Forall2 (fun a a' =>
                if String.eqb (a_id a) accountId
                then a_id a' = a_id a /\ userId a' = userId a
                     /\ redditConfig a' = redditConfig a
                     /\ youtubeCredentials a' = youtubeCredentials a
                     /\ youtubeConfig a' = youtubeConfig a
                     /\ openRouterCredentials a' = openRouterCredentials a
                     /\ (redditCredentials a = Some rc ->
                         redditCredentials a' = Some stored)
                else a' = a)
       (accounts s) (accounts run.2)
  /\ (300 < expires_in data ->
      Reddit.refreshTokenIfNeeded accountId (r_clientId stored) (r_clientSecret stored)
        (Js.the (r_accessToken stored)) (r_refreshToken stored)
        (r_tokenExpiresAt stored) env run.2
      = (Ok (access_token data), run.2)).
Proof.
  intros Hstale Hrt Hans Hup (a0 & Hin & Hid & Hrow) run stored.
  assert (existsb (fun a => String.eqb (a_id a) accountId
                            && bool_decide (is_Some (redditCredentials a)))
            (accounts s) = true) as Hex.
  { apply existsb_exists. exists a0. split; [by apply list_elem_of_In|].
    apply andb_true_iff. split; [by apply String.eqb_eq|by apply bool_decide_eq_true_2]. }
  assert (run = (Ok (access_token data),
                 {| accounts :=
                      map (fun a =>
                        if String.eqb (a_id a) accountId then
                          {| a_id := a_id a; userId := userId a;
                             redditCredentials :=
                               option_map (fun c =>
                                 {| r_clientId := r_clientId c;
                                    r_clientSecret := r_clientSecret c;
                                    r_accessToken := Some (access_token data);
                                    r_refreshToken := r_refreshToken c;
                                    r_tokenExpiresAt :=
                                      Some (now env + expires_in data * 1000);
                                    r_username := r_username c |})
                                 (redditCredentials a);
                             redditConfig := redditConfig a;
                             youtubeCredentials := youtubeCredentials a;
                             youtubeConfig := youtubeConfig a;
                             openRouterCredentials := openRouterCredentials a |}
                        else a) (accounts s);
                    redditInteractions := redditInteractions s;
                    youTubeCommentInteractions := youTubeCommentInteractions s;
                    logs := logs s;
                    calls := calls s ++ [RedditToken (r_clientId rc) (r_clientSecret rc)
                                           (Js.the (r_refreshToken rc))] |})) as Hrun.
  { subst run. unfold Reddit.refreshTokenIfNeeded, bind, ask.
    unfold expires_later in Hstale. rewrite Hstale, Hrt. simpl.
    unfold fetch. rewrite Hans. simpl.
    rewrite (storage_up _ _ _ Hup). cbn [get accounts add_call].
    by rewrite Hex. }
  rewrite Hrun. cbn [fst snd]. split; [done|]. split; [done|]. split.
  - clear Hrun Hex Hin. simpl.
    induction (accounts s) as [|a l IH]; simpl; constructor; [|done].
    destruct (String.eqb (a_id a) accountId); [|done]. simpl.
    repeat split; try done. by intros ->.
  - intros Hlong. rewrite reddit_refresh_reuses.
    + subst stored. cbn [r_accessToken]. by rewrite the_Some.
    + subst stored. unfold expires_later. cbn [r_tokenExpiresAt].
      apply Z.gtb_lt. lia.
Qed.

Lemma reddit_refresh_then_reuse_witness :
  let run :=
    Reddit.refreshTokenIfNeeded "acc" "ci" "cs" "tok" (Some "rt") None
      Sample.env (Sample.store Sample.connected) in
  run.1 = Ok "fresh"
  /\ Reddit.refreshTokenIfNeeded "acc" "ci" "cs" "fresh" (Some "rt")
       (Some (now Sample.env + 3600 * 1000)) Sample.env run.2
     = (Ok "fresh", run.2).
Proof.
  assert (exists a, a ∈ accounts (Sample.store Sample.connected)
                    /\ a_id a = "acc" /\ is_Some (redditCredentials a)) as Hrow.
  { exists Sample.connected. split; [by apply list_elem_of_singleton|].
    split; [reflexivity|by eexists]. }
  assert (300 < 3600) as Hlong by lia.
  destruct (reddit_refresh_then_reuse Sample.env (Sample.store Sample.connected)
              "acc" (Sample.reddit_creds (Some "tok") (Some "rt") None)
              {| access_token := "fresh"; expires_in := 3600;
                 refresh_token := None |}
              eq_refl eq_refl eq_refl eq_refl Hrow) as (Hok & _ & _ & Hreuse).
  split; [exact Hok|exact (Hreuse Hlong)].
Defined.

(** A Reddit refresh the endpoint refuses throws "Failed to refresh
    token" after one request and writes nothing. *)
Theorem reddit_refresh_refused (env : Env) (s : State) (accountId : string)
    (clientId clientSecret accessToken : string) (refreshToken : option string)
    (tokenExpiresAt : option Z) (st : Z) (text : string) :
  expires_later env tokenExpiresAt = false ->
  Js.truthy refreshToken = true ->
  reddit_token (peers env) clientId clientSecret (Js.the refreshToken)
  = NotOk st text ->
  Reddit.refreshTokenIfNeeded accountId clientId clientSecret accessToken
    refreshToken tokenExpiresAt env s
  = (Throw (JsError "Failed to refresh token"),
     add_call (RedditToken clientId clientSecret (Js.the refreshToken)) s).
Proof.
  intros Hstale Hrt Hans. unfold Reddit.refreshTokenIfNeeded, bind, ask.
  unfold expires_later in Hstale. rewrite Hstale, Hrt. simpl.
  unfold fetch. by rewrite Hans.
Qed.

(** ** Generating a reply *)




#[local] Arguments Js.slice0 : simpl never.



(** ** The requests a run sends *)

Section Emits.
Context {A B : Type}.

Lemma emits_weaken (m : M A) (Q Q' : Result A -> list Call -> Prop) :
  emits m Q -> (forall r sent, Q r sent -> Q' r sent) -> emits m Q'.
Proof.
  intros Hm HQ env s. destruct (Hm env s) as (sent & Hc & Hq). exists sent. auto.
Qed.

Lemma emits_ret (a : A) (Q : Result A -> list Call -> Prop) :
  Q (Ok a) [] -> emits (ret a) Q.
Proof. intros Hq env s. exists []. simpl. by rewrite app_nil_r. Qed.

Lemma emits_throw (msg : string) (Q : Result A -> list Call -> Prop) :
  Q (Throw (JsError msg)) [] -> emits (throw msg) Q.
Proof. intros Hq env s. exists []. simpl. by rewrite app_nil_r. Qed.

Lemma emits_bind (m : M A) (k : A -> M B) (Q1 : Result A -> list Call -> Prop)
    (Q : Result B -> list Call -> Prop) :
  emits m Q1 ->
  (forall a sent1, Q1 (Ok a) sent1 ->
     emits (k a) (fun r sent2 => Q r (sent1 ++ sent2)%list)) ->
  (forall e sent1, Q1 (Throw e) sent1 -> Q (Throw e) sent1) ->
  emits (bind m k) Q.
Proof.
  intros Hm Hk He env s. unfold bind.
  destruct (Hm env s) as (sent1 & Hc1 & Hq1).
  destruct (m env s) as [[a|e] s1]; simpl in *.
  - destruct (Hk a sent1 Hq1 env s1) as (sent2 & Hc2 & Hq2).
    exists (sent1 ++ sent2)%list. split; [|done].
    by rewrite Hc2, Hc1, app_assoc.
  - exists sent1. split; [done|]. by apply He.
Qed.

Lemma emits_try_catch (m : M A) (h : Exn -> M A)
    (Q1 Q : Result A -> list Call -> Prop) :
  emits m Q1 ->
  (forall a sent1, Q1 (Ok a) sent1 -> Q (Ok a) sent1) ->
  (forall e sent1, Q1 (Throw e) sent1 ->
     emits (h e) (fun r sent2 => Q r (sent1 ++ sent2)%list)) ->
  emits (try_catch m h) Q.
Proof.
  intros Hm Hok Hh env s. unfold try_catch.
  destruct (Hm env s) as (sent1 & Hc1 & Hq1).
  destruct (m env s) as [[a|e] s1]; simpl in *.
  - exists sent1. split; [done|]. by apply Hok.
  - destruct (Hh e sent1 Hq1 env s1) as (sent2 & Hc2 & Hq2).
    exists (sent1 ++ sent2)%list. split; [|done].
    by rewrite Hc2, Hc1, app_assoc.
Qed.

Lemma emits_attempt (m : M A) (Q : Result A -> list Call -> Prop) :
  emits m Q ->
  emits (attempt m)
    (fun r sent => match r with Ok r' => Q r' sent | Throw _ => False end).
Proof.
  intros Hm env s. unfold attempt.
  destruct (Hm env s) as (sent & Hc & Hq).
  destruct (m env s) as [r s1]. by exists sent.
Qed.

End Emits.

Lemma silent_reads_only {A} (m : M A) : silent m -> reads_only m.
Proof. intros H. eapply emits_weaken; [exact H|]. by intros r sent ->. Qed.

Lemma silent_ret {A} (a : A) : silent (ret a).
Proof. by apply emits_ret. Qed.

Lemma silent_throw {A} (msg : string) : silent (@throw A msg).
Proof. by apply emits_throw. Qed.

Lemma silent_bind {A B} (m : M A) (k : A -> M B) :
  silent m -> (forall a, silent (k a)) -> silent (bind m k).
Proof.
  intros Hm Hk. eapply emits_bind; [exact Hm| |].
  - intros a sent1 ->. eapply emits_weaken; [apply Hk|]. by intros r sent ->.
  - by intros e sent1 ->.
Qed.

Lemma silent_try_catch {A} (m : M A) (h : Exn -> M A) :
  silent m -> (forall e, silent (h e)) -> silent (try_catch m h).
Proof.
  intros Hm Hh. eapply emits_try_catch; [exact Hm| |].
  - by intros a sent1 ->.
  - intros e sent1 ->. eapply emits_weaken; [apply Hh|]. by intros r sent ->.
Qed.

Lemma silent_storage (op : DbOp) : silent (storage op).
Proof.
  intros env s. exists []. unfold storage.
  destruct (storage_down env op); simpl; by rewrite app_nil_r.
Qed.

Lemma silent_ask : silent ask.
Proof. intros env s. exists []. simpl. by rewrite app_nil_r. Qed.

Lemma silent_get : silent get.
Proof. intros env s. exists []. simpl. by rewrite app_nil_r. Qed.

Lemma silent_createLog (accountId : string) (lvl : Level) (msg : string) :
  silent (createLog accountId lvl msg).
Proof.
  intros env s. exists []. unfold createLog, bind, storage, get, put.
  destruct (storage_down env LogCreate); simpl; by rewrite app_nil_r.
Qed.

Lemma silent_set_accounts (f : list Account -> list Account) :
  silent (set_accounts f).
Proof. intros env s. exists []. simpl. by rewrite app_nil_r. Qed.

Lemma silent_set_redditInteractions
    (f : list RedditInteraction -> list RedditInteraction) :
  silent (set_redditInteractions f).
Proof. intros env s. exists []. simpl. by rewrite app_nil_r. Qed.

Lemma silent_set_youTubeCommentInteractions
    (f : list YouTubeCommentInteraction -> list YouTubeCommentInteraction) :
  silent (set_youTubeCommentInteractions f).
Proof. intros env s. exists []. simpl. by rewrite app_nil_r. Qed.

Lemma emits_fetch {A} (c : Call) (answer : Peers -> Http A) :
  emits (fetch c answer) (fun _ sent => sent = [c]).
Proof.
  intros env s. exists [c]. unfold fetch.
  by destruct (answer (peers env)).
Qed.

Lemma reads_only_bind {A B} (m : M A) (k : A -> M B) :
  reads_only m -> (forall a, reads_only (k a)) -> reads_only (bind m k).
Proof.
  intros Hm Hk. eapply emits_bind; [exact Hm| |].
  - intros a sent1 H1. eapply emits_weaken; [apply Hk|].
    intros r sent H2. simpl in *. by apply Forall_app.
  - by intros e sent1 H.
Qed.

Lemma reads_only_try_catch {A} (m : M A) (h : Exn -> M A) :
  reads_only m -> (forall e, reads_only (h e)) -> reads_only (try_catch m h).
Proof.
  intros Hm Hh. eapply emits_try_catch; [exact Hm| |].
  - by intros a sent1 H.
  - intros e sent1 H1. eapply emits_weaken; [apply Hh|].
    intros r sent H2. simpl in *. by apply Forall_app.
Qed.

Lemma reads_only_fetch {A} (c : Call) (answer : Peers -> Http A) :
  is_quiet c -> reads_only (fetch c answer).
Proof.
  intros Hc. eapply emits_weaken; [apply emits_fetch|].
  intros r sent ->. by constructor.
Qed.

Create HintDb quiet.

#[global] Hint Resolve silent_ret silent_throw silent_storage silent_ask silent_get
  silent_createLog silent_set_accounts silent_set_redditInteractions
  silent_set_youTubeCommentInteractions : quiet.

(** Symbolic execution of code that sends nothing, or reads only. *)
Ltac silent_step :=
  lazymatch goal with
  | |- silent (bind _ _) => apply silent_bind; [|intros ?]
  | |- silent (try_catch _ _) => apply silent_try_catch; [|intros ?]
  | |- silent (json _ _) => apply silent_ret
  | |- silent (if ?b then _ else _) => destruct b eqn:?
  | |- silent (match ?x with _ => _ end) => destruct x eqn:?
  | |- silent _ => solve [eauto with quiet]
  end.

Ltac reads_step :=
  lazymatch goal with
  | |- reads_only (bind _ _) => apply reads_only_bind; [|intros ?]
  | |- reads_only (try_catch _ _) => apply reads_only_try_catch; [|intros ?]
  | |- reads_only (fetch _ _) => apply reads_only_fetch; by split
  | |- reads_only (if ?b then _ else _) => destruct b eqn:?
  | |- reads_only (match ?x with _ => _ end) => destruct x eqn:?
  | |- reads_only _ =>
      first [ solve [eauto with quiet]
            | apply silent_reads_only; solve [eauto with quiet] ]
  end.

Lemma emits_silent {A} (m : M A) (Q : Result A -> list Call -> Prop) :
  silent m -> (forall r, Q r []) -> emits m Q.
Proof. intros Hm HQ. eapply emits_weaken; [exact Hm|]. by intros r sent ->. Qed.

Lemma quietly_weaken {A} (m : M A) (P P' : Result A -> Prop) :
  quietly m P -> (forall r, P r -> P' r) -> quietly m P'.
Proof.
  intros Hm HP. eapply emits_weaken; [exact Hm|]. intros r sent [-> Hr]. auto.
Qed.

Lemma quietly_silent {A} (m : M A) (P : Result A -> Prop) :
  silent m -> (forall r, P r) -> quietly m P.
Proof. intros Hm HP. eapply emits_weaken; [exact Hm|]. by intros r sent ->. Qed.

Lemma quietly_bind {A B} (m : M A) (k : A -> M B) (P : Result B -> Prop) :
  silent m -> (forall a, quietly (k a) P) -> (forall e, P (Throw e)) ->
  quietly (bind m k) P.
Proof.
  intros Hm Hk He. eapply emits_bind; [exact Hm| |].
  - intros a sent1 ->. apply Hk.
  - intros e sent1 ->. auto.
Qed.

Lemma quietly_try_catch {A} (m : M A) (h : Exn -> M A) (P : Result A -> Prop) :
  quietly m (fun r => match r with Ok _ => P r | Throw _ => True end) ->
  (forall e, quietly (h e) P) -> quietly (try_catch m h) P.
Proof.
  intros Hm Hh. eapply emits_try_catch; [exact Hm| |].
  - by intros a sent1 [-> Hp].
  - intros e sent1 [-> _]. apply Hh.
Qed.

Lemma quietly_json (b : ResponseBody) (st : Z) (P : Result Response -> Prop) :
  P (Ok {| status := st; body := b |}) -> quietly (json b st) P.
Proof. intros HP. by apply emits_ret. Qed.

Lemma quietly_log_json (accountId : string) (lvl : Level) (msg : string)
    (b : ResponseBody) (st : Z) (P : Result Response -> Prop) :
  P (Ok {| status := st; body := b |}) -> (forall e, P (Throw e)) ->
  quietly (createLog accountId lvl msg;; json b st) P.
Proof.
  intros HP He. apply quietly_bind; [apply silent_createLog| |done].
  intros []. by apply quietly_json.
Qed.

Lemma fails_error (st : Z) (e : string) : fails (Ok {| status := st; body := ErrorBody e |}).
Proof. by exists e. Qed.

Lemma run_trace_reads (r : Result Response) (reads : list Call) :
  Forall is_quiet reads ->
  match r with Ok resp => reported_reply (body resp) = None | Throw _ => True end ->
  run_trace r reads.
Proof. intros Hq Hr. exists reads. split; [done|]. by left. Qed.

Lemma run_trace_prefix (r : Result Response) (pre sent : list Call) :
  Forall is_quiet pre -> run_trace r sent -> run_trace r (pre ++ sent).
Proof.
  intros Hpre (reads & Hq & H). exists (pre ++ reads)%list.
  split; [by apply Forall_app|].
  destruct H as [[-> Hr]|[(chat & Hc & -> & Hr)|(chat & pub & text & Hc & Hp & -> & Hr)]].
  - by left.
  - right; left. exists chat. by rewrite app_assoc.
  - right; right. exists chat, pub, text. by rewrite app_assoc.
Qed.

Lemma run_trace_chat (r : Result Response) (chat : Call) (sent : list Call) :
  is_chat chat = true -> after_chat r sent -> run_trace r (chat :: sent).
Proof.
  intros Hc [[-> Hr]|(pub & text & Hp & -> & Hr)]; exists [].
  - split; [done|]. right; left. by exists chat.
  - split; [done|]. right; right. by exists chat, pub, text.
Qed.

Lemma run_trace_caught (e : Exn) (sent : list Call) (st : Z) (msg : string) :
  run_trace (Throw e) sent ->
  run_trace (Ok {| status := st; body := ErrorBody msg |}) sent.
Proof.
  intros (reads & Hq & H). exists reads. split; [done|].
  destruct H as [[-> _]|[(chat & Hc & -> & _)|(chat & pub & text & Hc & Hp & -> & _)]].
  - by left.
  - right; left. exists chat. repeat split; try done. by exists msg.
  - right; right. exists chat, pub, text. repeat split; try done. left. by exists msg.
Qed.

(** Token and read requests, then the rest of the run. *)
Lemma trace_bind_reads {A} (m : M A) (k : A -> M Response) :
  reads_only m -> (forall a, emits (k a) run_trace) -> emits (bind m k) run_trace.
Proof.
  intros Hm Hk. eapply emits_bind; [exact Hm| |].
  - intros a sent1 H1. eapply emits_weaken; [apply Hk|].
    intros r sent H2. by apply run_trace_prefix.
  - intros e sent1 H1. by apply run_trace_reads.
Qed.

Lemma trace_attempt_reads {A} (m : M A) (k : Result A -> M Response) :
  reads_only m -> (forall r, emits (k r) run_trace) ->
  emits (bind (attempt m) k) run_trace.
Proof.
  intros Hm Hk. eapply emits_bind; [apply emits_attempt, Hm| |].
  - intros a sent1 H1. eapply emits_weaken; [apply Hk|].
    intros r sent H2. by apply run_trace_prefix.
  - by intros e sent1 [].
Qed.

Lemma trace_quietly (m : M Response) :
  quietly m (fun r => match r with
                      | Ok resp => reported_reply (body resp) = None
                      | Throw _ => True
                      end) ->
  emits m run_trace.
Proof.
  intros Hm. eapply emits_weaken; [exact Hm|].
  intros r sent [-> Hr]. by apply run_trace_reads.
Qed.

Lemma trace_log_json (accountId : string) (lvl : Level) (msg : string)
    (b : ResponseBody) (st : Z) :
  reported_reply b = None ->
  emits (createLog accountId lvl msg;; json b st) run_trace.
Proof. intros Hb. apply trace_quietly. by apply quietly_log_json. Qed.

(** The chat request, then the rest of the run. *)
Lemma trace_attempt_chat {A} (m : M A) (k : Result A -> M Response) :
  emits m (fun _ sent => exists chat, is_chat chat = true /\ sent = [chat]) ->
  (forall r, emits (k r) after_chat) ->
  emits (bind (attempt m) k) run_trace.
Proof.
  intros Hm Hk. eapply emits_bind; [apply emits_attempt, Hm| |].
  - intros a sent1 (chat & Hc & ->). eapply emits_weaken; [apply Hk|].
    intros r sent H2. by apply run_trace_chat.
  - by intros e sent1 [].
Qed.

Lemma after_chat_quietly (m : M Response) : quietly m fails -> emits m after_chat.
Proof.
  intros Hm. eapply emits_weaken; [exact Hm|]. intros r sent [-> Hr]. by left.
Qed.

Lemma after_chat_bind_silent {A} (m : M A) (k : A -> M Response) :
  silent m -> (forall a, emits (k a) after_chat) -> emits (bind m k) after_chat.
Proof.
  intros Hm Hk. eapply emits_bind; [exact Hm| |].
  - intros a sent1 ->. apply Hk.
  - intros e sent1 ->. by left.
Qed.

(** The publish request, then the rest of the run. *)
Lemma after_chat_publish {A} (m : M A) (k : Result A -> M Response)
    (pub : Call) (text : string) :
  published_text pub = Some text ->
  emits m (fun _ sent => sent = [pub]) ->
  (forall e, quietly (k (Throw e)) fails) ->
  (forall a, quietly (k (Ok a)) (reports text)) ->
  emits (bind (attempt m) k) after_chat.
Proof.
  intros Hp Hm Hthrow Hok. eapply emits_bind; [apply emits_attempt, Hm| |].
  - intros [a|e] sent1 ->.
    + eapply emits_weaken; [apply Hok|]. intros r sent [-> Hr].
      right. by exists pub, text.
    + eapply emits_weaken; [apply Hthrow|]. intros r sent [-> Hr].
      right. exists pub, text. repeat split; try done.
      destruct r as [resp|]; [by left|done].
  - by intros e sent1 [].
Qed.

(** *** The stages *)

Lemma reddit_refresh_reads (accountId clientId clientSecret accessToken : string)
    (refreshToken : option string) (tokenExpiresAt : option Z) :
  reads_only (Reddit.refreshTokenIfNeeded accountId clientId clientSecret accessToken
                refreshToken tokenExpiresAt).
Proof. unfold Reddit.refreshTokenIfNeeded. repeat reads_step. Qed.

Lemma reddit_search_reads (accessToken keywords timeRange : string) (limit : Z) :
  reads_only (Reddit.searchPosts accessToken keywords timeRange limit).
Proof. unfold Reddit.searchPosts. repeat reads_step. Qed.

Lemma youtube_refresh_reads (clientId clientSecret : string)
    (accessToken refreshToken : option string) (tokenExpiresAt : option Z) :
  reads_only (YouTubeClient.refreshTokenIfNeeded clientId clientSecret accessToken
                refreshToken tokenExpiresAt).
Proof. unfold YouTubeClient.refreshTokenIfNeeded. repeat reads_step. Qed.

Lemma youtube_videos_reads (accessToken : string) (maxResults : Z) :
  reads_only (YouTubeClient.fetchChannelVideos accessToken maxResults).
Proof. unfold YouTubeClient.fetchChannelVideos. repeat reads_step. Qed.

Lemma youtube_comments_reads (accessToken videoId videoTitle : string) (maxResults : Z) :
  reads_only (YouTubeClient.fetchVideoComments accessToken videoId videoTitle maxResults).
Proof. unfold YouTubeClient.fetchVideoComments. repeat reads_step. Qed.

Lemma youtube_allComments_reads (accessToken : string) (minimumLikesCount : Z)
    (videos : list YouTubeVideo) :
  reads_only (YouTube.allComments accessToken minimumLikesCount videos).
Proof.
  induction videos as [|video rest IH]; simpl.
  - reads_step.
  - apply reads_only_bind.
    + apply reads_only_try_catch.
      * apply reads_only_bind; [apply youtube_comments_reads|]. intros ?. reads_step.
      * intros ?. reads_step.
    + intros ?. apply reads_only_bind; [exact IH|]. intros ?. reads_step.
Qed.

Lemma youtube_persistTokens_silent (accountId : string) (yc : YouTubeCredentials)
    (tokenResult : YouTubeClient.Tokens) :
  silent (YouTube.persistTokens accountId yc tokenResult).
Proof. unfold YouTube.persistTokens. repeat silent_step. Qed.

Lemma account_findUnique_silent (accountId : string) :
  silent (account_findUnique accountId).
Proof. unfold account_findUnique. repeat silent_step. Qed.

Lemma account_findFirst_silent (accountId user : string) :
  silent (account_findFirst accountId user).
Proof. unfold account_findFirst. repeat silent_step. Qed.

Lemma reddit_upsert_silent (accountId : string) (targetPost : RedditPost)
    (generatedReply commentId : string) :
  silent (Reddit.interaction_upsert accountId targetPost generatedReply commentId).
Proof. unfold Reddit.interaction_upsert. repeat silent_step. Qed.

Lemma reddit_cleanup_silent (accountId : string) : silent (Reddit.cleanup accountId).
Proof. unfold Reddit.cleanup. repeat silent_step. Qed.

Lemma youtube_upsert_silent (accountId : string) (bestComment : YouTubeComment)
    (generatedReply replyId : string) :
  silent (YouTube.interaction_upsert accountId bestComment generatedReply replyId).
Proof. unfold YouTube.interaction_upsert. repeat silent_step. Qed.

Lemma youtube_cleanup_silent (accountId : string) : silent (YouTube.cleanup accountId).
Proof. unfold YouTube.cleanup. repeat silent_step. Qed.

Lemma reddit_generator_chat (apiKey model systemPrompt postTitle postBody postAuthor
    subreddit : string) (styleOptions : OpenRouterCredentials) :
  emits (Reddit.generateReplyWithLLM apiKey model systemPrompt postTitle postBody
           postAuthor subreddit styleOptions)
    (fun _ sent => exists chat, is_chat chat = true /\ sent = [chat]).
Proof.
  unfold Reddit.generateReplyWithLLM.
  eapply emits_bind; [apply emits_fetch| |].
  - intros response sent1 ->.
    apply emits_silent.
    + destruct response; repeat silent_step.
    + intros r. eexists (OpenRouterChat _ _ _ _). split; [done|reflexivity].
  - intros e sent1 ->. eexists (OpenRouterChat _ _ _ _). split; [done|reflexivity].
Qed.

Lemma youtube_generator_chat (apiKey model systemPrompt commentContent authorName
    videoTitle : string) (styleOptions : OpenRouterCredentials) :
  emits (YouTube.generateReplyWithLLM apiKey model systemPrompt commentContent
           authorName videoTitle styleOptions)
    (fun _ sent => exists chat, is_chat chat = true /\ sent = [chat]).
Proof.
  unfold YouTube.generateReplyWithLLM.
  eapply emits_bind; [apply emits_fetch| |].
  - intros response sent1 ->.
    apply emits_silent.
    + destruct response; repeat silent_step.
    + intros r. eexists (OpenRouterChat _ _ _ _). split; [done|reflexivity].
  - intros e sent1 ->. eexists (OpenRouterChat _ _ _ _). split; [done|reflexivity].
Qed.

Lemma reddit_postComment_publishes (accessToken postFullname text : string) :
  emits (Reddit.postComment accessToken postFullname text)
    (fun _ sent => sent = [RedditComment accessToken postFullname text]).
Proof.
  unfold Reddit.postComment.
  eapply emits_bind; [apply emits_fetch| |].
  - intros response sent1 ->.
    apply emits_silent.
    + destruct response; repeat silent_step.
    + done.
  - by intros e sent1 ->.
Qed.

Lemma youtube_postCommentReply_publishes (accessToken parentCommentId replyText : string) :
  emits (YouTubeClient.postCommentReply accessToken parentCommentId replyText)
    (fun _ sent => sent = [YouTubeCommentInsert accessToken parentCommentId replyText]).
Proof.
  unfold YouTubeClient.postCommentReply.
  eapply emits_bind; [apply emits_fetch| |].
  - intros response sent1 ->.
    apply emits_silent.
    + destruct response; repeat silent_step.
    + done.
  - by intros e sent1 ->.
Qed.

Lemma reddit_storeInteraction_reports (accountId : string) (targetPost : RedditPost)
    (generatedReply commentId : string) :
  quietly (Reddit.storeInteraction accountId targetPost generatedReply commentId)
    (reports generatedReply).
Proof.
  unfold Reddit.storeInteraction.
  apply quietly_bind; [|intros []|done].
  - apply silent_try_catch.
    + apply silent_bind; [apply reddit_upsert_silent|]. intros ?. apply reddit_cleanup_silent.
    + intros ?. apply silent_createLog.
  - apply quietly_json. by right.
Qed.

Lemma youtube_storeInteraction_reports (accountId : string) (bestComment : YouTubeComment)
    (generatedReply replyId : string) :
  quietly (YouTube.storeInteraction accountId bestComment generatedReply replyId)
    (reports generatedReply).
Proof.
  unfold YouTube.storeInteraction.
  apply quietly_bind; [apply youtube_upsert_silent|intros []|done].
  apply quietly_bind; [apply youtube_cleanup_silent|intros []|done].
  apply quietly_json. by right.
Qed.

#[global] Hint Resolve fails_error : quiet.

Lemma reddit_pipeline_trace (accountId : string) (rc : RedditCredentials)
    (cfg : RedditConfiguration) (orc : OpenRouterCredentials) :
  emits (Reddit.pipeline accountId rc cfg orc) run_trace.
Proof.
  unfold Reddit.pipeline.
  apply trace_bind_reads; [apply silent_reads_only, silent_createLog|intros []].
  apply trace_attempt_reads; [apply reddit_refresh_reads|].
  intros [accessToken|e]; [|by apply trace_log_json].
  apply trace_attempt_reads.
  { apply reads_only_bind; [apply reddit_search_reads|]. intros posts.
    apply silent_reads_only. repeat silent_step. }
  intros [posts|e]; [|by apply trace_log_json].
  apply trace_bind_reads; [apply silent_reads_only, silent_storage|intros []].
  apply trace_bind_reads; [apply silent_reads_only, silent_get|intros s].
  destruct (_ =? _)%nat; [by apply trace_log_json|].
  destruct (Reddit.targetPost _) as [targetPost|]; [|by apply trace_log_json].
  apply trace_bind_reads; [apply silent_reads_only, silent_createLog|intros []].
  apply trace_attempt_chat.
  { eapply emits_bind; [apply reddit_generator_chat| |].
    - intros reply sent1 (chat & Hc & ->).
      apply emits_silent; [repeat silent_step|].
      intros r. by exists chat.
    - intros e sent1 H. exact H. }
  intros [generatedReply|e].
  2:{ apply after_chat_quietly, quietly_log_json; [apply fails_error|done]. }
  eapply after_chat_publish with (text := generatedReply)
    (pub := RedditComment accessToken (name targetPost) generatedReply); [done| | |].
  - eapply emits_bind; [apply reddit_postComment_publishes| |].
    + intros commentId sent1 ->.
      apply emits_silent; [repeat silent_step|done].
    + by intros e sent1 ->.
  - intros e. apply quietly_log_json; [apply fails_error|done].
  - intros commentId. apply reddit_storeInteraction_reports.
Qed.

Lemma youtube_pipeline_trace (accountId : string) (yc : YouTubeCredentials)
    (cfg : option YouTubeConfiguration) (orc : OpenRouterCredentials) :
  emits (YouTube.pipeline accountId yc cfg orc) run_trace.
Proof.
  unfold YouTube.pipeline.
  apply trace_bind_reads; [apply silent_reads_only, silent_createLog|intros []].
  apply trace_bind_reads; [apply youtube_refresh_reads|].
  intros [tokenResult|]; [|by apply trace_log_json].
  apply trace_bind_reads;
    [apply silent_reads_only, youtube_persistTokens_silent|intros []].
  apply trace_attempt_reads; [apply youtube_videos_reads|].
  intros [videos|e]; [|by apply trace_log_json].
  destruct (_ =? _)%nat; [by apply trace_log_json|].
  apply trace_bind_reads; [apply silent_reads_only, silent_createLog|intros []].
  apply trace_bind_reads; [apply youtube_allComments_reads|intros allComments].
  destruct (_ =? _)%nat; [by apply trace_log_json|].
  apply trace_bind_reads; [apply silent_reads_only, silent_createLog|intros []].
  apply trace_bind_reads; [apply silent_reads_only, silent_storage|intros []].
  apply trace_bind_reads; [apply silent_reads_only, silent_get|intros s].
  destruct (_ =? _)%nat; [by apply trace_log_json|].
  destruct (YouTube.bestComment _) as [bestComment|].
  2:{ apply trace_quietly. by apply emits_throw. }
  apply trace_bind_reads; [apply silent_reads_only, silent_createLog|intros []].
  apply trace_attempt_chat; [apply youtube_generator_chat|].
  intros [generatedReply|e].
  2:{ apply after_chat_quietly, quietly_log_json; [apply fails_error|done]. }
  apply after_chat_bind_silent; [apply silent_createLog|intros []].
  eapply after_chat_publish with (text := generatedReply)
    (pub := YouTubeCommentInsert (YouTubeClient.accessToken tokenResult)
              (commentId bestComment) generatedReply); [done| | |].
  - apply youtube_postCommentReply_publishes.
  - intros e. apply quietly_log_json; [apply fails_error|done].
  - intros replyId. apply quietly_bind; [apply silent_createLog|intros []|done].
    apply youtube_storeInteraction_reports.
Qed.

Lemma reddit_validate_trace (accountId : string) (account : Account) :
  emits (Reddit.validate accountId account) run_trace.
Proof.
  unfold Reddit.validate.
  repeat lazymatch goal with
  | |- emits (Reddit.pipeline _ _ _ _) _ => apply reddit_pipeline_trace
  | |- emits (bind (createLog _ _ _) _) _ => by apply trace_log_json
  | |- emits (if ?b then _ else _) _ => destruct b
  | |- emits (match ?x with _ => _ end) _ => destruct x
  end.
Qed.

Lemma youtube_validate_trace (accountId : string) (account : Account) :
  emits (YouTube.validate accountId account) run_trace.
Proof.
  unfold YouTube.validate.
  repeat lazymatch goal with
  | |- emits (YouTube.pipeline _ _ _ _) _ => apply youtube_pipeline_trace
  | |- emits (bind (createLog _ _ _) _) _ => by apply trace_log_json
  | |- emits (if ?b then _ else _) _ => destruct b
  | |- emits (match ?x with _ => _ end) _ => destruct x
  end.
Qed.

Lemma trace_json (b : ResponseBody) (st : Z) :
  reported_reply b = None -> emits (json b st) run_trace.
Proof. intros Hb. apply trace_quietly. by apply quietly_json. Qed.

Lemma trace_caught (m : M Response) (msg : string) (st : Z) :
  emits m run_trace ->
  emits (try_catch m (fun _ => json (ErrorBody msg) st))
    (fun r sent => run_trace r sent /\ exists resp, r = Ok resp).
Proof.
  intros Hm. eapply emits_try_catch; [exact Hm| |].
  - intros a sent1 H. split; [done|by exists a].
  - intros e sent1 H. apply emits_ret. rewrite app_nil_r.
    split; [by apply run_trace_caught with e|by eexists].
Qed.

Lemma youtube_POST_trace (request : Request) :
  emits (YouTube.POST request)
    (fun r sent => run_trace r sent /\ exists resp, r = Ok resp).
Proof.
  unfold YouTube.POST. apply trace_caught.
  destruct (request_json request) as [b|].
  2:{ apply trace_quietly. by apply emits_throw. }
  destruct (negb _); [by apply trace_json|].
  apply trace_bind_reads; [apply silent_reads_only, account_findUnique_silent|].
  intros [account|]; [apply youtube_validate_trace|by apply trace_json].
Qed.

(** X7.  Every run of the Reddit handler answers. Of the requests it sends,
    at most one is a chat completion and at most one publishes a
    comment; the comment is published only after the chat completion,
    as the last request of the run; and a reply the answer reports is
    the text that was published. *)
Theorem reddit_run_requests (request : Request) (env : Env) (s : State) :
  exists sent resp,
    calls (Reddit.POST request env s).2 = (calls s ++ sent)%list
    /\ (Reddit.POST request env s).1 = Ok resp
    /\ run_trace (Ok resp) sent.
Proof.
  cut (emits (Reddit.POST request)
         (fun r sent => run_trace r sent /\ exists resp, r = Ok resp)).
  { intros Htrace.
    destruct (Htrace env s) as (sent & Hsent & Hrun & resp & Hresp).
    exists sent, resp. by rewrite <- Hresp. }
  clear env s. unfold Reddit.POST. apply trace_caught.
  destruct (request_json request) as [b|].
  2:{ apply trace_quietly. by apply emits_throw. }
  destruct (negb _); [by apply trace_json|].
  apply trace_bind_reads; [apply silent_reads_only, silent_ask|intros env].
  assert (forall account,
            emits (Reddit.found (Js.the (json_accountId b)) account) run_trace) as Hfound.
  { intros [account|]; [apply reddit_validate_trace|by apply trace_json]. }
  destruct (Reddit.isCronCall _ _).
  - apply trace_bind_reads; [apply silent_reads_only, account_findUnique_silent|done].
  - destruct (negb _); [by apply trace_json|].
    apply trace_bind_reads; [apply silent_reads_only, account_findFirst_silent|done].
Qed.

(** X14.  Every run of the YouTube handler answers.  Of the requests it
    sends, at most one is a chat completion and at most one publishes a
    reply; the reply is published only after the chat completion, as
    the last request of the run; and a reply the answer reports is the
    text that was published. *)
Theorem youtube_run_requests (request : Request) (env : Env) (s : State) :
  exists sent resp,
    calls (YouTube.POST request env s).2 = (calls s ++ sent)%list
    /\ (YouTube.POST request env s).1 = Ok resp
    /\ run_trace (Ok resp) sent.
Proof.
  destruct (youtube_POST_trace request env s) as (sent & Hsent & Htrace & resp & Hresp).
  exists sent, resp. by rewrite <- Hresp.
Qed.

(** ** The disconnect handler *)

Lemma find_map_same_id (accountId : string) (g : Account -> Account)
    (l : list Account) :
  (forall a, a_id (g a) = a_id a) ->
  List.find (fun a => String.eqb (a_id a) accountId) (map g l)
  = option_map g (List.find (fun a => String.eqb (a_id a) accountId) l).
Proof.
  intros Hid. induction l as [|a l IH]; [done|].
  simpl. rewrite Hid. by destruct (String.eqb (a_id a) accountId).
Qed.

Lemma existsb_find_id (accountId : string) (P : Account -> bool) (l : list Account) :
  existsb (fun a => String.eqb (a_id a) accountId && P a) l = true ->
  exists a, List.find (fun a => String.eqb (a_id a) accountId) l = Some a.
Proof.
  induction l as [|a l IH]; [done|]. simpl.
  destruct (String.eqb (a_id a) accountId); [by eexists|]. simpl. exact IH.
Qed.

(** What a disconnect that answers 200 did. *)
Lemma disconnect_success (env : Env) (s : State) (accountId : option string) :
  (YouTubeDisconnect.POST accountId env s).1
  = Ok {| YouTubeDisconnect.d_status := 200;
          YouTubeDisconnect.d_body := YouTubeDisconnect.Success |} ->
  Js.truthy accountId = true
  /\ storage_down env CredentialsUpdate = false
  /\ existsb (fun a => String.eqb (a_id a) (Js.the accountId)
                       && bool_decide (is_Some (youtubeCredentials a)))
       (accounts s) = true
  /\ (YouTubeDisconnect.POST accountId env s).2
     = {| accounts :=
            map (fun a =>
                   if String.eqb (a_id a) (Js.the accountId) then
                     {| a_id := a_id a; userId := userId a;
                        redditCredentials := redditCredentials a;
                        redditConfig := redditConfig a;
                        youtubeCredentials :=
                          option_map YouTubeDisconnect.cleared (youtubeCredentials a);
                        youtubeConfig := youtubeConfig a;
                        openRouterCredentials := openRouterCredentials a |}
                   else a) (accounts s);
          redditInteractions := redditInteractions s;
          youTubeCommentInteractions := youTubeCommentInteractions s;
          logs := logs s;
          calls := calls s |}.
Proof.
  unfold YouTubeDisconnect.POST, YouTubeDisconnect.credentials_update, try_catch,
    bind, storage, get, set_accounts, put, ret, throw.
  destruct (Js.truthy accountId); simpl; [|done].
  destruct (storage_down env CredentialsUpdate); simpl; [done|].
  destruct (existsb _ (accounts s)); simpl; [|done].
  by intros _.
Qed.

(** X18.  After a disconnect that answered 200, a run for the account is
    refused with 400 "YouTube OAuth not connected": one log line is
    written and nothing else changes, so no request is sent. *)
Theorem disconnect_then_run_refused (env env' : Env) (s : State)
    (accountId : string) (request : Request) :
  (YouTubeDisconnect.POST (Some accountId) env s).1
  = Ok {| YouTubeDisconnect.d_status := 200;
          YouTubeDisconnect.d_body := YouTubeDisconnect.Success |} ->
  request_json request = Some {| json_accountId := Some accountId |} ->
  storage_down env' AccountFind = false ->
  storage_down env' LogCreate = false ->
  YouTube.POST request env' (YouTubeDisconnect.POST (Some accountId) env s).2
  = (Ok {| status := 400; body := ErrorBody "YouTube OAuth not connected" |},
     add_log {| log_accountId := accountId; level := error;
                message := "YouTube OAuth not connected" |}
       (YouTubeDisconnect.POST (Some accountId) env s).2).
Proof.
  intros Hok Hjson Hfind Hlog.
  destruct (disconnect_success _ _ _ Hok) as (Htruthy & _ & Hex & ->).
  assert (Js.the (Some accountId) = accountId) as Hthe.
  { by injection (truthy_the _ Htruthy). }
  rewrite Hthe in *.
  destruct (existsb_find_id _ _ _ Hex) as [a Ha].
  unfold YouTube.POST, try_catch, bind, account_findUnique.
  rewrite Hjson. cbn [json_accountId]. rewrite Htruthy, Hthe. cbn [negb].
  unfold bind, storage. rewrite Hfind. cbn [get ret accounts].
  rewrite find_map_same_id by (intros a'; by destruct (String.eqb (a_id a') accountId)).
  rewrite Ha. cbn [option_map].
  rewrite youtube_validate_not_connected; [done|done|].
  unfold youtube_connected.
  apply find_some in Ha as [_ Ha]. rewrite Ha. cbn [youtubeCredentials].
  by destruct (youtubeCredentials a).
Qed.

Lemma disconnect_then_run_refused_witness :
  YouTube.POST Sample.from_anyone Sample.env
    (YouTubeDisconnect.POST (Some "acc") Sample.env (Sample.store Sample.connected)).2
  = (Ok {| status := 400; body := ErrorBody "YouTube OAuth not connected" |},
     add_log {| log_accountId := "acc"; level := error;
                message := "YouTube OAuth not connected" |}
       (YouTubeDisconnect.POST (Some "acc") Sample.env
          (Sample.store Sample.connected)).2).
Proof.
  apply (disconnect_then_run_refused Sample.env Sample.env
           (Sample.store Sample.connected) "acc" Sample.from_anyone);
    vm_compute; reflexivity.
Defined.

Lemma disconnect_runs (env : Env) (s : State) (accountId : option string) :
  Js.truthy accountId = true ->
  storage_down env CredentialsUpdate = false ->
  existsb (fun a => String.eqb (a_id a) (Js.the accountId)
                    && bool_decide (is_Some (youtubeCredentials a)))
    (accounts s) = true ->
  YouTubeDisconnect.POST accountId env s
  = (Ok {| YouTubeDisconnect.d_status := 200;
           YouTubeDisconnect.d_body := YouTubeDisconnect.Success |},
     {| accounts :=
          map (fun a =>
                 if String.eqb (a_id a) (Js.the accountId) then
                   {| a_id := a_id a; userId := userId a;
                      redditCredentials := redditCredentials a;
                      redditConfig := redditConfig a;
                      youtubeCredentials :=
                        option_map YouTubeDisconnect.cleared (youtubeCredentials a);
                      youtubeConfig := youtubeConfig a;
                      openRouterCredentials := openRouterCredentials a |}
                 else a) (accounts s);
        redditInteractions := redditInteractions s;
        youTubeCommentInteractions := youTubeCommentInteractions s;
        logs := logs s;
        calls := calls s |}).
Proof.
  intros Htruthy Hup Hex.
  unfold YouTubeDisconnect.POST, YouTubeDisconnect.credentials_update, try_catch,
    bind, storage, get, set_accounts, put, ret, throw.
  rewrite Htruthy. cbn [negb]. cbv beta. rewrite Hup. cbv beta iota.
  by rewrite Hex.
Qed.

Lemma cleared_twice (c : option YouTubeCredentials) :
  option_map YouTubeDisconnect.cleared (option_map YouTubeDisconnect.cleared c)
  = option_map YouTubeDisconnect.cleared c.
Proof. by destruct c. Qed.

(** X19.  A second disconnect after one that answered 200 answers 200 again
    and changes nothing. *)
Theorem disconnect_twice (env : Env) (s : State) (accountId : option string) :
  (YouTubeDisconnect.POST accountId env s).1
  = Ok {| YouTubeDisconnect.d_status := 200;
          YouTubeDisconnect.d_body := YouTubeDisconnect.Success |} ->
  YouTubeDisconnect.POST accountId env (YouTubeDisconnect.POST accountId env s).2
  = (Ok {| YouTubeDisconnect.d_status := 200;
           YouTubeDisconnect.d_body := YouTubeDisconnect.Success |},
     (YouTubeDisconnect.POST accountId env s).2).
Proof.
  intros Hok.
  destruct (disconnect_success _ _ _ Hok) as (Htruthy & Hup & Hex & ->).
  set (g := fun a : Account => if String.eqb (a_id a) (Js.the accountId) then _ else a).
  assert (forall a, a_id (g a) = a_id a) as Hid.
  { intros a. unfold g. by destruct (String.eqb (a_id a) (Js.the accountId)). }
  rewrite disconnect_runs; [|done|done|].
  - cbn [accounts redditInteractions youTubeCommentInteractions logs calls].
    do 2 f_equal. rewrite map_map. apply map_ext. intros a.
    fold g. rewrite Hid. unfold g.
    destruct (String.eqb (a_id a) (Js.the accountId)); [|done].
    cbn [a_id userId redditCredentials redditConfig youtubeCredentials youtubeConfig
         openRouterCredentials].
    by rewrite cleared_twice.
  - cbn [accounts].
    apply existsb_exists in Hex as (a & Hin & Ha).
    apply existsb_exists. exists (g a). split; [by apply in_map|].
    apply andb_true_iff in Ha as [Ha Hc]. rewrite Hid, Ha. cbn [andb].
    unfold g. rewrite Ha. cbn [youtubeCredentials].
    apply bool_decide_eq_true in Hc as [c ->]. by apply bool_decide_eq_true_2.
Qed.

Lemma disconnect_twice_witness :
  YouTubeDisconnect.POST (Some "acc") Sample.env
    (YouTubeDisconnect.POST (Some "acc") Sample.env (Sample.store Sample.connected)).2
  = (Ok {| YouTubeDisconnect.d_status := 200;
           YouTubeDisconnect.d_body := YouTubeDisconnect.Success |},
     (YouTubeDisconnect.POST (Some "acc") Sample.env (Sample.store Sample.connected)).2).
Proof.
  apply (disconnect_twice Sample.env (Sample.store Sample.connected) (Some "acc")).
  vm_compute. reflexivity.
Defined.

(** ** The page guard *)

(** X20.  The guard never sends a browser in a circle: the page it redirects
    to is let through when the browser asks for it with the same cookies. *)
Theorem proxy_no_redirect_loop (req : Proxy.NextRequest) (path : string) :
  Proxy.proxy req = Proxy.redirect path ->
  Proxy.proxy (Proxy.follow req path) = Proxy.next.
Proof.
  unfold Proxy.proxy, Proxy.follow. cbn [Proxy.session_token
    Proxy.secure_session_token Proxy.pathname].
  destruct (String.prefix "/api" (Proxy.pathname req)); [done|].
  destruct (Js.truthy (if Js.truthy (Proxy.session_token req)
                       then Proxy.session_token req
                       else Proxy.secure_session_token req));
    destruct (String.eqb (Proxy.pathname req) "/login"); cbn [negb andb];
    intros Heq; try done; by injection Heq as <-.
Qed.

Lemma proxy_no_redirect_loop_witness :
  Proxy.proxy (Proxy.follow {| Proxy.session_token := None;
                               Proxy.secure_session_token := Some "t";
                               Proxy.pathname := "/login" |} "/")
  = Proxy.next.
Proof.
  apply (proxy_no_redirect_loop {| Proxy.session_token := None;
                                   Proxy.secure_session_token := Some "t";
                                   Proxy.pathname := "/login" |} "/").
  reflexivity.
Defined.

(** ** The scheduler *)

Lemma checkSchedule_arith (m h : Z) :
  0 <= m < 60 -> 0 <= h < 24 ->
  (Z.rem m 10 =? 0) = ((h * 60 + m) mod 10 =? 0)
  /\ ((m =? 0) || (m =? 30)) = ((h * 60 + m) mod 30 =? 0)
  /\ (m =? 0) = ((h * 60 + m) mod 60 =? 0)
  /\ ((m =? 0) && (Z.rem h 3 =? 0)) = ((h * 60 + m) mod 180 =? 0)
  /\ ((m =? 0) && (Z.rem h 6 =? 0)) = ((h * 60 + m) mod 360 =? 0).
Proof.
  intros Hm Hh.
  rewrite !Z.rem_mod_nonneg by lia.
  repeat split; apply eq_true_iff_eq;
    rewrite ?orb_true_iff, ?andb_true_iff, !Z.eqb_eq;
    Z.div_mod_to_equations; lia.
Qed.

(** X21.  With the minute and the hour a clock shows, a schedule is due
    exactly when the minute of the day is a multiple of its period;
    [every_5_min] is due at every tick, whatever the minute. *)
Theorem checkSchedule_period (minutes hours : Z) (schedule : string) :
  0 <= minutes < 60 -> 0 <= hours < 24 ->
  Cron.checkSchedule minutes hours schedule
  = String.eqb schedule "every_5_min"
    || ((hours * 60 + minutes) mod Cron.period schedule =? 0).
Proof.
  intros Hm Hh.
  destruct (checkSchedule_arith minutes hours Hm Hh) as (H10 & H30 & H60 & H180 & H360).
  unfold Cron.checkSchedule, Cron.period.
  repeat (destruct (String.eqb schedule _); [by cbn [orb]|]); by cbn [orb].
Qed.

Lemma checkSchedule_period_witness :
  Cron.checkSchedule 0 9 "every_3_hours"
  = String.eqb "every_3_hours" "every_5_min"
    || ((9 * 60 + 0) mod Cron.period "every_3_hours" =? 0).
Proof. apply (checkSchedule_period 0 9 "every_3_hours"); lia. Defined.

Lemma answered_accountId (accountId : string) (response : Response) :
  Cron.o_accountId (Cron.answered accountId response) = accountId.
Proof. unfold Cron.answered. by destruct (Cron.ok response). Qed.

Lemma process_reports (run : string -> M Response) (tick : Cron.Tick)
    (enabledConfigs : list (Cron.Configuration * option Account))
    (env : Env) (s : State) :
  Forall (fun p => is_Some p.2) enabledConfigs ->
  exists results,
    (Cron.process run tick enabledConfigs env s).1 = Ok results
    /\ map Cron.o_accountId results
       = map (fun p => Cron.c_accountId p.1)
           (List.filter
              (fun p => negb (Js.truthy ((p.2 ≫= youtubeCredentials) ≫= y_accessToken))
                        || negb (Js.truthy ((p.2 ≫= youtubeCredentials) ≫= y_channelId))
                        || Cron.checkSchedule (Cron.minutes tick) (Cron.hours tick)
                             (Cron.schedule p.1))
              enabledConfigs).
Proof.
  intros Hall. revert s.
  induction Hall as [|[config account] rest [a Ha] _ IH]; intros s.
  - by exists [].
  - simpl in Ha. subst account. cbn [Cron.process List.filter fst snd mbind option_bind].
    destruct (negb (Js.truthy (youtubeCredentials a ≫= y_accessToken))
              || negb (Js.truthy (youtubeCredentials a ≫= y_channelId))) eqn:Hmissing.
    + cbn [orb]. unfold bind. destruct (IH s) as (results & Hres & Hmap).
      destruct (Cron.process run tick rest env s) as [r s1]. simpl in Hres. subst r.
      eexists. split; [reflexivity|]. simpl. by rewrite Hmap.
    + cbn [orb].
      destruct (Cron.checkSchedule _ _ _); cbn [negb]; [|apply IH].
      destruct (run (Cron.c_accountId config) env s) as [[response|e] s1] eqn:Hrun;
        destruct (IH s1) as (results & Hres & Hmap);
        unfold bind, try_catch; rewrite Hrun; cbn [ret];
        destruct (Cron.process run tick rest env s1) as [r s2];
        simpl in Hres; subst r;
        (eexists; split; [reflexivity|]); simpl;
        by rewrite ?answered_accountId, Hmap.
Qed.

Lemma process_missing_account (run : string -> M Response) (tick : Cron.Tick)
    (enabledConfigs : list (Cron.Configuration * option Account))
    (env : Env) (s : State) :
  Exists (fun p => p.2 = None) enabledConfigs ->
  exists e, (Cron.process run tick enabledConfigs env s).1 = Throw e.
Proof.
  intros Hex. revert s.
  induction enabledConfigs as [|[config account] rest IH]; intros s.
  - by apply Exists_nil in Hex.
  - cbn [Cron.process]. destruct account as [a|]; [|by eexists].
    apply Exists_cons in Hex as [Hex|Hex]; [done|]. specialize (IH Hex).
    destruct (negb _ || negb _).
    + unfold bind. destruct (IH s) as [e He].
      destruct (Cron.process run tick rest env s) as [r s1]. simpl in He. subst r.
      by eexists.
    + destruct (negb (Cron.checkSchedule _ _ _)); [apply IH|].
      unfold bind, try_catch.
      destruct (run (Cron.c_accountId config) env s) as [[response|e] s1]; cbn [ret];
        destruct (IH s1) as [e' He'];
        destruct (Cron.process run tick rest env s1) as [r s2];
        simpl in He'; subst r; by eexists.
Qed.

Lemma reported_joined (s : State) (tick : Cron.Tick) (table : list Cron.Configuration) :
  map (fun p : Cron.Configuration * option Account => Cron.c_accountId p.1)
    (List.filter
       (fun p => negb (Js.truthy ((p.2 ≫= youtubeCredentials) ≫= y_accessToken))
                 || negb (Js.truthy ((p.2 ≫= youtubeCredentials) ≫= y_channelId))
                 || Cron.checkSchedule (Cron.minutes tick) (Cron.hours tick)
                      (Cron.schedule p.1))
       (map (fun config =>
               (config,
                List.find (fun a => String.eqb (a_id a) (Cron.c_accountId config))
                  (accounts s)))
          (List.filter Cron.enabled table)))
  = map Cron.c_accountId (List.filter (Cron.reported s tick) table).
Proof.
  induction table as [|config table IH]; [done|].
  unfold Cron.reported at 1. cbn [List.filter].
  destruct (Cron.enabled config); cbn [andb map List.filter fst snd]; [|exact IH].
  destruct (_ || _); cbn [map]; by rewrite IH.
Qed.

Lemma present_joined (s : State) (tick : Cron.Tick) :
  Cron.accounts_present s tick ->
  Forall (fun p : Cron.Configuration * option Account => is_Some p.2)
    (map (fun config =>
            (config,
             List.find (fun a => String.eqb (a_id a) (Cron.c_accountId config))
               (accounts s)))
       (List.filter Cron.enabled (Cron.configurations tick))).
Proof.
  unfold Cron.accounts_present. intros Hall. apply Forall_map.
  apply Forall_forall. intros config Hin.
  apply list_elem_of_In, filter_In in Hin as [Hin Hen].
  rewrite Forall_forall in Hall. apply Hall; [by apply list_elem_of_In|done].
Qed.

Lemma absent_joined (s : State) (tick : Cron.Tick) :
  ~ Cron.accounts_present s tick ->
  Exists (fun p : Cron.Configuration * option Account => p.2 = None)
    (map (fun config =>
            (config,
             List.find (fun a => String.eqb (a_id a) (Cron.c_accountId config))
               (accounts s)))
       (List.filter Cron.enabled (Cron.configurations tick))).
Proof.
  unfold Cron.accounts_present. intros Hnot.
  induction (Cron.configurations tick) as [|config table IH].
  - exfalso. apply Hnot. constructor.
  - cbn [List.filter]. destruct (Cron.enabled config) eqn:Hen.
    + cbn [map].
      destruct (List.find _ (accounts s)) as [a|] eqn:Hfind.
      * apply Exists_cons_tl. apply IH. intros Hall. apply Hnot.
        constructor; [|done]. intros _. rewrite Hfind. by eexists.
      * by apply Exists_cons_hd.
    + apply IH. intros Hall. apply Hnot. constructor; [|done]. by rewrite Hen.
Qed.

(** What an authorized tick that can read its table does. *)
Lemma cron_GET_authorized (run : string -> M Response) (tick : Cron.Tick)
    (env : Env) (s : State) :
  Cron.authorization tick
  = Some ("Bearer " +:+ match CRON_SECRET env with
                        | Some secret => secret
                        | None => "undefined"
                        end) ->
  Cron.configurations_down tick = false ->
  Cron.GET run tick env s
  = match Cron.process run tick
            (map (fun config =>
                    (config,
                     List.find (fun a => String.eqb (a_id a) (Cron.c_accountId config))
                       (accounts s)))
               (List.filter Cron.enabled (Cron.configurations tick))) env s with
    | (Ok results, s1) =>
        (Ok {| Cron.c_status := 200;
               Cron.c_body := Cron.Completed (now env) (List.length results) results |},
         s1)
    | (Throw _, s1) =>
        (Ok {| Cron.c_status := 500;
               Cron.c_body := Cron.CronFailure "Failed to process YouTube comments" |},
         s1)
    end.
Proof.
  intros Hheader Hup.
  unfold Cron.GET, bind at 1. cbn [ask]. rewrite Hheader.
  rewrite bool_decide_eq_true_2 by done. cbn [negb].
  unfold try_catch, bind at 1, Cron.findMany. rewrite Hup.
  unfold bind at 1. cbn [get ret]. unfold bind.
  by destruct (Cron.process _ _ _ env s) as [[results|e] s1].
Qed.



(** X22.  A tick that carries the expected header and can read the
    configuration table answers 200 whatever the runs do, provided every
    enabled row has its account: it then reports, in table order,
    exactly the enabled accounts that lack credentials and the enabled
    accounts that have them and are due, and [processed] is their
    number.  When an enabled row has no account, the tick is answered
    500. *)
Theorem cron_reports (run : string -> M Response) (tick : Cron.Tick)
    (env : Env) (s : State) (secret : string) :
  CRON_SECRET env = Some secret ->
  Cron.authorization tick = Some ("Bearer " +:+ secret) ->
  Cron.configurations_down tick = false ->
  (Cron.accounts_present s tick ->
   exists results,
     (Cron.GET run tick env s).1
     = Ok {| Cron.c_status := 200;
             Cron.c_body := Cron.Completed (now env) (List.length results) results |}
     /\ map Cron.o_accountId results
        = map Cron.c_accountId
            (List.filter (Cron.reported s tick) (Cron.configurations tick)))
  /\ (~ Cron.accounts_present s tick ->
      (Cron.GET run tick env s).1
      = Ok {| Cron.c_status := 500;
              Cron.c_body := Cron.CronFailure "Failed to process YouTube comments" |}).
Proof.
  intros Hsecret Hheader Hup.
  rewrite (cron_GET_authorized run tick env s); [|by rewrite Hsecret|done].
  split.
  - intros Hpresent.
    destruct (process_reports run tick _ env s (present_joined s tick Hpresent))
      as (results & Hres & Hmap).
    destruct (Cron.process _ _ _ env s) as [r s1]. simpl in Hres. subst r.
    exists results. split; [done|]. by rewrite Hmap, reported_joined.
  - intros Habsent.
    destruct (process_missing_account run tick _ env s (absent_joined s tick Habsent))
      as (e & He).
    destruct (Cron.process _ _ _ env s) as [r s1]. simpl in He. by subst r.
Qed.

Lemma cron_reports_witness :
  (exists results,
     (Cron.GET Cron.self (Cron.sample_tick (Some "Bearer s3cret") 20 7) Sample.env
        Cron.sample_store).1
     = Ok {| Cron.c_status := 200;
             Cron.c_body :=
               Cron.Completed (now Sample.env) (List.length results) results |}
     /\ map Cron.o_accountId results = ["acc"; "other"])
  /\ (Cron.GET Cron.self (Cron.sample_tick (Some "Bearer s3cret") 20 7) Sample.env
        (Sample.store Sample.connected)).1
     = Ok {| Cron.c_status := 500;
             Cron.c_body := Cron.CronFailure "Failed to process YouTube comments" |}.
Proof.
  split.
  - destruct (cron_reports Cron.self (Cron.sample_tick (Some "Bearer s3cret") 20 7)
                Sample.env Cron.sample_store "s3cret" eq_refl eq_refl eq_refl)
      as [Hok _].
    destruct Hok as (results & Hres & Hids).
    + unfold Cron.accounts_present, Cron.sample_tick. cbn [Cron.configurations].
      repeat (apply Forall_cons; split); [| |done|by apply Forall_nil];
        intros _; vm_compute; by eexists.
    + exists results. split; [exact Hres|exact Hids].
  - destruct (cron_reports Cron.self (Cron.sample_tick (Some "Bearer s3cret") 20 7)
                Sample.env (Sample.store Sample.connected) "s3cret"
                eq_refl eq_refl eq_refl) as [_ Hfail].
    apply Hfail. unfold Cron.accounts_present, Cron.sample_tick.
    cbn [Cron.configurations]. intros Hall.
    apply Forall_cons in Hall as [_ Hall]. apply Forall_cons in Hall as [Hother _].
    destruct (Hother eq_refl) as [a Ha]. vm_compute in Ha. discriminate Ha.
Defined.

(** X23.  When [CRON_SECRET] is not set, the header [Bearer undefined] is the
    expected one: a tick that carries it is answered, and not with 401. *)
Theorem cron_unset_secret (run : string -> M Response) (tick : Cron.Tick)
    (env : Env) (s : State) :
  CRON_SECRET env = None ->
  Cron.authorization tick = Some "Bearer undefined" ->
  exists r, (Cron.GET run tick env s).1 = Ok r /\ Cron.c_status r <> 401.
Proof.
  intros Hsecret Hheader.
  unfold Cron.GET, bind at 1. cbn [ask]. rewrite Hsecret, Hheader.
  rewrite bool_decide_eq_true_2 by done. cbn [negb].
  unfold try_catch, bind at 1, Cron.findMany.
  destruct (Cron.configurations_down tick).
  - cbn [throw ret]. by eexists.
  - unfold bind at 1. cbn [get ret]. unfold bind.
    destruct (Cron.process _ _ _ env s) as [[results|e] s1]; by eexists.
Qed.

Lemma cron_unset_secret_witness :
  exists r,
    (Cron.GET Cron.self (Cron.sample_tick (Some "Bearer undefined") 20 7)
       Cron.unset_secret (Sample.store Sample.connected)).1 = Ok r
    /\ Cron.c_status r <> 401.
Proof.
  apply (cron_unset_secret Cron.self (Cron.sample_tick (Some "Bearer undefined") 20 7)
           Cron.unset_secret (Sample.store Sample.connected)); reflexivity.
Defined.




(** ** What a run leaves alone *)

Section Keeps.
Context (R : Env -> State -> State -> Prop) `{!Footprint R}.
Context {A B : Type}.

Lemma keeps_ret (a : A) : keeps R (ret a).
Proof. intros env s. apply footprint_refl. Qed.

Lemma keeps_throw (msg : string) : keeps R (@throw A msg).
Proof. intros env s. apply footprint_refl. Qed.

Lemma keeps_bind (m : M A) (k : A -> M B) :
  keeps R m -> (forall a, keeps R (k a)) -> keeps R (bind m k).
Proof.
  intros Hm Hk env s. unfold bind. specialize (Hm env s).
  destruct (m env s) as [[a|e] s1]; [|exact Hm].
  eapply footprint_trans; [exact Hm|]. apply Hk.
Qed.

Lemma keeps_try_catch (m : M A) (h : Exn -> M A) :
  keeps R m -> (forall e, keeps R (h e)) -> keeps R (try_catch m h).
Proof.
  intros Hm Hh env s. unfold try_catch. specialize (Hm env s).
  destruct (m env s) as [[a|e] s1]; [exact Hm|].
  eapply footprint_trans; [exact Hm|]. apply Hh.
Qed.

Lemma keeps_attempt (m : M A) : keeps R m -> keeps R (attempt m).
Proof.
  intros Hm env s. unfold attempt. specialize (Hm env s).
  by destruct (m env s).
Qed.

End Keeps.

Section KeepsPrimitives.
Context (R : Env -> State -> State -> Prop) `{!Footprint R}.

Lemma keeps_storage (op : DbOp) : keeps R (storage op).
Proof.
  intros env s. unfold storage. destruct (storage_down env op); apply footprint_refl.
Qed.

Lemma keeps_ask : keeps R ask.
Proof. intros env s. apply footprint_refl. Qed.

Lemma keeps_get : keeps R get.
Proof. intros env s. apply footprint_refl. Qed.

Lemma keeps_json (b : ResponseBody) (st : Z) : keeps R (json b st).
Proof. intros env s. apply footprint_refl. Qed.

Lemma keeps_createLog (accountId : string) (lvl : Level) (msg : string) :
  (forall env s, R env s (add_log {| log_accountId := accountId; level := lvl;
                                     message := msg |} s)) ->
  keeps R (createLog accountId lvl msg).
Proof.
  intros Hlog env s. unfold createLog, bind, storage, get, put.
  destruct (storage_down env LogCreate); [apply footprint_refl|apply Hlog].
Qed.

Lemma keeps_fetch {A} (c : Call) (answer : Peers -> Http A) :
  (forall env s, R env s (add_call c s)) -> keeps R (fetch c answer).
Proof.
  intros Hcall env s. unfold fetch. destruct (answer (peers env)); apply Hcall.
Qed.

End KeepsPrimitives.

Lemma accounts_kept_refl (accountId : string) (touched : Account -> Account -> Prop)
    (l : list Account) :
  (forall a, touched a a) -> accounts_kept accountId touched l l.
Proof.
  intros Hrefl. apply Forall2_same_length_lookup_2; [done|].
  intros i a a' Ha Ha'. rewrite Ha in Ha'. injection Ha' as <-.
  by destruct (String.eqb (a_id a) accountId).
Qed.

Lemma accounts_kept_trans (accountId : string) (touched : Account -> Account -> Prop)
    (l1 l2 l3 : list Account) :
  (forall a b, touched a b -> a_id b = a_id a) ->
  (forall a b c, touched a b -> touched b c -> touched a c) ->
  accounts_kept accountId touched l1 l2 -> accounts_kept accountId touched l2 l3 ->
  accounts_kept accountId touched l1 l3.
Proof.
  intros Hid Htrans H12. revert l3.
  induction H12 as [|a b l1 l2 Hab _ IH]; intros l3 H23.
  - inversion H23. constructor.
  - inversion H23 as [|b' c l2' l3' Hbc Hrest]; subst. constructor; [|by apply IH].
    destruct (String.eqb (a_id a) accountId) eqn:Ha.
    + rewrite (Hid _ _ Hab), Ha in Hbc. by apply Htrans with b.
    + subst b. by rewrite Ha in Hbc.
Qed.

Lemma accounts_kept_map (accountId : string) (touched : Account -> Account -> Prop)
    (g : Account -> Account) (l : list Account) :
  (forall a, String.eqb (a_id a) accountId = true -> touched a (g a)) ->
  (forall a, String.eqb (a_id a) accountId = false -> g a = a) ->
  accounts_kept accountId touched l (map g l).
Proof.
  intros Hin Hout. induction l as [|a l IH]; constructor; [|exact IH].
  destruct (String.eqb (a_id a) accountId) eqn:Ha; auto.
Qed.

Lemma logs_kept_refl (accountId : string) (l : list Log) : logs_kept accountId l l.
Proof. exists []. by rewrite app_nil_r. Qed.

Lemma logs_kept_trans (accountId : string) (l1 l2 l3 : list Log) :
  logs_kept accountId l1 l2 -> logs_kept accountId l2 l3 -> logs_kept accountId l1 l3.
Proof.
  intros (n1 & -> & H1) (n2 & -> & H2). exists (n1 ++ n2)%list.
  split; [by rewrite app_assoc|by apply Forall_app].
Qed.

Lemma calls_kept_refl (foreign : Call -> bool) (l : list Call) : calls_kept foreign l l.
Proof. exists []. by rewrite app_nil_r. Qed.

Lemma calls_kept_trans (foreign : Call -> bool) (l1 l2 l3 : list Call) :
  calls_kept foreign l1 l2 -> calls_kept foreign l2 l3 -> calls_kept foreign l1 l3.
Proof.
  intros (n1 & -> & H1) (n2 & -> & H2). exists (n1 ++ n2)%list.
  split; [by rewrite app_assoc|by apply Forall_app].
Qed.

Lemma same_but_reddit_token_refl (a : Account) : same_but_reddit_token a a.
Proof. unfold same_but_reddit_token. by destruct (redditCredentials a). Qed.

Lemma same_but_reddit_token_trans (a b c : Account) :
  same_but_reddit_token a b -> same_but_reddit_token b c -> same_but_reddit_token a c.
Proof.
  unfold same_but_reddit_token.
  intros (? & ? & ? & ? & ? & ? & Hab) (? & ? & ? & ? & ? & ? & Hbc).
  repeat split; try congruence.
  destruct (redditCredentials a), (redditCredentials b), (redditCredentials c);
    try done.
  destruct Hab as (? & ? & ? & ?), Hbc as (? & ? & ? & ?). repeat split; congruence.
Qed.

Lemma same_but_youtube_tokens_refl (a : Account) : same_but_youtube_tokens a a.
Proof. unfold same_but_youtube_tokens. by destruct (youtubeCredentials a). Qed.

Lemma same_but_youtube_tokens_trans (a b c : Account) :
  same_but_youtube_tokens a b -> same_but_youtube_tokens b c ->
  same_but_youtube_tokens a c.
Proof.
  unfold same_but_youtube_tokens.
  intros (? & ? & ? & ? & ? & ? & Hab) (? & ? & ? & ? & ? & ? & Hbc).
  repeat split; try congruence.
  destruct (youtubeCredentials a), (youtubeCredentials b), (youtubeCredentials c);
    try done.
  destruct Hab as (? & ? & ?), Hbc as (? & ? & ?). repeat split; congruence.
Qed.

Lemma others_reddit_elem (accountId : string) (rows : list RedditInteraction)
    (r : RedditInteraction) :
  r ∈ others_reddit accountId rows <-> r ∈ rows /\ ri_accountId r <> accountId.
Proof.
  unfold others_reddit. rewrite !list_elem_of_In, filter_In, negb_true_iff.
  by rewrite String.eqb_neq.
Qed.

Lemma reddit_rows_kept_refl (accountId : string) (env : Env)
    (rows : list RedditInteraction) :
  reddit_rows_kept accountId env rows rows.
Proof. intros _. split; [done|]. intros r Hr Hacc. right. by exists r. Qed.

Lemma reddit_rows_kept_trans (accountId : string) (env : Env)
    (r1 r2 r3 : list RedditInteraction) :
  reddit_rows_kept accountId env r1 r2 -> reddit_rows_kept accountId env r2 r3 ->
  reddit_rows_kept accountId env r1 r3.
Proof.
  intros H12 H23 Hapart. destruct (H12 Hapart) as [Ho12 Hids12].
  assert (ids_apart accountId env r2) as Hapart2.
  { intros r Hr Hacc.
    assert (r ∈ r1) as Hr1.
    { apply (others_reddit_elem accountId r1 r). rewrite <- Ho12.
      by apply others_reddit_elem. }
    destruct (Hapart r Hr1 Hacc) as [Hnew Hown]. split; [done|].
    intros r' Hr' Hacc' Heq.
    destruct (Hids12 r' Hr' Hacc') as [Hid|(r0 & Hr0 & Hacc0 & Hid)].
    - congruence.
    - apply (Hown r0 Hr0 Hacc0). congruence. }
  destruct (H23 Hapart2) as [Ho23 Hids23]. split; [congruence|].
  intros r' Hr' Hacc'.
  destruct (Hids23 r' Hr' Hacc') as [Hid|(r0 & Hr0 & Hacc0 & Hid)]; [by left|].
  destruct (Hids12 r0 Hr0 Hacc0) as [Hid0|(r00 & Hr00 & Hacc00 & Hid00)].
  - left. congruence.
  - right. exists r00. repeat split; try done. congruence.
Qed.

#[global] Instance reddit_footprint_Footprint (accountId : string) :
  Footprint (reddit_footprint accountId).
Proof.
  split.
  - intros env s. split.
    + apply accounts_kept_refl, same_but_reddit_token_refl.
    + apply reddit_rows_kept_refl.
    + done.
    + apply logs_kept_refl.
    + apply calls_kept_refl.
  - intros env s1 s2 s3 [Ha1 Hr1 Hy1 Hl1 Hc1] [Ha2 Hr2 Hy2 Hl2 Hc2]. split.
    + eapply accounts_kept_trans; [| |exact Ha1|exact Ha2].
      * by intros a b (? & _).
      * apply same_but_reddit_token_trans.
    + by eapply reddit_rows_kept_trans.
    + congruence.
    + by eapply logs_kept_trans.
    + by eapply calls_kept_trans.
Qed.

#[global] Instance youtube_footprint_Footprint (accountId : string) :
  Footprint (youtube_footprint accountId).
Proof.
  split.
  - intros env s. split.
    + apply accounts_kept_refl, same_but_youtube_tokens_refl.
    + done.
    + done.
    + apply logs_kept_refl.
    + apply calls_kept_refl.
  - intros env s1 s2 s3 [Ha1 Hr1 Hy1 Hl1 Hc1] [Ha2 Hr2 Hy2 Hl2 Hc2]. split.
    + eapply accounts_kept_trans; [| |exact Ha1|exact Ha2].
      * by intros a b (? & _).
      * apply same_but_youtube_tokens_trans.
    + congruence.
    + congruence.
    + by eapply logs_kept_trans.
    + by eapply calls_kept_trans.
Qed.

Create HintDb footprint.

#[global] Hint Resolve keeps_ret keeps_throw keeps_storage keeps_ask keeps_get
  keeps_json : footprint.

(** Symbolic execution within a footprint. *)
Ltac keeps_step :=
  lazymatch goal with
  | |- keeps ?R (bind ?m ?k) => refine (keeps_bind R m k _ (fun _ => _))
  | |- keeps ?R (try_catch ?m ?h) => refine (keeps_try_catch R m h _ (fun _ => _))
  | |- keeps ?R (attempt ?m) => refine (keeps_attempt R m _)
  | |- keeps _ (if ?b then _ else _) => destruct b eqn:?
  | |- keeps _ (match ?x with _ => _ end) => destruct x eqn:?
  | |- keeps _ _ => solve [eauto with footprint typeclass_instances]
  end.

Section YouTubeFootprint.
Context (accountId : string).

Lemma youtube_footprint_log (env : Env) (s : State) (lvl : Level) (msg : string) :
  youtube_footprint accountId env s
    (add_log {| log_accountId := accountId; level := lvl; message := msg |} s).
Proof.
  split; simpl; try done.
  - apply accounts_kept_refl, same_but_youtube_tokens_refl.
  - eexists. split; [done|]. by constructor.
  - apply calls_kept_refl.
Qed.

Lemma youtube_footprint_call (env : Env) (s : State) (c : Call) :
  is_reddit_call c = false -> youtube_footprint accountId env s (add_call c s).
Proof.
  intros Hc. split; simpl; try done.
  - apply accounts_kept_refl, same_but_youtube_tokens_refl.
  - apply logs_kept_refl.
  - eexists. split; [done|]. by constructor.
Qed.

Lemma youtube_keeps_createLog (lvl : Level) (msg : string) :
  keeps (youtube_footprint accountId) (createLog accountId lvl msg).
Proof. refine (keeps_createLog _ _ _ _ _). intros. apply youtube_footprint_log. Qed.

Lemma youtube_keeps_fetch {A} (c : Call) (answer : Peers -> Http A) :
  is_reddit_call c = false -> keeps (youtube_footprint accountId) (fetch c answer).
Proof.
  intros Hc. refine (keeps_fetch _ _ _ _). intros. by apply youtube_footprint_call.
Qed.

Lemma youtube_keeps_set_accounts (g : Account -> Account) :
  (forall a, String.eqb (a_id a) accountId = true -> same_but_youtube_tokens a (g a)) ->
  (forall a, String.eqb (a_id a) accountId = false -> g a = a) ->
  keeps (youtube_footprint accountId) (set_accounts (map g)).
Proof.
  intros Hin Hout env s. split; simpl; try done.
  - by apply accounts_kept_map.
  - apply logs_kept_refl.
  - apply calls_kept_refl.
Qed.

Lemma youtube_keeps_set_rows
    (f : list YouTubeCommentInteraction -> list YouTubeCommentInteraction) :
  (forall rows, others_youtube accountId (f rows) = others_youtube accountId rows) ->
  keeps (youtube_footprint accountId) (set_youTubeCommentInteractions f).
Proof.
  intros Hf env s. split; simpl; try done.
  - apply accounts_kept_refl, same_but_youtube_tokens_refl.
  - apply logs_kept_refl.
  - apply calls_kept_refl.
Qed.

#[local] Hint Resolve youtube_keeps_createLog : footprint.

Lemma youtube_keeps_refresh (clientId clientSecret : string)
    (accessToken refreshToken : option string) (tokenExpiresAt : option Z) :
  keeps (youtube_footprint accountId)
    (YouTubeClient.refreshTokenIfNeeded clientId clientSecret accessToken
       refreshToken tokenExpiresAt).
Proof.
  unfold YouTubeClient.refreshTokenIfNeeded.
  repeat first [by apply youtube_keeps_fetch | keeps_step].
Qed.

Lemma youtube_keeps_videos (accessToken : string) (maxResults : Z) :
  keeps (youtube_footprint accountId)
    (YouTubeClient.fetchChannelVideos accessToken maxResults).
Proof.
  unfold YouTubeClient.fetchChannelVideos.
  repeat first [by apply youtube_keeps_fetch | keeps_step].
Qed.

Lemma youtube_keeps_comments (accessToken videoId videoTitle : string) (maxResults : Z) :
  keeps (youtube_footprint accountId)
    (YouTubeClient.fetchVideoComments accessToken videoId videoTitle maxResults).
Proof.
  unfold YouTubeClient.fetchVideoComments.
  repeat first [by apply youtube_keeps_fetch | keeps_step].
Qed.

Lemma youtube_keeps_allComments (accessToken : string) (minimumLikesCount : Z)
    (videos : list YouTubeVideo) :
  keeps (youtube_footprint accountId)
    (YouTube.allComments accessToken minimumLikesCount videos).
Proof.
  induction videos as [|video rest IH]; simpl; [keeps_step|].
  repeat first [exact IH | apply youtube_keeps_comments | keeps_step].
Qed.

Lemma youtube_keeps_reply (accessToken parentCommentId replyText : string) :
  keeps (youtube_footprint accountId)
    (YouTubeClient.postCommentReply accessToken parentCommentId replyText).
Proof.
  unfold YouTubeClient.postCommentReply.
  repeat first [by apply youtube_keeps_fetch | keeps_step].
Qed.

Lemma youtube_keeps_generator (apiKey model systemPrompt commentContent authorName
    videoTitle : string) (styleOptions : OpenRouterCredentials) :
  keeps (youtube_footprint accountId)
    (YouTube.generateReplyWithLLM apiKey model systemPrompt commentContent authorName
       videoTitle styleOptions).
Proof.
  unfold YouTube.generateReplyWithLLM.
  repeat first [by apply youtube_keeps_fetch | keeps_step].
Qed.

Lemma youtube_keeps_persistTokens (yc : YouTubeCredentials)
    (tokenResult : YouTubeClient.Tokens) :
  keeps (youtube_footprint accountId) (YouTube.persistTokens accountId yc tokenResult).
Proof.
  unfold YouTube.persistTokens.
  repeat first [apply youtube_keeps_set_accounts | keeps_step].
  - intros a Ha. rewrite Ha. unfold same_but_youtube_tokens. simpl.
    by destruct (youtubeCredentials a).
  - intros a Ha. by rewrite Ha.
Qed.

Lemma others_youtube_map (g : YouTubeCommentInteraction -> YouTubeCommentInteraction)
    (rows : list YouTubeCommentInteraction) :
  (forall r, String.eqb (yi_accountId r) accountId = false -> g r = r) ->
  (forall r, String.eqb (yi_accountId r) accountId = true ->
     String.eqb (yi_accountId (g r)) accountId = true) ->
  others_youtube accountId (map g rows) = others_youtube accountId rows.
Proof.
  intros Hout Hin. induction rows as [|r rows IH]; [done|].
  unfold others_youtube in *. simpl.
  destruct (String.eqb (yi_accountId r) accountId) eqn:Hr.
  - by rewrite (Hin r Hr).
  - rewrite (Hout r Hr), Hr. simpl. by rewrite IH.
Qed.

Lemma youtube_keeps_upsert (bestComment : YouTubeComment)
    (generatedReply replyId : string) :
  keeps (youtube_footprint accountId)
    (YouTube.interaction_upsert accountId bestComment generatedReply replyId).
Proof.
  unfold YouTube.interaction_upsert.
  repeat first [apply youtube_keeps_set_rows | keeps_step].
  intros rows. destruct (existsb _ rows).
  - apply others_youtube_map.
    + intros r Hr. by rewrite Hr.
    + intros r Hr. rewrite Hr. simpl.
      destruct (String.eqb (yi_commentId r) (commentId bestComment)); [|done].
      simpl. apply String.eqb_refl.
  - unfold others_youtube. rewrite List.filter_app. simpl.
    rewrite String.eqb_refl. simpl. by rewrite app_nil_r.
Qed.

Lemma youtube_keeps_cleanup :
  keeps (youtube_footprint accountId) (YouTube.cleanup accountId).
Proof.
  unfold YouTube.cleanup.
  repeat first [apply youtube_keeps_set_rows | keeps_step].
  intros rows. unfold others_youtube.
  induction rows as [|r rows IH]; [done|]. simpl.
  destruct (String.eqb (yi_accountId r) accountId) eqn:Hr; simpl.
  - destruct (yi_createdAt r <? _); simpl; [exact IH|]. by rewrite Hr.
  - rewrite Hr. simpl. by rewrite IH.
Qed.

#[local] Hint Resolve youtube_keeps_refresh youtube_keeps_videos youtube_keeps_allComments
  youtube_keeps_reply youtube_keeps_generator youtube_keeps_persistTokens
  youtube_keeps_upsert youtube_keeps_cleanup : footprint.

Lemma youtube_keeps_pipeline (yc : YouTubeCredentials)
    (cfg : option YouTubeConfiguration) (orc : OpenRouterCredentials) :
  keeps (youtube_footprint accountId) (YouTube.pipeline accountId yc cfg orc).
Proof.
  unfold YouTube.pipeline, YouTube.storeInteraction. repeat keeps_step.
Qed.

Lemma youtube_keeps_validate (account : Account) :
  keeps (youtube_footprint accountId) (YouTube.validate accountId account).
Proof.
  unfold YouTube.validate.
  repeat first [apply youtube_keeps_pipeline | keeps_step].
Qed.

End YouTubeFootprint.

(** X15.  A YouTube run changes nothing that belongs to another account or to
    Reddit: of the account table it changes at most the YouTube tokens
    and expiry of the account the request names; it leaves the Reddit
    interactions and the YouTube interactions of the other accounts as
    they are; the log lines it adds carry the account's identifier; and
    it sends no request to Reddit. *)
Theorem youtube_run_isolated (request : Request) (env : Env) (s : State) :
  youtube_footprint (requested request) env s (YouTube.POST request env s).2.
Proof.
  revert env s.
  change (keeps (youtube_footprint (requested request)) (YouTube.POST request)).
  unfold YouTube.POST, requested, account_findUnique.
  destruct (request_json request) as [b|].
  - repeat first [apply youtube_keeps_validate | keeps_step].
  - repeat keeps_step.
Qed.

Section RedditFootprint.
Context (accountId : string).

Lemma reddit_footprint_log (env : Env) (s : State) (lvl : Level) (msg : string) :
  reddit_footprint accountId env s
    (add_log {| log_accountId := accountId; level := lvl; message := msg |} s).
Proof.
  split; simpl; try done.
  - apply accounts_kept_refl, same_but_reddit_token_refl.
  - apply reddit_rows_kept_refl.
  - eexists. split; [done|]. by constructor.
  - apply calls_kept_refl.
Qed.

Lemma reddit_footprint_call (env : Env) (s : State) (c : Call) :
  is_youtube_call c = false -> reddit_footprint accountId env s (add_call c s).
Proof.
  intros Hc. split; simpl; try done.
  - apply accounts_kept_refl, same_but_reddit_token_refl.
  - apply reddit_rows_kept_refl.
  - apply logs_kept_refl.
  - eexists. split; [done|]. by constructor.
Qed.

Lemma reddit_footprint_rows (env : Env) (s : State) (rows' : list RedditInteraction) :
  reddit_rows_kept accountId env (redditInteractions s) rows' ->
  reddit_footprint accountId env s
    {| accounts := accounts s;
       redditInteractions := rows';
       youTubeCommentInteractions := youTubeCommentInteractions s;
       logs := logs s;
       calls := calls s |}.
Proof.
  intros Hrows. split; simpl; try done.
  - apply accounts_kept_refl, same_but_reddit_token_refl.
  - apply logs_kept_refl.
  - apply calls_kept_refl.
Qed.

Lemma reddit_keeps_createLog (lvl : Level) (msg : string) :
  keeps (reddit_footprint accountId) (createLog accountId lvl msg).
Proof. refine (keeps_createLog _ _ _ _ _). intros. apply reddit_footprint_log. Qed.

Lemma reddit_keeps_fetch {A} (c : Call) (answer : Peers -> Http A) :
  is_youtube_call c = false -> keeps (reddit_footprint accountId) (fetch c answer).
Proof.
  intros Hc. refine (keeps_fetch _ _ _ _). intros. by apply reddit_footprint_call.
Qed.

Lemma reddit_keeps_set_accounts (g : Account -> Account) :
  (forall a, String.eqb (a_id a) accountId = true -> same_but_reddit_token a (g a)) ->
  (forall a, String.eqb (a_id a) accountId = false -> g a = a) ->
  keeps (reddit_footprint accountId) (set_accounts (map g)).
Proof.
  intros Hin Hout env s. split; simpl; try done.
  - by apply accounts_kept_map.
  - apply reddit_rows_kept_refl.
  - apply logs_kept_refl.
  - apply calls_kept_refl.
Qed.

#[local] Hint Resolve reddit_keeps_createLog : footprint.

Lemma reddit_keeps_refresh (clientId clientSecret accessToken : string)
    (refreshToken : option string) (tokenExpiresAt : option Z) :
  keeps (reddit_footprint accountId)
    (Reddit.refreshTokenIfNeeded accountId clientId clientSecret accessToken
       refreshToken tokenExpiresAt).
Proof.
  unfold Reddit.refreshTokenIfNeeded.
  repeat first [by apply reddit_keeps_fetch | apply reddit_keeps_set_accounts
               | keeps_step].
  - intros a Ha. rewrite Ha. unfold same_but_reddit_token. simpl.
    by destruct (redditCredentials a).
  - intros a Ha. by rewrite Ha.
Qed.

Lemma reddit_keeps_search (accessToken keywords timeRange : string) (limit : Z) :
  keeps (reddit_footprint accountId)
    (Reddit.searchPosts accessToken keywords timeRange limit).
Proof.
  unfold Reddit.searchPosts.
  repeat first [by apply reddit_keeps_fetch | keeps_step].
Qed.

Lemma reddit_keeps_comment (accessToken postFullname text : string) :
  keeps (reddit_footprint accountId) (Reddit.postComment accessToken postFullname text).
Proof.
  unfold Reddit.postComment.
  repeat first [by apply reddit_keeps_fetch | keeps_step].
Qed.

Lemma reddit_keeps_generator (apiKey model systemPrompt postTitle postBody postAuthor
    subreddit : string) (styleOptions : OpenRouterCredentials) :
  keeps (reddit_footprint accountId)
    (Reddit.generateReplyWithLLM apiKey model systemPrompt postTitle postBody
       postAuthor subreddit styleOptions).
Proof.
  unfold Reddit.generateReplyWithLLM.
  repeat first [by apply reddit_keeps_fetch | keeps_step].
Qed.

Lemma others_reddit_map (g : RedditInteraction -> RedditInteraction)
    (rows : list RedditInteraction) :
  (forall r, String.eqb (ri_accountId r) accountId = false -> g r = r) ->
  (forall r, String.eqb (ri_accountId r) accountId = true ->
     String.eqb (ri_accountId (g r)) accountId = true) ->
  others_reddit accountId (map g rows) = others_reddit accountId rows.
Proof.
  intros Hout Hin. induction rows as [|r rows IH]; [done|].
  unfold others_reddit in *. simpl.
  destruct (String.eqb (ri_accountId r) accountId) eqn:Hr.
  - by rewrite (Hin r Hr).
  - rewrite (Hout r Hr), Hr. simpl. by rewrite IH.
Qed.

Lemma others_reddit_filter (p : RedditInteraction -> bool)
    (rows : list RedditInteraction) :
  (forall r, r ∈ rows -> ri_accountId r <> accountId -> p r = true) ->
  others_reddit accountId (List.filter p rows) = others_reddit accountId rows.
Proof.
  intros Hp. induction rows as [|r rows IH]; [done|].
  assert (others_reddit accountId (List.filter p rows) = others_reddit accountId rows)
    as IH'.
  { apply IH. intros r' Hr'. apply Hp. by right. }
  unfold others_reddit in *. simpl.
  destruct (String.eqb (ri_accountId r) accountId) eqn:Hr.
  - destruct (p r); simpl; by rewrite ?Hr.
  - rewrite (Hp r); [|by left|by apply String.eqb_neq].
    simpl. by rewrite Hr, IH'.
Qed.

Lemma reddit_keeps_upsert (targetPost : RedditPost) (generatedReply commentId : string) :
  keeps (reddit_footprint accountId)
    (Reddit.interaction_upsert accountId targetPost generatedReply commentId).
Proof.
  intros env s.
  unfold Reddit.interaction_upsert, bind, storage, ask, set_redditInteractions, get, put.
  destruct (storage_down env InteractionUpsert); [apply footprint_refl|].
  cbn [snd]. apply reddit_footprint_rows. intros _.
  destruct (existsb _ (redditInteractions s)).
  - split.
    + apply others_reddit_map.
      * intros r Hr. by rewrite Hr.
      * intros r Hr. rewrite Hr. simpl.
        by destruct (String.eqb (postId r) (id targetPost)).
    + intros r' Hr' Hacc. right.
      apply list_elem_of_fmap in Hr' as (r & -> & Hr). exists r.
      split; [done|].
      destruct (String.eqb (ri_accountId r) accountId
                && String.eqb (postId r) (id targetPost)); by simpl in *.
  - split.
    + unfold others_reddit. rewrite List.filter_app. simpl.
      rewrite String.eqb_refl. simpl. by rewrite app_nil_r.
    + intros r' Hr' Hacc. apply elem_of_app in Hr' as [Hr'|Hr'].
      * right. by exists r'.
      * left. apply list_elem_of_singleton in Hr'. by subst r'.
Qed.

Lemma reddit_keeps_cleanup :
  keeps (reddit_footprint accountId) (Reddit.cleanup accountId).
Proof.
  intros env s.
  unfold Reddit.cleanup, bind, storage, set_redditInteractions, get, put, ret.
  destruct (storage_down env InteractionFindMany); [apply footprint_refl|].
  destruct (0 <? _)%nat; [|apply footprint_refl].
  destruct (storage_down env InteractionDeleteMany); [apply footprint_refl|].
  cbn [snd]. apply reddit_footprint_rows. intros Hapart. split.
  - apply others_reddit_filter. intros r Hr Hacc.
    apply negb_true_iff, bool_decide_eq_false_2. intros Hin.
    apply list_elem_of_fmap in Hin as (r0 & Hid & Hr0).
    apply old_in_rows in Hr0 as [Hr0 Hacc0].
    destruct (Hapart r Hr Hacc) as [_ Hown]. by apply (Hown r0 Hr0 Hacc0).
  - intros r' Hr' Hacc. right. exists r'. split; [|done].
    unfold Reddit.deleteMany in Hr'.
    apply list_elem_of_In, filter_In in Hr' as [Hr' _]. by apply list_elem_of_In.
Qed.

#[local] Hint Resolve reddit_keeps_refresh reddit_keeps_search reddit_keeps_comment
  reddit_keeps_generator reddit_keeps_upsert reddit_keeps_cleanup : footprint.

Lemma reddit_keeps_pipeline (rc : RedditCredentials) (cfg : RedditConfiguration)
    (orc : OpenRouterCredentials) :
  keeps (reddit_footprint accountId) (Reddit.pipeline accountId rc cfg orc).
Proof.
  unfold Reddit.pipeline, Reddit.storeInteraction. repeat keeps_step.
Qed.

Lemma reddit_keeps_found (account : option Account) :
  keeps (reddit_footprint accountId) (Reddit.found accountId account).
Proof.
  unfold Reddit.found, Reddit.validate.
  repeat first [apply reddit_keeps_pipeline | keeps_step].
Qed.

End RedditFootprint.

Lemma reddit_keeps_POST (request : Request) :
  keeps (reddit_footprint (requested request)) (Reddit.POST request).
Proof.
  unfold Reddit.POST, requested, account_findUnique, account_findFirst.
  destruct (request_json request) as [b|].
  - repeat first [apply reddit_keeps_found | keeps_step].
  - repeat keeps_step.
Qed.

Lemma unique_ids_apart (accountId : string) (env : Env) (rows : list RedditInteraction) :
  NoDup (map ri_id rows) -> new_id env ∉ map ri_id rows ->
  ids_apart accountId env rows.
Proof.
  intros Hnodup Hfresh r Hr Hacc. split.
  - intros Heq. apply Hfresh. rewrite <- Heq. by apply list_elem_of_fmap_2.
  - intros r' Hr' Hacc' Heq.
    apply list_elem_of_lookup in Hr as [i Hi]. apply list_elem_of_lookup in Hr' as [j Hj].
    assert (i = j) as ->.
    { apply (NoDup_lookup (map ri_id rows) i j (ri_id r)); [done| |].
      - by rewrite list_lookup_fmap, Hi.
      - by rewrite list_lookup_fmap, Hj, <- Heq. }
    congruence.
Qed.

(** X8.  A Reddit run changes nothing that belongs to another account or to
    YouTube, given that row identifiers are unique and the identifier of
    a created row is new: the interactions of the other accounts are as
    before; of the account table it changes at most the Reddit access
    token and expiry of the account the request names; it leaves the
    YouTube interactions as they are; the log lines it adds carry the
    account's identifier; and it sends no request to Google or YouTube. *)
Theorem reddit_run_isolated (request : Request) (env : Env) (s : State) :
  NoDup (map ri_id (redditInteractions s)) ->
  new_id env ∉ map ri_id (redditInteractions s) ->
  let s' := (Reddit.POST request env s).2 in
  others_reddit (requested request) (redditInteractions s')
  = others_reddit (requested request) (redditInteractions s)
  /\ accounts_kept (requested request) same_but_reddit_token (accounts s) (accounts s')
  /\ youTubeCommentInteractions s' = youTubeCommentInteractions s
  /\ logs_kept (requested request) (logs s) (logs s')
  /\ calls_kept is_youtube_call (calls s) (calls s').
Proof.
  intros Hnodup Hfresh s'.
  destruct (reddit_keeps_POST request env s) as [Ha Hr Hy Hl Hc].
  destruct (Hr (unique_ids_apart _ _ _ Hnodup Hfresh)) as [Hothers _].
  done.
Qed.

Lemma reddit_run_isolated_witness :
  let s' := (Reddit.POST Sample.from_scheduler Sample.env Sample.with_history).2 in
  others_reddit (requested Sample.from_scheduler) (redditInteractions s')
  = others_reddit (requested Sample.from_scheduler)
      (redditInteractions Sample.with_history)
  /\ accounts_kept (requested Sample.from_scheduler) same_but_reddit_token
       (accounts Sample.with_history) (accounts s')
  /\ youTubeCommentInteractions s' = youTubeCommentInteractions Sample.with_history
  /\ logs_kept (requested Sample.from_scheduler) (logs Sample.with_history) (logs s')
  /\ calls_kept is_youtube_call (calls Sample.with_history) (calls s').
Proof.
  apply (reddit_run_isolated Sample.from_scheduler Sample.env Sample.with_history).
  - refine (bool_decide_unpack _ _). vm_compute. reflexivity.
  - refine (bool_decide_unpack _ _). vm_compute. reflexivity.
Defined.

(** ** Who may start a Reddit run *)

Lemma no_secret_no_cron_call (env : Env) (request : Request) :
  CRON_SECRET env = None \/ x_cron_secret request <> CRON_SECRET env ->
  Reddit.isCronCall env request = false.
Proof.
  unfold Reddit.isCronCall. intros [Hnone|Hdiff].
  - rewrite Hnone. cbn [Js.truthy]. by rewrite andb_false_r.
  - rewrite (bool_decide_eq_false_2 _ Hdiff). by rewrite andb_false_r.
Qed.

(** X6.  A request whose [x-cron-secret] header is not the configured
    secret, and any request when no secret is configured, starts a run
    only for an account the session user owns: without a session it is
    answered 401, with a session of another user 404, and in both cases
    the store is left as it was and nothing is sent. *)
Theorem reddit_run_guarded (request : Request) (env : Env) (s : State) (b : Body) :
  request_json request = Some b ->
  Js.truthy (json_accountId b) = true ->
  CRON_SECRET env = None \/ x_cron_secret request <> CRON_SECRET env ->
  storage_down env AccountFind = false ->
  (forall a, a ∈ accounts s -> a_id a = Js.the (json_accountId b) ->
             userId a <> Js.the (session_user_id env)) ->
  Reddit.POST request env s
  = (Ok (if Js.truthy (session_user_id env)
         then {| status := 404; body := ErrorBody "Account not found" |}
         else {| status := 401; body := ErrorBody "Unauthorized" |}), s).
Proof.
  intros Hb Hacc Hsecret Hup Hnot.
  apply no_secret_no_cron_call in Hsecret.
  destruct (Js.truthy (session_user_id env)) eqn:Hsession.
  - by apply reddit_not_owner_not_found with b.
  - by apply reddit_no_session_unauthorized with b.
Qed.

Lemma reddit_run_guarded_witness :
  Reddit.POST Sample.from_scheduler Cron.unset_secret (Sample.store Sample.connected)
  = (Ok (if Js.truthy (session_user_id Cron.unset_secret)
         then {| status := 404; body := ErrorBody "Account not found" |}
         else {| status := 401; body := ErrorBody "Unauthorized" |}),
     Sample.store Sample.connected).
Proof.
  apply (reddit_run_guarded Sample.from_scheduler Cron.unset_secret
           (Sample.store Sample.connected) {| json_accountId := Some "acc" |}).
  - reflexivity.
  - reflexivity.
  - left. reflexivity.
  - reflexivity.
  - intros a Ha _. vm_compute in Ha. apply list_elem_of_singleton in Ha. by subst a.
Defined.

(** ** The status of the answer, stage by stage *)

Lemma bind_ok {A B} (m : M A) (k : A -> M B) (env : Env) (s s1 : State) (a : A) :
  m env s = (Ok a, s1) -> bind m k env s = k a env s1.
Proof. intros H. unfold bind. by rewrite H. Qed.

Lemma bind_throw {A B} (m : M A) (k : A -> M B) (env : Env) (s s1 : State) (e : Exn) :
  m env s = (Throw e, s1) -> bind m k env s = (Throw e, s1).
Proof. intros H. unfold bind. by rewrite H. Qed.

Lemma attempt_run {A} (m : M A) (env : Env) (s s1 : State) (r : Result A) :
  m env s = (r, s1) -> attempt m env s = (Ok r, s1).
Proof. intros H. unfold attempt. by rewrite H. Qed.

Lemma log_then_json (env : Env) (s : State) (accountId : string) (lvl : Level)
    (msg : string) (b : ResponseBody) (st : Z) :
  storage_down env LogCreate = false ->
  (createLog accountId lvl msg;; json b st) env s
  = (Ok {| status := st; body := b |},
     add_log {| log_accountId := accountId; level := lvl; message := msg |} s).
Proof. intros Hup. unfold bind. by rewrite createLog_up. Qed.

#[global] Instance reddit_rows_same_Footprint : Footprint reddit_rows_same.
Proof.
  split; [done|]. unfold reddit_rows_same. intros env s1 s2 s3 H1 H2. congruence.
Qed.

#[global] Instance youtube_store_same_Footprint : Footprint youtube_store_same.
Proof.
  split; [done|]. unfold youtube_store_same.
  intros env s1 s2 s3 [H1 H1'] [H2 H2']. split; congruence.
Qed.

Ltac same_step :=
  first [ refine (keeps_fetch _ _ _ _); by intros
        | refine (keeps_createLog _ _ _ _ _); by intros
        | keeps_step ].

Lemma reddit_refresh_rows (accountId clientId clientSecret accessToken : string)
    (refreshToken : option string) (tokenExpiresAt : option Z) :
  keeps reddit_rows_same
    (Reddit.refreshTokenIfNeeded accountId clientId clientSecret accessToken
       refreshToken tokenExpiresAt).
Proof.
  unfold Reddit.refreshTokenIfNeeded.
  repeat first [ same_step | by intros ? ? ].
Qed.

Lemma reddit_search_rows (accessToken keywords timeRange : string) (limit : Z) :
  keeps reddit_rows_same (Reddit.searchPosts accessToken keywords timeRange limit).
Proof. unfold Reddit.searchPosts. repeat same_step. Qed.

Lemma targetPost_Some_nonempty (eligible : list RedditPost) (p : RedditPost) :
  Reddit.targetPost eligible = Some p -> (List.length eligible =? 0)%nat = false.
Proof. destruct eligible; [done|]. intros _. reflexivity. Qed.

Lemma log_then_ret {A} (env : Env) (s : State) (accountId : string) (lvl : Level)
    (msg : string) (a : A) :
  storage_down env LogCreate = false ->
  (createLog accountId lvl msg;; ret a) env s
  = (Ok a, add_log {| log_accountId := accountId; level := lvl; message := msg |} s).
Proof. intros Hup. unfold bind. by rewrite createLog_up. Qed.

Lemma reddit_store_answers (env : Env) (s : State) (accountId : string)
    (targetPost : RedditPost) (generatedReply commentId : string) :
  storage_down env LogCreate = false ->
  (Reddit.storeInteraction accountId targetPost generatedReply commentId env s).1
  = Ok {| status := 200;
          body := RepliedReddit (author targetPost) (title targetPost) generatedReply |}.
Proof.
  intros Hup. unfold Reddit.storeInteraction, bind at 1, try_catch.
  destruct ((Reddit.interaction_upsert accountId targetPost generatedReply commentId;;
             Reddit.cleanup accountId) env s) as [[[]|e] s1]; [done|].
  by rewrite createLog_up.
Qed.

Section RedditStatus.
Context (env : Env) (s : State) (accountId : string) (rc : RedditCredentials)
  (cfg : RedditConfiguration) (orc : OpenRouterCredentials).
Context (Hup : forall op, storage_down env op = false).

(** The run up to the end of the token refresh. *)
Ltac to_refresh :=
  unfold Reddit.pipeline; cbv zeta;
  unfold bind at 1; rewrite createLog_up by done;
  fold (reddit_started accountId s); fold (reddit_refreshing accountId rc);
  let Hrows := fresh "Hrows2" in
  pose proof (reddit_refresh_rows accountId (r_clientId rc) (r_clientSecret rc)
                (Js.the (r_accessToken rc)) (r_refreshToken rc) (r_tokenExpiresAt rc)
                env (reddit_started accountId s)) as Hrows;
  fold (reddit_refreshing accountId rc) in Hrows;
  unfold bind at 1, attempt;
  destruct (reddit_refreshing accountId rc env (reddit_started accountId s))
    as [refreshed s2];
  unfold reddit_rows_same in Hrows; cbn [fst snd] in *; subst refreshed.

(** From there to the end of the search. *)
Ltac to_search accessToken Hsearch :=
  fold (reddit_searching cfg accessToken);
  unfold bind at 1; unfold bind at 1;
  match goal with
  | |- context [reddit_searching cfg accessToken env ?s0] =>
      let Hrows := fresh "Hrows3" in
      pose proof (reddit_search_rows accessToken (Js.the (keywords cfg))
                    (Js.or_else (timeRange cfg) "day") 25 env s0) as Hrows;
      fold (reddit_searching cfg accessToken) in Hrows;
      specialize (Hsearch s0);
      destruct (reddit_searching cfg accessToken env s0) as [searched s3];
      unfold reddit_rows_same in Hrows; cbn [fst snd] in *; subst searched
  end.

(** From there to the selection of the post. *)
Ltac to_select posts :=
  unfold bind at 1; rewrite createLog_up by done; cbn [ret];
  unfold bind at 1; rewrite storage_up by done;
  unfold bind at 1; cbn [get add_log redditInteractions];
  repeat match goal with
         | H : redditInteractions _ = redditInteractions _ |- _ => rewrite H; clear H
         end;
  cbn [reddit_started add_log redditInteractions];
  fold (repliedPostIds accountId (redditInteractions s));
  fold (reddit_selecting accountId rc cfg s posts).

Ltac to_generate targetPost Hselect Hgenerate :=
  rewrite (targetPost_Some_nonempty _ _ Hselect), Hselect;
  unfold bind at 1; rewrite createLog_up by done;
  fold (reddit_generating orc targetPost);
  unfold bind at 1; unfold bind at 1;
  match goal with
  | |- context [reddit_generating orc targetPost env ?s0] =>
      specialize (Hgenerate s0);
      destruct (reddit_generating orc targetPost env s0) as [generated s5];
      cbn [fst snd] in *; subst generated
  end.

Ltac to_publish accessToken targetPost generatedReply Hpublish :=
  unfold bind at 1; rewrite createLog_up by done; cbn [ret];
  fold (reddit_publishing accessToken targetPost generatedReply);
  unfold bind at 1; unfold bind at 1;
  match goal with
  | |- context [reddit_publishing accessToken targetPost generatedReply env ?s0] =>
      specialize (Hpublish s0);
      destruct (reddit_publishing accessToken targetPost generatedReply env s0)
        as [posted s6];
      cbn [fst snd] in *; subst posted
  end.

Lemma reddit_status_refresh_fails (e : Exn) :
  (reddit_refreshing accountId rc env (reddit_started accountId s)).1 = Throw e ->
  (Reddit.pipeline accountId rc cfg orc env s).1
  = Ok {| status := 401; body := ErrorBody "Failed to refresh token" |}.
Proof. intros Hrefresh. to_refresh. by rewrite log_then_json. Qed.

Lemma reddit_status_search_fails (accessToken : string) (e : Exn) :
  (reddit_refreshing accountId rc env (reddit_started accountId s)).1 = Ok accessToken ->
  gives (reddit_searching cfg accessToken) env (Throw e) ->
  (Reddit.pipeline accountId rc cfg orc env s).1
  = Ok {| status := 500; body := ErrorBody "Failed to search posts" |}.
Proof.
  intros Hrefresh Hsearch. to_refresh. to_search accessToken Hsearch.
  by rewrite log_then_json.
Qed.

Lemma reddit_status_nothing_eligible (accessToken : string) (posts : list RedditPost) :
  (reddit_refreshing accountId rc env (reddit_started accountId s)).1 = Ok accessToken ->
  gives (reddit_searching cfg accessToken) env (Ok posts) ->
  reddit_selecting accountId rc cfg s posts = None ->
  (Reddit.pipeline accountId rc cfg orc env s).1
  = Ok {| status := 200; body := NotReplied "No eligible posts found" |}.
Proof.
  intros Hrefresh Hsearch Hselect. to_refresh. to_search accessToken Hsearch.
  to_select posts. rewrite Hselect.
  destruct (_ =? _)%nat; by rewrite log_then_json.
Qed.

Lemma reddit_status_generate_fails (accessToken : string) (posts : list RedditPost)
    (targetPost : RedditPost) (e : Exn) :
  (reddit_refreshing accountId rc env (reddit_started accountId s)).1 = Ok accessToken ->
  gives (reddit_searching cfg accessToken) env (Ok posts) ->
  reddit_selecting accountId rc cfg s posts = Some targetPost ->
  gives (reddit_generating orc targetPost) env (Throw e) ->
  (Reddit.pipeline accountId rc cfg orc env s).1
  = Ok {| status := 500; body := ErrorBody "Failed to generate reply" |}.
Proof.
  intros Hrefresh Hsearch Hselect Hgenerate. to_refresh. to_search accessToken Hsearch.
  to_select posts. to_generate targetPost Hselect Hgenerate.
  by rewrite log_then_json.
Qed.

Lemma reddit_status_publish_fails (accessToken : string) (posts : list RedditPost)
    (targetPost : RedditPost) (generatedReply : string) (e : Exn) :
  (reddit_refreshing accountId rc env (reddit_started accountId s)).1 = Ok accessToken ->
  gives (reddit_searching cfg accessToken) env (Ok posts) ->
  reddit_selecting accountId rc cfg s posts = Some targetPost ->
  gives (reddit_generating orc targetPost) env (Ok generatedReply) ->
  gives (reddit_publishing accessToken targetPost generatedReply) env (Throw e) ->
  (Reddit.pipeline accountId rc cfg orc env s).1
  = Ok {| status := 500; body := ErrorBody "Failed to post comment" |}.
Proof.
  intros Hrefresh Hsearch Hselect Hgenerate Hpublish.
  to_refresh. to_search accessToken Hsearch. to_select posts.
  to_generate targetPost Hselect Hgenerate.
  to_publish accessToken targetPost generatedReply Hpublish.
  by rewrite log_then_json.
Qed.

Lemma reddit_status_published (accessToken : string) (posts : list RedditPost)
    (targetPost : RedditPost) (generatedReply commentId : string) :
  (reddit_refreshing accountId rc env (reddit_started accountId s)).1 = Ok accessToken ->
  gives (reddit_searching cfg accessToken) env (Ok posts) ->
  reddit_selecting accountId rc cfg s posts = Some targetPost ->
  gives (reddit_generating orc targetPost) env (Ok generatedReply) ->
  gives (reddit_publishing accessToken targetPost generatedReply) env (Ok commentId) ->
  (Reddit.pipeline accountId rc cfg orc env s).1
  = Ok {| status := 200;
          body := RepliedReddit (author targetPost) (title targetPost) generatedReply |}.
Proof.
  intros Hrefresh Hsearch Hselect Hgenerate Hpublish.
  to_refresh. to_search accessToken Hsearch. to_select posts.
  to_generate targetPost Hselect Hgenerate.
  to_publish accessToken targetPost generatedReply Hpublish.
  unfold bind at 1. rewrite createLog_up by done. cbn [ret].
  by apply reddit_store_answers.
Qed.

End RedditStatus.

#[global] Instance youtube_rows_same_Footprint : Footprint youtube_rows_same.
Proof.
  split; [done|]. unfold youtube_rows_same. intros env s1 s2 s3 H1 H2. congruence.
Qed.

Lemma youtube_refresh_same (clientId clientSecret : string)
    (accessToken refreshToken : option string) (tokenExpiresAt : option Z) :
  keeps youtube_store_same
    (YouTubeClient.refreshTokenIfNeeded clientId clientSecret accessToken refreshToken
       tokenExpiresAt).
Proof.
  unfold YouTubeClient.refreshTokenIfNeeded. repeat first [ same_step | by intros ? ? ].
Qed.

Lemma youtube_persist_rows (accountId : string) (yc : YouTubeCredentials)
    (tokenResult : YouTubeClient.Tokens) :
  keeps youtube_rows_same (YouTube.persistTokens accountId yc tokenResult).
Proof. unfold YouTube.persistTokens. repeat first [ same_step | by intros ? ? ]. Qed.

Lemma youtube_videos_rows (accessToken : string) (maxResults : Z) :
  keeps youtube_rows_same (YouTubeClient.fetchChannelVideos accessToken maxResults).
Proof. unfold YouTubeClient.fetchChannelVideos. repeat same_step. Qed.

Lemma youtube_comments_rows (accessToken videoId videoTitle : string) (maxResults : Z) :
  keeps youtube_rows_same
    (YouTubeClient.fetchVideoComments accessToken videoId videoTitle maxResults).
Proof. unfold YouTubeClient.fetchVideoComments. repeat same_step. Qed.

Lemma youtube_allComments_rows (accessToken : string) (minimumLikesCount : Z)
    (videos : list YouTubeVideo) :
  keeps youtube_rows_same (YouTube.allComments accessToken minimumLikesCount videos).
Proof.
  induction videos as [|video rest IH]; simpl; [same_step|].
  repeat first [exact IH | apply youtube_comments_rows | same_step].
Qed.

Lemma youtube_persist_runs (env : Env) (s : State) (accountId : string)
    (yc : YouTubeCredentials) (tokenResult : YouTubeClient.Tokens) :
  storage_down env CredentialsUpdate = false ->
  existsb (fun a => String.eqb (a_id a) accountId
                    && bool_decide (is_Some (youtubeCredentials a))) (accounts s)
  = true ->
  (YouTube.persistTokens accountId yc tokenResult env s).1 = Ok tt.
Proof.
  intros Hup Hrow. unfold YouTube.persistTokens.
  destruct (negb _); [|done].
  unfold bind, storage, get, set_accounts, bind, get, put. rewrite Hup. cbn [fst snd].
  by rewrite Hrow.
Qed.

Lemma youtube_store_answers (env : Env) (s : State) (accountId : string)
    (bestComment : YouTubeComment) (generatedReply replyId : string) :
  (forall op, storage_down env op = false) ->
  (YouTube.storeInteraction accountId bestComment generatedReply replyId env s).1
  = Ok {| status := 200;
          body := RepliedYouTube (authorName bestComment) (commentId bestComment)
                    (videoTitle bestComment) replyId generatedReply |}.
Proof.
  intros Hup. unfold YouTube.storeInteraction.
  destruct (youtube_upsert_runs env s accountId bestComment generatedReply replyId
              (Hup _)) as (s1 & Hs1).
  destruct (youtube_cleanup_runs env s1 accountId (Hup _)) as (s2 & Hs2 & _).
  unfold bind at 1. rewrite Hs1. unfold bind at 1. by rewrite Hs2.
Qed.

Lemma bestComment_Some_nonempty (cs : list YouTubeComment) (c : YouTubeComment) :
  YouTube.bestComment cs = Some c -> (List.length cs =? 0)%nat = false.
Proof. destruct cs; [done|]. intros _. reflexivity. Qed.

Lemma unreplied_nonempty (replied : gset string) (allComments : list YouTubeComment) :
  (List.length (YouTube.unrepliedComments replied allComments) =? 0)%nat = false ->
  (List.length allComments =? 0)%nat = false.
Proof. by destruct allComments. Qed.

Section YouTubeStatus.
Context (env : Env) (s : State) (accountId : string) (yc : YouTubeCredentials)
  (cfg : option YouTubeConfiguration) (orc : OpenRouterCredentials).
Context (Hup : forall op, storage_down env op = false).
Context (Hrow : existsb (fun a => String.eqb (a_id a) accountId
                                  && bool_decide (is_Some (youtubeCredentials a)))
                  (accounts s) = true).

Ltac to_refresh Hrefresh :=
  unfold YouTube.pipeline; cbv zeta;
  unfold bind at 1; rewrite createLog_up by done;
  fold (youtube_started accountId s); fold (youtube_refreshing yc);
  let Hsame := fresh "Hsame" in
  pose proof (youtube_refresh_same (y_clientId yc) (y_clientSecret yc)
                (y_accessToken yc) (y_refreshToken yc) (y_tokenExpiresAt yc)
                env (youtube_started accountId s)) as Hsame;
  fold (youtube_refreshing yc) in Hsame;
  unfold bind at 1;
  specialize (Hrefresh (youtube_started accountId s));
  destruct (youtube_refreshing yc env (youtube_started accountId s))
    as [tokenResult s2];
  destruct Hsame as [Haccounts Hrows2]; cbn [fst snd] in *; subst tokenResult;
  cbn [youtube_started add_log accounts youTubeCommentInteractions] in *.

Ltac to_listing tokens Hlisting :=
  let Hpersist := fresh "Hpersist" in
  let Hrows := fresh "Hrows3" in
  unfold bind at 1;
  match goal with
  | |- context [YouTube.persistTokens accountId yc tokens env ?s0] =>
      pose proof (youtube_persist_runs env s0 accountId yc tokens (Hup _)) as Hpersist;
      pose proof (youtube_persist_rows accountId yc tokens env s0) as Hrows;
      destruct (YouTube.persistTokens accountId yc tokens env s0) as [persisted s3];
      unfold youtube_rows_same in Hrows; cbn [fst snd] in *
  end;
  rewrite Hpersist
    by (match goal with H : accounts _ = accounts s |- _ => by rewrite H end);
  fold (youtube_listing tokens);
  unfold bind at 1, attempt;
  match goal with
  | |- context [youtube_listing tokens env ?s0] =>
      let Hrows' := fresh "Hrows4" in
      pose proof (youtube_videos_rows (YouTubeClient.accessToken tokens) 5 env s0)
        as Hrows';
      fold (youtube_listing tokens) in Hrows';
      specialize (Hlisting s0);
      destruct (youtube_listing tokens env s0) as [fetched s4];
      unfold youtube_rows_same in Hrows'; cbn [fst snd] in *; subst fetched
  end.

Lemma youtube_status_no_token :
  gives (youtube_refreshing yc) env (Ok None) ->
  (YouTube.pipeline accountId yc cfg orc env s).1
  = Ok {| status := 401; body := ErrorBody "YouTube authentication failed" |}.
Proof. intros Hrefresh. to_refresh Hrefresh. by rewrite log_then_json. Qed.

Lemma youtube_status_listing_fails (tokens : YouTubeClient.Tokens) (e : Exn) :
  gives (youtube_refreshing yc) env (Ok (Some tokens)) ->
  gives (youtube_listing tokens) env (Throw e) ->
  (YouTube.pipeline accountId yc cfg orc env s).1
  = Ok {| status := 500; body := ErrorBody (e_message e) |}.
Proof.
  intros Hrefresh Hlisting. to_refresh Hrefresh. to_listing tokens Hlisting.
  by rewrite log_then_json.
Qed.

Lemma youtube_status_no_videos (tokens : YouTubeClient.Tokens) :
  gives (youtube_refreshing yc) env (Ok (Some tokens)) ->
  gives (youtube_listing tokens) env (Ok []) ->
  (YouTube.pipeline accountId yc cfg orc env s).1
  = Ok {| status := 200; body := NotReplied "No videos found on channel" |}.
Proof.
  intros Hrefresh Hlisting. to_refresh Hrefresh. to_listing tokens Hlisting.
  cbn [List.length Nat.eqb]. by rewrite log_then_json.
Qed.

Ltac to_collect tokens videos Hcollect :=
  unfold bind at 1; rewrite createLog_up by done;
  fold (youtube_collecting cfg tokens videos);
  unfold bind at 1;
  match goal with
  | |- context [youtube_collecting cfg tokens videos env ?s0] =>
      let Hrows := fresh "Hrows5" in
      pose proof (youtube_allComments_rows (YouTubeClient.accessToken tokens)
                    (Js.nullish (cfg ≫= minimumLikesCount) 5) videos env s0) as Hrows;
      fold (youtube_collecting cfg tokens videos) in Hrows;
      specialize (Hcollect s0);
      destruct (youtube_collecting cfg tokens videos env s0) as [collected s5];
      unfold youtube_rows_same in Hrows; cbn [fst snd] in *; subst collected
  end.

Ltac to_select allComments :=
  unfold bind at 1; rewrite createLog_up by done;
  unfold bind at 1; rewrite storage_up by done;
  unfold bind at 1; unfold get;
  cbn [add_log youTubeCommentInteractions fst snd] in *;
  repeat match goal with
         | H : youTubeCommentInteractions _ = youTubeCommentInteractions _ |- _ =>
             rewrite H; clear H
         end;
  fold (repliedCommentIds accountId allComments (youTubeCommentInteractions s));
  fold (youtube_selecting accountId s allComments).

Lemma youtube_status_nothing_to_reply (tokens : YouTubeClient.Tokens)
    (videos : list YouTubeVideo) (allComments : list YouTubeComment) :
  gives (youtube_refreshing yc) env (Ok (Some tokens)) ->
  gives (youtube_listing tokens) env (Ok videos) ->
  gives (youtube_collecting cfg tokens videos) env (Ok allComments) ->
  youtube_selecting accountId s allComments = None ->
  exists message,
    (YouTube.pipeline accountId yc cfg orc env s).1
    = Ok {| status := 200; body := NotReplied message |}.
Proof.
  intros Hrefresh Hlisting Hcollect Hselect.
  to_refresh Hrefresh. to_listing tokens Hlisting.
  destruct (List.length videos =? 0)%nat; [rewrite log_then_json by done; by eexists|].
  to_collect tokens videos Hcollect.
  destruct (List.length allComments =? 0)%nat;
    [rewrite log_then_json by done; by eexists|].
  to_select allComments. rewrite Hselect.
  destruct (_ =? _)%nat eqn:Hnone; [rewrite log_then_json by done; by eexists|].
  unfold youtube_selecting in Hselect.
  destruct (YouTube.unrepliedComments _ allComments); [done|].
  unfold YouTube.bestComment, YouTube.sortedComments in Hselect.
  apply head_sort_None in Hselect. done.
Qed.

Ltac to_generate allComments bestComment Hselect Hgenerate :=
  let Hsome := fresh "Hsome" in
  pose proof (bestComment_Some_nonempty _ _ Hselect) as Hsome;
  rewrite (unreplied_nonempty _ _ Hsome);
  to_select allComments;
  rewrite Hsome, Hselect;
  unfold bind at 1; rewrite createLog_up by done;
  fold (youtube_generating orc bestComment);
  unfold bind at 1, attempt;
  match goal with
  | |- context [youtube_generating orc bestComment env ?s0] =>
      specialize (Hgenerate s0);
      destruct (youtube_generating orc bestComment env s0) as [generated s6];
      cbn [fst snd] in *; subst generated
  end.

Ltac to_publish tokens bestComment generatedReply Hpublish :=
  unfold bind at 1; rewrite createLog_up by done;
  fold (youtube_publishing tokens bestComment generatedReply);
  unfold bind at 1, attempt;
  match goal with
  | |- context [youtube_publishing tokens bestComment generatedReply env ?s0] =>
      specialize (Hpublish s0);
      destruct (youtube_publishing tokens bestComment generatedReply env s0)
        as [posted s7];
      cbn [fst snd] in *; subst posted
  end.

Lemma youtube_status_generate_fails (tokens : YouTubeClient.Tokens)
    (videos : list YouTubeVideo) (allComments : list YouTubeComment)
    (bestComment : YouTubeComment) (e : Exn) :
  gives (youtube_refreshing yc) env (Ok (Some tokens)) ->
  gives (youtube_listing tokens) env (Ok videos) ->
  videos <> [] ->
  gives (youtube_collecting cfg tokens videos) env (Ok allComments) ->
  youtube_selecting accountId s allComments = Some bestComment ->
  gives (youtube_generating orc bestComment) env (Throw e) ->
  (YouTube.pipeline accountId yc cfg orc env s).1
  = Ok {| status := 500; body := ErrorBody (e_message e) |}.
Proof.
  intros Hrefresh Hlisting Hvideos Hcollect Hselect Hgenerate.
  to_refresh Hrefresh. to_listing tokens Hlisting.
  destruct videos as [|video videos']; [done|]. cbn [List.length Nat.eqb].
  to_collect tokens (video :: videos') Hcollect.
  to_generate allComments bestComment Hselect Hgenerate.
  by rewrite log_then_json.
Qed.

Lemma youtube_status_publish_fails (tokens : YouTubeClient.Tokens)
    (videos : list YouTubeVideo) (allComments : list YouTubeComment)
    (bestComment : YouTubeComment) (generatedReply : string) (e : Exn) :
  gives (youtube_refreshing yc) env (Ok (Some tokens)) ->
  gives (youtube_listing tokens) env (Ok videos) ->
  videos <> [] ->
  gives (youtube_collecting cfg tokens videos) env (Ok allComments) ->
  youtube_selecting accountId s allComments = Some bestComment ->
  gives (youtube_generating orc bestComment) env (Ok generatedReply) ->
  gives (youtube_publishing tokens bestComment generatedReply) env (Throw e) ->
  (YouTube.pipeline accountId yc cfg orc env s).1
  = Ok {| status := 500; body := ErrorBody (e_message e) |}.
Proof.
  intros Hrefresh Hlisting Hvideos Hcollect Hselect Hgenerate Hpublish.
  to_refresh Hrefresh. to_listing tokens Hlisting.
  destruct videos as [|video videos']; [done|]. cbn [List.length Nat.eqb].
  to_collect tokens (video :: videos') Hcollect.
  to_generate allComments bestComment Hselect Hgenerate.
  to_publish tokens bestComment generatedReply Hpublish.
  by rewrite log_then_json.
Qed.

Lemma youtube_status_published (tokens : YouTubeClient.Tokens)
    (videos : list YouTubeVideo) (allComments : list YouTubeComment)
    (bestComment : YouTubeComment) (generatedReply replyId : string) :
  gives (youtube_refreshing yc) env (Ok (Some tokens)) ->
  gives (youtube_listing tokens) env (Ok videos) ->
  videos <> [] ->
  gives (youtube_collecting cfg tokens videos) env (Ok allComments) ->
  youtube_selecting accountId s allComments = Some bestComment ->
  gives (youtube_generating orc bestComment) env (Ok generatedReply) ->
  gives (youtube_publishing tokens bestComment generatedReply) env (Ok replyId) ->
  (YouTube.pipeline accountId yc cfg orc env s).1
  = Ok {| status := 200;
          body := RepliedYouTube (authorName bestComment) (commentId bestComment)
                    (videoTitle bestComment) replyId generatedReply |}.
Proof.
  intros Hrefresh Hlisting Hvideos Hcollect Hselect Hgenerate Hpublish.
  to_refresh Hrefresh. to_listing tokens Hlisting.
  destruct videos as [|video videos']; [done|]. cbn [List.length Nat.eqb].
  to_collect tokens (video :: videos') Hcollect.
  to_generate allComments bestComment Hselect Hgenerate.
  to_publish tokens bestComment generatedReply Hpublish.
  unfold bind at 1. rewrite createLog_up by done.
  by apply youtube_store_answers.
Qed.

End YouTubeStatus.

(** ** From the request to the checks and the pipeline *)

Lemma try_catch_ok {A} (m : M A) (h : Exn -> M A) (env : Env) (s : State) (a : A) :
  (m env s).1 = Ok a -> (try_catch m h env s).1 = Ok a.
Proof. unfold try_catch. destruct (m env s) as [[r|e] s1]; simpl; congruence. Qed.

Lemma the_named (accountId : string) :
  Js.truthy (Some accountId) = true -> Js.the (Some accountId) = accountId.
Proof. intros Hacc. apply truthy_the in Hacc. congruence. Qed.

Lemma reddit_found_validates (request : Request) (env : Env) (s : State)
    (accountId : string) (account : Account) :
  reddit_found request env s accountId account ->
  Reddit.POST request env s
  = try_catch (Reddit.validate accountId account)
      (fun _ => json (ErrorBody "Pipeline failed") 500) env s.
Proof.
  intros (Hb & Hacc & Hup & Hfind). unfold reddit_lookup in Hfind.
  unfold Reddit.POST, try_catch. rewrite Hb. cbn [json_accountId].
  rewrite Hacc, (the_named _ Hacc). cbn [negb]. unfold bind at 1. unfold ask.
  destruct (Reddit.isCronCall env request).
  - unfold bind at 1. unfold account_findUnique, bind, get.
    rewrite (storage_up _ _ _ (Hup _)), Hfind. reflexivity.
  - destruct (Js.truthy (session_user_id env)); [|done]. cbn [negb].
    unfold bind at 1. unfold account_findFirst, bind, get.
    rewrite (storage_up _ _ _ (Hup _)), Hfind. reflexivity.
Qed.

Lemma youtube_found_validates (request : Request) (env : Env) (s : State)
    (accountId : string) (account : Account) :
  youtube_found request env s accountId account ->
  YouTube.POST request env s
  = try_catch (YouTube.validate accountId account)
      (fun _ => json (ErrorBody "Pipeline failed unexpectedly") 500) env s.
Proof.
  intros (Hb & Hacc & Hup & Hfind).
  unfold YouTube.POST, try_catch. rewrite Hb. cbn [json_accountId].
  rewrite Hacc, (the_named _ Hacc). cbn [negb].
  unfold bind at 1. unfold account_findUnique, bind, get.
  rewrite (storage_up _ _ _ (Hup _)), Hfind. reflexivity.
Qed.

Lemma reddit_ready_validates (accountId : string) (account : Account)
    (rc : RedditCredentials) (cfg : RedditConfiguration) (orc : OpenRouterCredentials) :
  reddit_ready account = true ->
  redditCredentials account = Some rc ->
  redditConfig account = Some cfg ->
  openRouterCredentials account = Some orc ->
  Reddit.validate accountId account = Reddit.pipeline accountId rc cfg orc.
Proof.
  intros Hready Hrc Hcfg Horc.
  unfold reddit_ready, reddit_connected in Hready.
  rewrite Hrc, Hcfg, Horc in Hready. simpl in Hready.
  repeat (apply andb_true_iff in Hready as [Hready ?]).
  unfold Reddit.validate. rewrite Hrc, Hcfg, Horc, Hready.
  by repeat match goal with H : _ = true |- _ => rewrite H; clear H end.
Qed.

Lemma youtube_ready_validates (accountId : string) (account : Account)
    (yc : YouTubeCredentials) (orc : OpenRouterCredentials) :
  youtube_ready account = true ->
  youtubeCredentials account = Some yc ->
  openRouterCredentials account = Some orc ->
  YouTube.validate accountId account
  = YouTube.pipeline accountId yc (youtubeConfig account) orc.
Proof.
  intros Hready Hyc Horc.
  unfold youtube_ready, youtube_connected in Hready.
  rewrite Hyc, Horc in Hready. simpl in Hready.
  repeat (apply andb_true_iff in Hready as [Hready ?]).
  unfold YouTube.validate. rewrite Hyc, Horc, Hready.
  by repeat match goal with H : _ = true |- _ => rewrite H; clear H end.
Qed.

(** What the Reddit pipeline answers for a request that reaches it is
    what the handler answers. *)
Lemma reddit_found_answers (request : Request) (env : Env) (s : State)
    (accountId : string) (account : Account) (rc : RedditCredentials)
    (cfg : RedditConfiguration) (orc : OpenRouterCredentials) (r : Response) :
  reddit_found request env s accountId account ->
  reddit_ready account = true ->
  redditCredentials account = Some rc ->
  redditConfig account = Some cfg ->
  openRouterCredentials account = Some orc ->
  (Reddit.pipeline accountId rc cfg orc env s).1 = Ok r ->
  (Reddit.POST request env s).1 = Ok r.
Proof.
  intros Hfound Hready Hrc Hcfg Horc Hrun.
  rewrite (reddit_found_validates _ _ _ _ _ Hfound).
  apply try_catch_ok.
  by rewrite (reddit_ready_validates _ _ _ _ _ Hready Hrc Hcfg Horc).
Qed.

Lemma youtube_found_answers (request : Request) (env : Env) (s : State)
    (accountId : string) (account : Account) (yc : YouTubeCredentials)
    (orc : OpenRouterCredentials) (r : Response) :
  youtube_found request env s accountId account ->
  youtube_ready account = true ->
  youtubeCredentials account = Some yc ->
  openRouterCredentials account = Some orc ->
  (YouTube.pipeline accountId yc (youtubeConfig account) orc env s).1 = Ok r ->
  (YouTube.POST request env s).1 = Ok r.
Proof.
  intros Hfound Hready Hyc Horc Hrun.
  rewrite (youtube_found_validates _ _ _ _ _ Hfound).
  apply try_catch_ok.
  by rewrite (youtube_ready_validates _ _ _ _ Hready Hyc Horc).
Qed.

(** The account a YouTube request finds has a credentials row when its
    credentials are set. *)
Lemma youtube_found_row (request : Request) (env : Env) (s : State)
    (accountId : string) (account : Account) (yc : YouTubeCredentials) :
  youtube_found request env s accountId account ->
  youtubeCredentials account = Some yc ->
  existsb (fun a => String.eqb (a_id a) accountId
                    && bool_decide (is_Some (youtubeCredentials a)))
    (accounts s) = true.
Proof.
  intros (_ & _ & _ & Hfind) Hyc. apply find_some in Hfind as [Hin Hid].
  apply existsb_exists. exists account. split; [done|].
  rewrite Hid, Hyc. cbn [andb]. by apply bool_decide_eq_true.
Qed.

(** A request that finds no account: the Reddit handler answers 401 to
    a caller who is neither the scheduler nor a signed-in user and 404
    otherwise; the YouTube handler answers 404. *)
Lemma reddit_lookup_none (request : Request) (env : Env) (s : State)
    (accountId : string) :
  request_json request = Some {| json_accountId := Some accountId |} ->
  Js.truthy (Some accountId) = true ->
  storage_down env AccountFind = false ->
  reddit_lookup request env s accountId = None ->
  (Reddit.POST request env s).1
  = if Reddit.isCronCall env request || Js.truthy (session_user_id env)
    then Ok {| status := 404; body := ErrorBody "Account not found" |}
    else Ok {| status := 401; body := ErrorBody "Unauthorized" |}.
Proof.
  intros Hb Hacc Hup Hfind. unfold reddit_lookup in Hfind.
  unfold Reddit.POST, try_catch. rewrite Hb. cbn [json_accountId].
  rewrite Hacc, (the_named _ Hacc). cbn [negb]. unfold bind at 1. unfold ask.
  destruct (Reddit.isCronCall env request); cbn [orb].
  - unfold bind at 1. unfold account_findUnique, bind, get.
    by rewrite (storage_up _ _ _ Hup), Hfind.
  - destruct (Js.truthy (session_user_id env)); [|done]. cbn [negb].
    unfold bind at 1. unfold account_findFirst, bind, get.
    by rewrite (storage_up _ _ _ Hup), Hfind.
Qed.

Lemma youtube_lookup_none (request : Request) (env : Env) (s : State)
    (accountId : string) :
  request_json request = Some {| json_accountId := Some accountId |} ->
  Js.truthy (Some accountId) = true ->
  storage_down env AccountFind = false ->
  List.find (fun a => String.eqb (a_id a) accountId) (accounts s) = None ->
  (YouTube.POST request env s).1
  = Ok {| status := 404; body := ErrorBody "Account not found" |}.
Proof.
  intros Hb Hacc Hup Hfind.
  unfold YouTube.POST, try_catch. rewrite Hb. cbn [json_accountId].
  rewrite Hacc, (the_named _ Hacc). cbn [negb].
  unfold bind at 1. unfold account_findUnique, bind, get.
  by rewrite (storage_up _ _ _ Hup), Hfind.
Qed.

(** A body without an account identifier is answered 400, a body that
    is not JSON 500. *)
Lemma POST_without_accountId (request : Request) (env : Env) (s : State) (b : Body) :
  request_json request = Some b ->
  Js.truthy (json_accountId b) = false ->
  (Reddit.POST request env s).1
  = Ok {| status := 400; body := ErrorBody "accountId is required" |}
  /\ (YouTube.POST request env s).1
     = Ok {| status := 400; body := ErrorBody "accountId is required" |}.
Proof.
  intros Hb Hacc. unfold Reddit.POST, YouTube.POST, try_catch.
  by rewrite Hb, Hacc.
Qed.

Lemma POST_without_json (request : Request) (env : Env) (s : State) :
  request_json request = None ->
  (Reddit.POST request env s).1
  = Ok {| status := 500; body := ErrorBody "Pipeline failed" |}
  /\ (YouTube.POST request env s).1
     = Ok {| status := 500; body := ErrorBody "Pipeline failed unexpectedly" |}.
Proof.
  intros Hb. unfold Reddit.POST, YouTube.POST, try_catch.
  by rewrite Hb.
Qed.

(** An outage of the account table, for a caller the Reddit handler
    lets in. *)
Lemma reddit_lookup_out (request : Request) (env : Env) (s : State)
    (accountId : string) :
  request_json request = Some {| json_accountId := Some accountId |} ->
  Js.truthy (Some accountId) = true ->
  Reddit.isCronCall env request || Js.truthy (session_user_id env) = true ->
  storage_down env AccountFind = true ->
  (Reddit.POST request env s).1
  = Ok {| status := 500; body := ErrorBody "Pipeline failed" |}.
Proof.
  intros Hb Hacc Hin Hdown.
  unfold Reddit.POST, try_catch. rewrite Hb. cbn [json_accountId].
  rewrite Hacc, (the_named _ Hacc). cbn [negb]. unfold bind at 1. unfold ask.
  destruct (Reddit.isCronCall env request); cbn [orb] in Hin.
  - unfold bind at 1. unfold account_findUnique, bind.
    by rewrite (storage_out _ _ _ Hdown).
  - rewrite Hin. cbn [negb].
    unfold bind at 1. unfold account_findFirst, bind.
    by rewrite (storage_out _ _ _ Hdown).
Qed.

(** ** C10: the status of the answer *)

(** C10, as the code has it.  Every request is answered, a reply or
    nothing to reply to with 200 and every error with 400, 401, 404 or
    500.  Branch by branch, for a request whose account is found with
    the storage available: an account without a stored access token is
    answered 400, like any account that fails a check of its
    configuration; an account that passes the checks runs the
    pipeline, where a token refresh that fails is answered 401, a
    failing search or channel listing, a failing reply generation and
    a refused reply are answered 500, and a run that ends with nothing
    to reply to, or with the reply published, is answered 200.  A
    request that finds no account is answered 404, or 401 by the
    Reddit handler when the caller is neither the scheduler nor signed
    in; a body without an account identifier is answered 400; a body
    that is not JSON and an outage of the account table are answered
    500. *)
Theorem status_by_outcome (request : Request) (env : Env) (s : State) :
  let reddit := (Reddit.POST request env s).1 in
  let youtube := (YouTube.POST request env s).1 in
  match reddit with Ok r => status_reflects_outcome r | Throw _ => False end
  /\ match youtube with Ok r => status_reflects_outcome r | Throw _ => False end
  /\ (forall accountId account,
        reddit_found request env s accountId account ->
        (reddit_connected account = false ->
         reddit = Ok {| status := 400; body := ErrorBody "Reddit OAuth not connected" |})
        /\ (reddit_ready account = false ->
            exists msg, reddit = Ok {| status := 400; body := ErrorBody msg |})
        /\ forall rc cfg orc,
             reddit_ready account = true ->
             redditCredentials account = Some rc ->
             redditConfig account = Some cfg ->
             openRouterCredentials account = Some orc ->
             (forall e,
                (reddit_refreshing accountId rc env (reddit_started accountId s)).1
                = Throw e ->
                reddit = Ok {| status := 401; body := ErrorBody "Failed to refresh token" |})
             /\ forall accessToken,
                  (reddit_refreshing accountId rc env (reddit_started accountId s)).1
                  = Ok accessToken ->
                  (forall e,
                     gives (reddit_searching cfg accessToken) env (Throw e) ->
                     reddit = Ok {| status := 500;
                                    body := ErrorBody "Failed to search posts" |})
                  /\ forall posts,
                       gives (reddit_searching cfg accessToken) env (Ok posts) ->
                       (reddit_selecting accountId rc cfg s posts = None ->
                        reddit = Ok {| status := 200;
                                       body := NotReplied "No eligible posts found" |})
                       /\ forall targetPost,
                            reddit_selecting accountId rc cfg s posts = Some targetPost ->
                            (forall e,
                               gives (reddit_generating orc targetPost) env (Throw e) ->
                               reddit = Ok {| status := 500;
                                              body := ErrorBody "Failed to generate reply" |})
                            /\ forall generatedReply,
                                 gives (reddit_generating orc targetPost) env
                                   (Ok generatedReply) ->
                                 (forall e,
                                    gives (reddit_publishing accessToken targetPost
                                             generatedReply) env (Throw e) ->
                                    reddit = Ok {| status := 500;
                                                   body := ErrorBody "Failed to post comment" |})
                                 /\ forall commentId,
                                      gives (reddit_publishing accessToken targetPost
                                               generatedReply) env (Ok commentId) ->
                                      reddit
                                      = Ok {| status := 200;
                                              body := RepliedReddit (author targetPost)
                                                        (title targetPost)
                                                        generatedReply |})
  /\ (forall accountId account,
        youtube_found request env s accountId account ->
        (youtube_connected account = false ->
         youtube = Ok {| status := 400; body := ErrorBody "YouTube OAuth not connected" |})
        /\ (youtube_ready account = false ->
            exists msg, youtube = Ok {| status := 400; body := ErrorBody msg |})
        /\ forall yc orc,
             youtube_ready account = true ->
             youtubeCredentials account = Some yc ->
             openRouterCredentials account = Some orc ->
             (gives (youtube_refreshing yc) env (Ok None) ->
              youtube = Ok {| status := 401;
                              body := ErrorBody "YouTube authentication failed" |})
             /\ forall tokens,
                  gives (youtube_refreshing yc) env (Ok (Some tokens)) ->
                  (forall e,
                     gives (youtube_listing tokens) env (Throw e) ->
                     youtube = Ok {| status := 500; body := ErrorBody (e_message e) |})
                  /\ (gives (youtube_listing tokens) env (Ok []) ->
                      youtube = Ok {| status := 200;
                                      body := NotReplied "No videos found on channel" |})
                  /\ forall videos allComments,
                       videos <> [] ->
                       gives (youtube_listing tokens) env (Ok videos) ->
                       gives (youtube_collecting (youtubeConfig account) tokens videos)
                         env (Ok allComments) ->
                       (youtube_selecting accountId s allComments = None ->
                        exists msg,
                          youtube = Ok {| status := 200; body := NotReplied msg |})
                       /\ forall bestComment,
                            youtube_selecting accountId s allComments = Some bestComment ->
                            (forall e,
                               gives (youtube_generating orc bestComment) env (Throw e) ->
                               youtube = Ok {| status := 500;
                                               body := ErrorBody (e_message e) |})
                            /\ forall generatedReply,
                                 gives (youtube_generating orc bestComment) env
                                   (Ok generatedReply) ->
                                 (forall e,
                                    gives (youtube_publishing tokens bestComment
                                             generatedReply) env (Throw e) ->
                                    youtube = Ok {| status := 500;
                                                    body := ErrorBody (e_message e) |})
                                 /\ forall replyId,
                                      gives (youtube_publishing tokens bestComment
                                               generatedReply) env (Ok replyId) ->
                                      youtube
                                      = Ok {| status := 200;
                                              body := RepliedYouTube
                                                        (authorName bestComment)
                                                        (commentId bestComment)
                                                        (videoTitle bestComment)
                                                        replyId generatedReply |})
  /\ (forall accountId,
        request_json request = Some {| json_accountId := Some accountId |} ->
        Js.truthy (Some accountId) = true ->
        (storage_down env AccountFind = false ->
         (reddit_lookup request env s accountId = None ->
          reddit
          = if Reddit.isCronCall env request || Js.truthy (session_user_id env)
            then Ok {| status := 404; body := ErrorBody "Account not found" |}
            else Ok {| status := 401; body := ErrorBody "Unauthorized" |})
         /\ (List.find (fun a => String.eqb (a_id a) accountId) (accounts s) = None ->
             youtube = Ok {| status := 404; body := ErrorBody "Account not found" |}))
        /\ (storage_down env AccountFind = true ->
            (Reddit.isCronCall env request || Js.truthy (session_user_id env) = true ->
             reddit = Ok {| status := 500; body := ErrorBody "Pipeline failed" |})
            /\ youtube = Ok {| status := 500;
                               body := ErrorBody "Pipeline failed unexpectedly" |}))
  /\ (forall b,
        request_json request = Some b ->
        Js.truthy (json_accountId b) = false ->
        reddit = Ok {| status := 400; body := ErrorBody "accountId is required" |}
        /\ youtube = Ok {| status := 400; body := ErrorBody "accountId is required" |})
  /\ (request_json request = None ->
      reddit = Ok {| status := 500; body := ErrorBody "Pipeline failed" |}
      /\ youtube = Ok {| status := 500; body := ErrorBody "Pipeline failed unexpectedly" |}).
Proof.
  intros reddit youtube. subst reddit youtube.
  split; [apply reddit_POST_status|].
  split; [apply youtube_POST_status|].
  split.
  { intros accountId account Hfound.
    pose proof Hfound as (_ & _ & Hup & _).
    split.
    { intros Hc. rewrite (reddit_found_validates _ _ _ _ _ Hfound).
      apply try_catch_ok. by rewrite reddit_validate_not_connected. }
    split.
    { intros Hready.
      destruct (reddit_validate_not_ready env s accountId account (Hup _) Hready)
        as [msg Hmsg].
      exists msg. rewrite (reddit_found_validates _ _ _ _ _ Hfound).
      apply try_catch_ok. by rewrite Hmsg. }
    intros rc cfg orc Hready Hrc Hcfg Horc.
    pose proof (reddit_found_answers request env s accountId account rc cfg orc)
      as Hanswer.
    split.
    { intros e Hrefresh. apply Hanswer; try done.
      by apply (reddit_status_refresh_fails _ _ _ _ _ _ Hup e). }
    intros accessToken Hrefresh. split.
    { intros e Hsearch. apply Hanswer; try done.
      by apply (reddit_status_search_fails _ _ _ _ _ _ Hup accessToken e). }
    intros posts Hsearch. split.
    { intros Hselect. apply Hanswer; try done.
      by apply (reddit_status_nothing_eligible _ _ _ _ _ _ Hup accessToken posts). }
    intros targetPost Hselect. split.
    { intros e Hgenerate. apply Hanswer; try done.
      by apply (reddit_status_generate_fails _ _ _ _ _ _ Hup accessToken posts
                  targetPost e). }
    intros generatedReply Hgenerate. split.
    { intros e Hpublish. apply Hanswer; try done.
      by apply (reddit_status_publish_fails _ _ _ _ _ _ Hup accessToken posts
                  targetPost generatedReply e). }
    intros commentId Hpublish. apply Hanswer; try done.
    by apply (reddit_status_published _ _ _ _ _ _ Hup accessToken posts
                targetPost generatedReply commentId). }
  split.
  { intros accountId account Hfound.
    pose proof Hfound as (_ & _ & Hup & _).
    split.
    { intros Hc. rewrite (youtube_found_validates _ _ _ _ _ Hfound).
      apply try_catch_ok. by rewrite youtube_validate_not_connected. }
    split.
    { intros Hready.
      destruct (youtube_validate_not_ready env s accountId account (Hup _) Hready)
        as [msg Hmsg].
      exists msg. rewrite (youtube_found_validates _ _ _ _ _ Hfound).
      apply try_catch_ok. by rewrite Hmsg. }
    intros yc orc Hready Hyc Horc.
    pose proof (youtube_found_answers request env s accountId account yc orc)
      as Hanswer.
    pose proof (youtube_found_row _ _ _ _ _ _ Hfound Hyc) as Hrow.
    split.
    { intros Hrefresh. apply Hanswer; try done.
      by apply (youtube_status_no_token _ _ _ _ _ _ Hup). }
    intros tokens Hrefresh. split.
    { intros e Hlisting. apply Hanswer; try done.
      by apply (youtube_status_listing_fails _ _ _ _ _ _ Hup Hrow tokens e). }
    split.
    { intros Hlisting. apply Hanswer; try done.
      by apply (youtube_status_no_videos _ _ _ _ _ _ Hup Hrow tokens). }
    intros videos allComments Hvideos Hlisting Hcollect. split.
    { intros Hselect.
      destruct (youtube_status_nothing_to_reply _ _ _ _ _ orc Hup Hrow tokens videos
                  allComments Hrefresh Hlisting Hcollect Hselect) as [msg Hmsg].
      exists msg. by apply Hanswer. }
    intros bestComment Hselect. split.
    { intros e Hgenerate. apply Hanswer; try done.
      by apply (youtube_status_generate_fails _ _ _ _ _ _ Hup Hrow tokens videos
                  allComments bestComment e). }
    intros generatedReply Hgenerate. split.
    { intros e Hpublish. apply Hanswer; try done.
      by apply (youtube_status_publish_fails _ _ _ _ _ _ Hup Hrow tokens videos
                  allComments bestComment generatedReply e). }
    intros replyId Hpublish. apply Hanswer; try done.
    by apply (youtube_status_published _ _ _ _ _ _ Hup Hrow tokens videos
                allComments bestComment generatedReply replyId). }
  split.
  { intros accountId Hb Hacc. split.
    - intros Hup. split.
      + by apply reddit_lookup_none.
      + by apply youtube_lookup_none.
    - intros Hdown. split.
      + intros Hin. by apply (reddit_lookup_out _ _ _ accountId).
      + by rewrite (youtube_lookup_fails request env s _ Hb Hacc Hdown). }
  split.
  - intros b Hb Hacc. by apply (POST_without_accountId _ _ _ b).
  - intros Hb. by apply POST_without_json.
Qed.

Local Ltac found :=
  split; [reflexivity|]; split; [reflexivity|]; split; [by intros []|];
  vm_compute; reflexivity.

(** The branches of [status_by_outcome] on the sample account: a healthy
    run, peers out of order at each stage, stale tokens, a disconnected
    account and an outage of the account table. *)
Lemma status_by_outcome_witness :
  let s := Sample.store Sample.connected in
  (Reddit.POST Sample.from_scheduler Sample.env s).1
  = Ok {| status := 200; body := RepliedReddit "carol" "Tc" "hello" |}
  /\ (YouTube.POST Sample.from_scheduler Sample.env s).1
     = Ok {| status := 200; body := RepliedYouTube "me" "c1" "V1" "r1" "hello" |}
  /\ (Reddit.POST Sample.from_scheduler (among search_out) s).1
     = Ok {| status := 500; body := ErrorBody "Failed to search posts" |}
  /\ (YouTube.POST Sample.from_scheduler (among search_out) s).1
     = Ok {| status := 500; body := ErrorBody "Failed to fetch channel: 503" |}
  /\ (Reddit.POST Sample.from_scheduler (among chat_out) s).1
     = Ok {| status := 500; body := ErrorBody "Failed to generate reply" |}
  /\ (YouTube.POST Sample.from_scheduler (among chat_out) s).1
     = Ok {| status := 500; body := ErrorBody "OpenRouter error: bad gateway" |}
  /\ (Reddit.POST Sample.from_scheduler (among publish_out) s).1
     = Ok {| status := 500; body := ErrorBody "Failed to post comment" |}
  /\ (YouTube.POST Sample.from_scheduler (among publish_out) s).1
     = Ok {| status := 500; body := ErrorBody "Failed to post reply: forbidden" |}
  /\ (Reddit.POST Sample.from_scheduler Sample.env (Sample.store stale)).1
     = Ok {| status := 401; body := ErrorBody "Failed to refresh token" |}
  /\ (YouTube.POST Sample.from_scheduler Sample.env (Sample.store stale)).1
     = Ok {| status := 401; body := ErrorBody "YouTube authentication failed" |}
  /\ (Reddit.POST Sample.from_scheduler Sample.env (Sample.store Sample.disconnected)).1
     = Ok {| status := 400; body := ErrorBody "Reddit OAuth not connected" |}
  /\ (Reddit.POST Sample.from_scheduler (Sample.env_down AccountFind) s).1
     = Ok {| status := 500; body := ErrorBody "Pipeline failed" |}.
Proof.
  intros s.
  pose proof (status_by_outcome Sample.from_scheduler Sample.env s) as Hhealthy.
  pose proof (status_by_outcome Sample.from_scheduler (among search_out) s) as Hsearch.
  pose proof (status_by_outcome Sample.from_scheduler (among chat_out) s) as Hchat.
  pose proof (status_by_outcome Sample.from_scheduler (among publish_out) s) as Hpublish.
  pose proof (status_by_outcome Sample.from_scheduler Sample.env (Sample.store stale))
    as Hstale.
  pose proof (status_by_outcome Sample.from_scheduler Sample.env
                (Sample.store Sample.disconnected)) as Hoff.
  pose proof (status_by_outcome Sample.from_scheduler (Sample.env_down AccountFind) s)
    as Hdown.
  cbv zeta in *.
  repeat match goal with |- _ /\ _ => split end.
  - destruct Hhealthy as (_ & _ & HR & _).
    destruct (HR "acc" Sample.connected) as (_ & _ & Hrun); [found|].
    edestruct Hrun as [_ H1]; [reflexivity..|].
    edestruct H1 as [_ H2]; [reflexivity|].
    edestruct H2 as [_ H3]; [intros s0; reflexivity|].
    edestruct H3 as [_ H4]; [reflexivity|].
    edestruct H4 as [_ H5]; [intros s0; reflexivity|].
    apply (H5 "t1_x"). intros s0; reflexivity.
  - destruct Hhealthy as (_ & _ & _ & HY & _).
    destruct (HY "acc" Sample.connected) as (_ & _ & Hrun); [found|].
    edestruct Hrun as [_ H1]; [reflexivity..|].
    edestruct H1 as (_ & _ & H2); [intros s0; reflexivity|].
    edestruct H2 as [_ H3];
      [|intros s0; reflexivity|intros s0; reflexivity|]; [done|].
    edestruct H3 as [_ H4]; [reflexivity|].
    edestruct H4 as [_ H5]; [intros s0; reflexivity|].
    apply (H5 "r1"). intros s0; reflexivity.
  - destruct Hsearch as (_ & _ & HR & _).
    destruct (HR "acc" Sample.connected) as (_ & _ & Hrun); [found|].
    edestruct Hrun as [_ H1]; [reflexivity..|].
    edestruct H1 as [H2 _]; [reflexivity|].
    eapply H2. intros s0; reflexivity.
  - destruct Hsearch as (_ & _ & _ & HY & _).
    destruct (HY "acc" Sample.connected) as (_ & _ & Hrun); [found|].
    edestruct Hrun as [_ H1]; [reflexivity..|].
    edestruct H1 as (H2 & _); [intros s0; reflexivity|].
    apply (H2 (JsError "Failed to fetch channel: 503")). intros s0; reflexivity.
  - destruct Hchat as (_ & _ & HR & _).
    destruct (HR "acc" Sample.connected) as (_ & _ & Hrun); [found|].
    edestruct Hrun as [_ H1]; [reflexivity..|].
    edestruct H1 as [_ H2]; [reflexivity|].
    edestruct H2 as [_ H3]; [intros s0; reflexivity|].
    edestruct H3 as [H4 _]; [reflexivity|].
    eapply H4. intros s0; reflexivity.
  - destruct Hchat as (_ & _ & _ & HY & _).
    destruct (HY "acc" Sample.connected) as (_ & _ & Hrun); [found|].
    edestruct Hrun as [_ H1]; [reflexivity..|].
    edestruct H1 as (_ & _ & H2); [intros s0; reflexivity|].
    edestruct H2 as [_ H3];
      [|intros s0; reflexivity|intros s0; reflexivity|]; [done|].
    edestruct H3 as [H4 _]; [reflexivity|].
    apply (H4 (JsError "OpenRouter error: bad gateway")). intros s0; reflexivity.
  - destruct Hpublish as (_ & _ & HR & _).
    destruct (HR "acc" Sample.connected) as (_ & _ & Hrun); [found|].
    edestruct Hrun as [_ H1]; [reflexivity..|].
    edestruct H1 as [_ H2]; [reflexivity|].
    edestruct H2 as [_ H3]; [intros s0; reflexivity|].
    edestruct H3 as [_ H4]; [reflexivity|].
    edestruct H4 as [H5 _]; [intros s0; reflexivity|].
    eapply H5. intros s0; reflexivity.
  - destruct Hpublish as (_ & _ & _ & HY & _).
    destruct (HY "acc" Sample.connected) as (_ & _ & Hrun); [found|].
    edestruct Hrun as [_ H1]; [reflexivity..|].
    edestruct H1 as (_ & _ & H2); [intros s0; reflexivity|].
    edestruct H2 as [_ H3];
      [|intros s0; reflexivity|intros s0; reflexivity|]; [done|].
    edestruct H3 as [_ H4]; [reflexivity|].
    edestruct H4 as [H5 _]; [intros s0; reflexivity|].
    apply (H5 (JsError "Failed to post reply: forbidden")). intros s0; reflexivity.
  - destruct Hstale as (_ & _ & HR & _).
    destruct (HR "acc" stale) as (_ & _ & Hrun); [found|].
    edestruct Hrun as [H1 _]; [reflexivity..|].
    eapply H1. reflexivity.
  - destruct Hstale as (_ & _ & _ & HY & _).
    destruct (HY "acc" stale) as (_ & _ & Hrun); [found|].
    edestruct Hrun as [H1 _]; [reflexivity..|].
    apply H1. intros s0; reflexivity.
  - destruct Hoff as (_ & _ & HR & _).
    destruct (HR "acc" Sample.disconnected) as (H400 & _); [found|].
    by apply H400.
  - destruct Hdown as (_ & _ & _ & _ & Hout & _).
    destruct (Hout "acc") as [_ H500]; [reflexivity..|].
    destruct H500 as [H500 _]; [reflexivity|]. by apply H500.
Defined.

(** ** A recorded comment stays recorded *)

(** The row the upsert leaves for the comment: it carries the reply,
    and it was created by this upsert or is a row of the comment that
    was there before, with its creation time. *)
Lemma youtube_upsert_row_created (env : Env) (s : State) (accountId : string)
    (c : YouTubeComment) (generatedReply replyId : string) :
  storage_down env InteractionUpsert = false ->
  exists r,
    r ∈ youTubeCommentInteractions
          (YouTube.interaction_upsert accountId c generatedReply replyId env s).2
    /\ youtube_key r = (accountId, commentId c)
    /\ ourReply r = Some generatedReply
    /\ (yi_createdAt r = new_createdAt env
        \/ exists r0, r0 ∈ youTubeCommentInteractions s
                      /\ youtube_key r0 = (accountId, commentId c)
                      /\ yi_createdAt r = yi_createdAt r0).
Proof.
  intros Hup.
  destruct (youtube_upsert_rows env s accountId c generatedReply replyId Hup)
    as (s' & Hrun & _ & _ & _ & _ & Hrows).
  rewrite Hrun. simpl. rewrite Hrows. clear Hrun Hrows.
  set (hit := fun r => String.eqb (yi_accountId r) accountId
                       && String.eqb (yi_commentId r) (commentId c)).
  simpl. fold hit.
  destruct (existsb hit (youTubeCommentInteractions s)) eqn:Hex.
  - apply existsb_exists in Hex as (r & Hr & Hh).
    eexists. split.
    + apply list_elem_of_fmap. exists r. split; [reflexivity|].
      by apply list_elem_of_In.
    + rewrite Hh. split; [done|]. split; [done|]. right.
      exists r. split; [by apply list_elem_of_In|].
      split; [by apply (youtube_hit_key accountId c)|done].
  - eexists. split; [apply elem_of_app; right; by apply list_elem_of_singleton|].
    split; [done|]. split; [done|]. by left.
Qed.

(** An upsert for another key leaves the row of a recorded comment as
    it is, whether the storage is available or not. *)
Lemma youtube_upsert_keeps_recorded (env : Env) (s : State) (accountId : string)
    (c : YouTubeComment) (accountId' : string) (bestComment : YouTubeComment)
    (generatedReply replyId : string) :
  (accountId', commentId bestComment) <> (accountId, commentId c) ->
  youtube_recorded accountId c (youTubeCommentInteractions s) ->
  youtube_recorded accountId c
    (youTubeCommentInteractions
       (YouTube.interaction_upsert accountId' bestComment generatedReply replyId
          env s).2).
Proof.
  intros Hkey (r & Hr & Hk & Hreply & Hcreated).
  unfold YouTube.interaction_upsert, bind, storage.
  destruct (storage_down env InteractionUpsert); [by exists r|].
  unfold ask, set_youTubeCommentInteractions, bind, get, put.
  cbn [fst snd youTubeCommentInteractions].
  set (hit := fun r => String.eqb (yi_accountId r) accountId'
                       && String.eqb (yi_commentId r) (commentId bestComment)).
  assert (hit r = false) as Hmiss.
  { apply not_true_iff_false. intros Hh.
    apply (youtube_hit_key accountId' bestComment) in Hh. congruence. }
  exists r. split; [|done].
  destruct (existsb hit (youTubeCommentInteractions s)).
  - apply list_elem_of_fmap. exists r. split; [|done].
    unfold hit in Hmiss. by rewrite Hmiss.
  - apply elem_of_app. by left.
Qed.

(** The clean-up keeps the row of a recorded comment that was published
    in the last fourteen days, whether the storage is available or
    not. *)
Lemma youtube_cleanup_keeps_recorded (env : Env) (s : State) (accountId : string)
    (c : YouTubeComment) (accountId' : string) :
  now env - 14 * 24 * 60 * 60 * 1000 <= publishedAt c ->
  youtube_recorded accountId c (youTubeCommentInteractions s) ->
  youtube_recorded accountId c
    (youTubeCommentInteractions (YouTube.cleanup accountId' env s).2).
Proof.
  intros Hrecent (r & Hr & Hk & Hreply & Hcreated).
  unfold YouTube.cleanup, bind, ask, storage.
  destruct (storage_down env InteractionDeleteMany); [by exists r|].
  unfold set_youTubeCommentInteractions, bind, get, put.
  cbn [fst snd youTubeCommentInteractions].
  exists r. split; [|done].
  apply list_elem_of_In, filter_In. split; [by apply list_elem_of_In|].
  apply negb_true_iff, andb_false_iff. right. lia.
Qed.

Lemma youtube_store_keeps_recorded (env : Env) (s : State) (accountId : string)
    (c : YouTubeComment) (accountId' : string) (bestComment : YouTubeComment)
    (generatedReply replyId : string) :
  now env - 14 * 24 * 60 * 60 * 1000 <= publishedAt c ->
  (accountId', commentId bestComment) <> (accountId, commentId c) ->
  youtube_recorded accountId c (youTubeCommentInteractions s) ->
  youtube_recorded accountId c
    (youTubeCommentInteractions
       (YouTube.storeInteraction accountId' bestComment generatedReply replyId
          env s).2).
Proof.
  intros Hrecent Hkey Hrec.
  pose proof (youtube_upsert_keeps_recorded env s accountId c accountId' bestComment
                generatedReply replyId Hkey Hrec) as H1.
  unfold YouTube.storeInteraction. unfold bind at 1.
  destruct (YouTube.interaction_upsert _ _ _ _ env s) as [[[]|e] s1]; [|done].
  cbn [snd] in H1.
  pose proof (youtube_cleanup_keeps_recorded env s1 accountId c accountId' Hrecent H1)
    as H2.
  unfold bind at 1.
  by destruct (YouTube.cleanup accountId' env s1) as [[[]|e] s2].
Qed.

(** A recorded comment is in the replied set of every run that fetches
    a comment of its identifier, and no comment of that identifier is
    among the unreplied ones. *)
Lemma youtube_recorded_replied (accountId : string) (c : YouTubeComment)
    (rows : list YouTubeCommentInteraction) (allComments : list YouTubeComment) :
  youtube_recorded accountId c rows ->
  commentId c ∈ map commentId allComments ->
  commentId c ∈ repliedCommentIds accountId allComments rows
  /\ Forall (fun q => commentId q <> commentId c)
       (YouTube.unrepliedComments (repliedCommentIds accountId allComments rows)
          allComments).
Proof.
  intros (r & Hr & Hk & Hreply & _) Hfetched.
  injection Hk as Hacc Hcid.
  assert (commentId c ∈ repliedCommentIds accountId allComments rows) as Hin.
  { unfold repliedCommentIds. apply elem_of_list_to_set.
    rewrite <- Hcid. apply list_elem_of_fmap_2.
    apply list_elem_of_In, filter_In. split; [|done].
    apply filter_In. split; [by apply list_elem_of_In|].
    apply andb_true_iff. split; [by apply String.eqb_eq|].
    apply bool_decide_eq_true. by rewrite Hcid. }
  split; [done|].
  apply Forall_forall. intros q Hq Heq.
  unfold YouTube.unrepliedComments in Hq.
  apply list_elem_of_In, filter_In in Hq as [_ Hok].
  apply negb_true_iff, bool_decide_eq_false in Hok. apply Hok. by rewrite Heq.
Qed.

(** ** The interactions after a whole run *)

Section FromRows.
Context {X : Type} (table : State -> X) (R : Env -> State -> State -> Prop).
Context (HR : forall env s s', R env s s' -> table s' = table s).
Context (env : Env) (rows : X) (Q : State -> Prop).
Context (Hsame : forall s, table s = rows -> Q s).

Lemma from_rows_keeps {A} (m : M A) :
  keeps R m -> from_rows table env rows m Q.
Proof.
  intros Hm s Hs. apply Hsame. rewrite <- Hs. apply HR with env, Hm.
Qed.

Lemma from_rows_bind {A B} (m : M A) (k : A -> M B) :
  keeps R m ->
  (forall a, from_rows table env rows (k a) Q) ->
  from_rows table env rows (bind m k) Q.
Proof.
  intros Hm Hk s Hs. unfold bind. specialize (Hm env s). apply HR in Hm.
  destruct (m env s) as [[a|e] s1]; cbn [snd] in *.
  - apply Hk. congruence.
  - apply Hsame. congruence.
Qed.

Lemma from_rows_get {B} (k : State -> M B) :
  (forall s0, table s0 = rows -> from_rows table env rows (k s0) Q) ->
  from_rows table env rows (bind get k) Q.
Proof. intros Hk s Hs. unfold bind, get. by apply Hk. Qed.

Lemma from_rows_try_catch {A} (m : M A) (h : Exn -> M A) :
  from_rows table env rows m Q ->
  (forall e s, Q s -> Q (h e env s).2) ->
  from_rows table env rows (try_catch m h) Q.
Proof.
  intros Hm Hh s Hs. unfold try_catch. specialize (Hm s Hs).
  destruct (m env s) as [[a|e] s1]; [done|]. by apply Hh.
Qed.

End FromRows.

Lemma youtube_refresh_rows (clientId clientSecret : string)
    (accessToken refreshToken : option string) (tokenExpiresAt : option Z) :
  keeps youtube_rows_same
    (YouTubeClient.refreshTokenIfNeeded clientId clientSecret accessToken refreshToken
       tokenExpiresAt).
Proof.
  unfold YouTubeClient.refreshTokenIfNeeded. repeat first [ same_step | by intros ? ? ].
Qed.

Lemma youtube_generator_rows (apiKey model systemPrompt commentContent authorName
    videoTitle : string) (orc : OpenRouterCredentials) :
  keeps youtube_rows_same
    (YouTube.generateReplyWithLLM apiKey model systemPrompt commentContent authorName
       videoTitle orc).
Proof. unfold YouTube.generateReplyWithLLM. repeat same_step. Qed.

Lemma youtube_reply_rows (accessToken parentCommentId replyText : string) :
  keeps youtube_rows_same
    (YouTubeClient.postCommentReply accessToken parentCommentId replyText).
Proof. unfold YouTubeClient.postCommentReply. repeat same_step. Qed.

Lemma youtube_findUnique_rows (accountId : string) :
  keeps youtube_rows_same (account_findUnique accountId).
Proof. unfold account_findUnique. repeat same_step. Qed.

#[global] Hint Resolve youtube_refresh_rows youtube_persist_rows youtube_videos_rows
  youtube_allComments_rows youtube_generator_rows youtube_reply_rows
  youtube_findUnique_rows : footprint.

Lemma bestComment_elem (cs : list YouTubeComment) (c : YouTubeComment) :
  YouTube.bestComment cs = Some c -> c ∈ cs.
Proof.
  unfold YouTube.bestComment, YouTube.sortedComments. intros Hhead.
  rewrite <- (sort_Permutation likeCount cs).
  destruct (Js.sort _ cs) as [|x l]; [done|]. injection Hhead as ->.
  by apply elem_of_cons; left.
Qed.

(** One step of a run, as far as a table that [R] leaves alone goes;
    the store step is left to the caller. *)
Ltac rows_step R :=
  lazymatch goal with
  | |- from_rows _ _ _ (YouTube.storeInteraction _ _ _ _) _ => fail
  | |- from_rows _ _ _ (Reddit.storeInteraction _ _ _ _) _ => fail
  | |- from_rows _ _ _ (bind get _) _ =>
      apply from_rows_get; intros ? ?
  | |- from_rows ?table ?env ?rows (bind ?m ?k) ?Q =>
      refine (from_rows_bind table R _ env rows Q _ m k _ (fun _ => _));
      [by intros ? ? ? ?|by left|repeat same_step|]
  | |- from_rows _ _ _ (if ?b then _ else _) _ => destruct b eqn:?
  | |- from_rows _ _ _ (match ?x with _ => _ end) _ => destruct x eqn:?
  | |- from_rows ?table ?env ?rows ?m ?Q =>
      refine (from_rows_keeps table R _ env rows Q _ m _);
      [by intros ? ? ? ?|by left|repeat same_step]
  end.

Lemma youtube_pipeline_rows (env : Env) (rows : list YouTubeCommentInteraction)
    (accountId : string) (yc : YouTubeCredentials) (cfg : option YouTubeConfiguration)
    (orc : OpenRouterCredentials) :
  from_rows youTubeCommentInteractions env rows (YouTube.pipeline accountId yc cfg orc)
    (youtube_run_rows env accountId rows).
Proof.
  unfold YouTube.pipeline. cbv zeta. repeat rows_step youtube_rows_same.
  intros s Hs. right.
  match goal with
  | H : YouTube.bestComment (YouTube.unrepliedComments _ ?allComments) = Some ?best
    |- _ => exists allComments, best; apply bestComment_elem in H
  end.
  do 2 eexists. exists s. split; [done|]. split; [|reflexivity].
  unfold repliedCommentIds. congruence.
Qed.

Lemma youtube_validate_rows (env : Env) (rows : list YouTubeCommentInteraction)
    (accountId : string) (account : Account) :
  from_rows youTubeCommentInteractions env rows (YouTube.validate accountId account)
    (youtube_run_rows env accountId rows).
Proof.
  unfold YouTube.validate.
  repeat first [ apply youtube_pipeline_rows | rows_step youtube_rows_same ].
Qed.

Lemma youtube_POST_rows (env : Env) (rows : list YouTubeCommentInteraction)
    (request : Request) :
  from_rows youTubeCommentInteractions env rows (YouTube.POST request)
    (youtube_run_rows env (requested request) rows).
Proof.
  unfold YouTube.POST, requested.
  apply from_rows_try_catch; [|done].
  destruct (request_json request) as [b|]; cbv zeta.
  - repeat first [ apply youtube_validate_rows | rows_step youtube_rows_same ].
  - rows_step youtube_rows_same.
Qed.

(** X12.  Once the store step of a YouTube run (the upsert and the
    clean-up after it) has recorded a comment with a non-empty reply,
    the comment stays on record for as long as it can be fetched: a
    row is created no earlier than its comment was published, the
    handler fetches comments of the last seven days only, and the
    clean-up removes rows older than fourteen days, so the row
    outlives the clean-up of its own run and of every later run that
    can still fetch the comment; a Reddit run leaves it alone.  While
    the comment is on record it is
    in the replied set the handler computes, and no comment of its
    identifier is among the unreplied ones a run chooses from. *)
Theorem youtube_recorded_comment_not_unreplied (env : Env) (s : State)
    (accountId : string) (c : YouTubeComment) (generatedReply replyId : string) :
  (forall op, storage_down env op = false) ->
  generatedReply <> EmptyString ->
  now env - 7 * 24 * 60 * 60 * 1000 <= publishedAt c ->
  publishedAt c <= new_createdAt env ->
  Forall (fun r => youtube_key r = (accountId, commentId c) ->
                   publishedAt c <= yi_createdAt r)
    (youTubeCommentInteractions s) ->
  youtube_recorded accountId c
    (youTubeCommentInteractions
       (YouTube.storeInteraction accountId c generatedReply replyId env s).2)
  /\ (forall request env' s1,
        now env' - 7 * 24 * 60 * 60 * 1000 <= publishedAt c ->
        youtube_recorded accountId c (youTubeCommentInteractions s1) ->
        youtube_recorded accountId c
          (youTubeCommentInteractions (YouTube.POST request env' s1).2))
  /\ (forall request env' s1,
        youtube_recorded accountId c (youTubeCommentInteractions s1) ->
        youtube_recorded accountId c
          (youTubeCommentInteractions (Reddit.POST request env' s1).2))
  /\ (forall rows allComments,
        youtube_recorded accountId c rows ->
        commentId c ∈ map commentId allComments ->
        commentId c ∈ repliedCommentIds accountId allComments rows
        /\ Forall (fun q => commentId q <> commentId c)
             (YouTube.unrepliedComments
                (repliedCommentIds accountId allComments rows) allComments)).
Proof.
  intros Hup Hreply Hwindow Hcreated Hrows.
  split; [|split; [|split]].
  - destruct (youtube_upsert_row_created env s accountId c generatedReply replyId
                (Hup _)) as (r & Hr & Hkey & Hour & Hat).
    destruct (youtube_upsert_runs env s accountId c generatedReply replyId (Hup _))
      as (s1 & Hs1).
    rewrite Hs1 in Hr. cbn [snd] in Hr.
    assert (youtube_recorded accountId c (youTubeCommentInteractions s1)) as Hrec.
    { exists r. split; [done|]. split; [done|]. split.
      - rewrite Hour. cbn [Js.truthy]. apply negb_true_iff. by apply String.eqb_neq.
      - destruct Hat as [->|(r0 & Hr0 & Hkey0 & ->)]; [done|].
        rewrite Forall_forall in Hrows. by apply Hrows. }
    pose proof (youtube_cleanup_keeps_recorded env s1 accountId c accountId
                  ltac:(lia) Hrec) as Hkept.
    unfold YouTube.storeInteraction. unfold bind at 1. rewrite Hs1.
    unfold bind at 1.
    by destruct (YouTube.cleanup accountId env s1) as [[[]|e] s2].
  - intros request env' s1 Hwindow' Hrec.
    destruct (youtube_POST_rows env' (youTubeCommentInteractions s1) request s1
                eq_refl)
      as [Hsame|(allComments & best & reply & id' & s7 & Hs7 & Hbest & Hstored)].
    + by rewrite Hsame.
    + rewrite Hstored. apply youtube_store_keeps_recorded; [lia| |by rewrite Hs7].
      intros [= Hacc Hid].
      assert (commentId c ∈ map commentId allComments) as Hfetched.
      { rewrite <- Hid. apply list_elem_of_fmap_2.
        unfold YouTube.unrepliedComments in Hbest.
        by apply list_elem_of_In, filter_In in Hbest as [?%list_elem_of_In _]. }
      destruct (youtube_recorded_replied accountId c _ allComments Hrec Hfetched)
        as [_ Hnone].
      rewrite Hacc in Hbest. rewrite Forall_forall in Hnone.
      by apply (Hnone best).
  - intros request env' s1 Hrec.
    destruct (reddit_keeps_POST request env' s1) as [_ _ Hsame _ _].
    by rewrite Hsame.
  - intros rows allComments. apply youtube_recorded_replied.
Qed.

Lemma youtube_recorded_comment_not_unreplied_witness :
  let c := Sample.comment "c1" "me" 9 in
  let s1 :=
    (YouTube.storeInteraction "acc" c "hello" "r1" Sample.env
       (Sample.store Sample.connected)).2 in
  let s2 := (YouTube.POST Sample.from_scheduler an_hour_later s1).2 in
  youtube_recorded "acc" c (youTubeCommentInteractions s2)
  /\ commentId c ∈ repliedCommentIds "acc" [c] (youTubeCommentInteractions s2).
Proof.
  intros c s1 s2.
  destruct (youtube_recorded_comment_not_unreplied Sample.env
              (Sample.store Sample.connected) "acc" c "hello" "r1")
    as (Hfirst & Hlater & _ & Hreplied).
  - by intros [].
  - discriminate.
  - vm_compute. discriminate.
  - vm_compute. discriminate.
  - apply Forall_nil. done.
  - assert (youtube_recorded "acc" c (youTubeCommentInteractions s2)) as Hrec.
    { apply Hlater; [vm_compute; discriminate|exact Hfirst]. }
    split; [exact Hrec|].
    apply (Hreplied _ [c] Hrec). apply list_elem_of_singleton. reflexivity.
Defined.

(** ** Keywords made of separators *)




(** ** A recorded post stays recorded *)

Lemma reddit_generator_rows (apiKey model systemPrompt postTitle postBody postAuthor
    subreddit : string) (orc : OpenRouterCredentials) :
  keeps reddit_rows_same
    (Reddit.generateReplyWithLLM apiKey model systemPrompt postTitle postBody
       postAuthor subreddit orc).
Proof. unfold Reddit.generateReplyWithLLM. repeat same_step. Qed.

Lemma reddit_comment_rows (accessToken postFullname text : string) :
  keeps reddit_rows_same (Reddit.postComment accessToken postFullname text).
Proof. unfold Reddit.postComment. repeat same_step. Qed.

Lemma reddit_findUnique_rows (accountId : string) :
  keeps reddit_rows_same (account_findUnique accountId).
Proof. unfold account_findUnique. repeat same_step. Qed.

Lemma reddit_findFirst_rows (accountId user : string) :
  keeps reddit_rows_same (account_findFirst accountId user).
Proof. unfold account_findFirst. repeat same_step. Qed.

#[global] Hint Resolve reddit_refresh_rows reddit_search_rows reddit_generator_rows
  reddit_comment_rows reddit_findUnique_rows reddit_findFirst_rows : footprint.

Lemma reddit_pipeline_rows (env : Env) (rows : list RedditInteraction)
    (accountId : string) (rc : RedditCredentials) (cfg : RedditConfiguration)
    (orc : OpenRouterCredentials) :
  from_rows redditInteractions env rows (Reddit.pipeline accountId rc cfg orc)
    (reddit_run_rows env accountId rows).
Proof.
  unfold Reddit.pipeline. cbv zeta. repeat rows_step reddit_rows_same.
  intros s Hs. right. do 3 eexists. exists s. by split.
Qed.

Lemma reddit_validate_rows (env : Env) (rows : list RedditInteraction)
    (accountId : string) (account : Account) :
  from_rows redditInteractions env rows (Reddit.validate accountId account)
    (reddit_run_rows env accountId rows).
Proof.
  unfold Reddit.validate.
  repeat first [ apply reddit_pipeline_rows | rows_step reddit_rows_same ].
Qed.

Lemma reddit_POST_rows (env : Env) (rows : list RedditInteraction)
    (request : Request) :
  from_rows redditInteractions env rows (Reddit.POST request)
    (reddit_run_rows env (requested request) rows).
Proof.
  unfold Reddit.POST, requested, Reddit.found.
  apply from_rows_try_catch; [|done].
  destruct (request_json request) as [b|]; cbv zeta.
  - repeat first [ apply reddit_validate_rows | rows_step reddit_rows_same ].
  - rows_step reddit_rows_same.
Qed.

(** The store step for an account that has fewer than a hundred rows
    removes no post from its replied set, whether the storage is
    available or not. *)
Lemma reddit_store_keeps_replied (env : Env) (s : State) (accountId : string)
    (targetPost : RedditPost) (generatedReply commentId : string) :
  (List.length
     (List.filter (fun r => String.eqb (ri_accountId r) accountId)
        (redditInteractions s)) < 100)%nat ->
  repliedPostIds accountId (redditInteractions s)
  ⊆ repliedPostIds accountId
      (redditInteractions
         (Reddit.storeInteraction accountId targetPost generatedReply commentId
            env s).2).
Proof.
  intros Hfew.
  assert (forall s0 : State,
            redditInteractions
              ((createLog accountId warning
                  "Comment posted but failed to record in database";;
                json (RepliedReddit (author targetPost) (title targetPost)
                        generatedReply) 200) env s0).2
            = redditInteractions s0) as Hcaught.
  { intros s0.
    assert (keeps reddit_rows_same
              (createLog accountId warning
                 "Comment posted but failed to record in database";;
               json (RepliedReddit (author targetPost) (title targetPost)
                       generatedReply) 200)) as Hkeeps by repeat same_step.
    apply Hkeeps. }
  unfold Reddit.storeInteraction. unfold bind at 1. unfold try_catch.
  unfold bind at 1.
  destruct (storage_down env InteractionUpsert) eqn:Hupsert.
  { unfold Reddit.interaction_upsert. unfold bind at 1.
    rewrite (storage_out _ _ _ Hupsert).
    unfold bind in Hcaught. unfold bind.
    specialize (Hcaught s).
    destruct (createLog _ _ _ env s) as [[[]|e] s1]; cbn [snd] in *;
      by rewrite Hcaught. }
  pose proof (reddit_upsert_account_rows env s accountId targetPost generatedReply
                commentId Hupsert) as [Hcount Hbefore].
  destruct (reddit_upsert_rows env s accountId targetPost generatedReply commentId
              Hupsert) as (s1 & Hs1 & _).
  rewrite Hs1 in *. cbn [snd] in Hcount, Hbefore.
  destruct (storage_down env InteractionFindMany) eqn:Hfind.
  - unfold Reddit.cleanup. unfold bind at 1. rewrite (storage_out _ _ _ Hfind).
    unfold bind in Hcaught. unfold bind.
    specialize (Hcaught s1).
    destruct (createLog _ _ _ env s1) as [[[]|e] s2]; cbn [snd] in *;
      by rewrite Hcaught.
  - rewrite reddit_cleanup_nothing; [done|done|lia].
Qed.

(** The rows of an account are among those of the accounts other than
    another one. *)
Lemma replied_of_others (accountId other : string) (rows : list RedditInteraction) :
  accountId <> other ->
  repliedPostIds accountId (others_reddit other rows) = repliedPostIds accountId rows.
Proof.
  intros Hother. unfold repliedPostIds, others_reddit. f_equal. f_equal.
  induction rows as [|r rows IH]; [done|]. cbn [List.filter].
  destruct (String.eqb (ri_accountId r) other) eqn:Hr; cbn [negb List.filter].
  - apply String.eqb_eq in Hr.
    destruct (String.eqb (ri_accountId r) accountId) eqn:Hmine; [|done].
    apply String.eqb_eq in Hmine. congruence.
  - destruct (String.eqb (ri_accountId r) accountId); by rewrite IH.
Qed.

(** X3.  Once the store step of a Reddit run (the upsert and the clean-up
    after it) has recorded a post for an account that had fewer than a
    hundred interaction rows, the replied set computed from the table
    holds the post and every post it held before, so the filter of a
    run rejects them whatever their upvotes and author.  A later
    Reddit run that starts while the account has fewer than a hundred
    rows, in a table whose row identifiers are unique, removes no post
    from the replied set of the account. *)
Theorem reddit_recorded_post_not_eligible (env : Env) (s : State)
    (accountId : string) (targetPost : RedditPost)
    (generatedReply commentId : string) :
  (forall op, storage_down env op = false) ->
  (List.length
     (List.filter (fun r => String.eqb (ri_accountId r) accountId)
        (redditInteractions s)) < 100)%nat ->
  let s' :=
    (Reddit.storeInteraction accountId targetPost generatedReply commentId
       env s).2 in
  let replied := repliedPostIds accountId (redditInteractions s') in
  id targetPost ∈ replied
  /\ repliedPostIds accountId (redditInteractions s) ⊆ replied
  /\ (forall minimum username posts,
        Forall (fun q => id q <> id targetPost
                         /\ id q ∉ repliedPostIds accountId (redditInteractions s))
          (Reddit.eligiblePosts replied minimum username posts))
  /\ (forall request env' s1,
        NoDup (map ri_id (redditInteractions s1)) ->
        new_id env' ∉ map ri_id (redditInteractions s1) ->
        (List.length
           (List.filter (fun r => String.eqb (ri_accountId r) accountId)
              (redditInteractions s1)) < 100)%nat ->
        repliedPostIds accountId (redditInteractions s1)
        ⊆ repliedPostIds accountId
            (redditInteractions (Reddit.POST request env' s1).2)).
Proof.
  intros Hup Hfew s' replied.
  pose proof (reddit_upsert_account_rows env s accountId targetPost generatedReply
                commentId (Hup _)) as [Hcount Hbefore].
  pose proof (reddit_upsert_has_row env s accountId targetPost generatedReply
                commentId (Hup _)) as (r & Hr & Hkey & _).
  destruct (reddit_upsert_rows env s accountId targetPost generatedReply commentId
              (Hup _)) as (s1 & Hs1 & _).
  rewrite Hs1 in Hcount, Hbefore, Hr. cbn [snd] in Hcount, Hbefore, Hr.
  assert (s' = s1) as Hs'.
  { subst s'. unfold Reddit.storeInteraction, bind, try_catch, bind.
    rewrite Hs1, reddit_cleanup_nothing; [done|done|lia]. }
  subst replied. rewrite Hs'. clear s' Hs'.
  assert (id targetPost ∈ repliedPostIds accountId (redditInteractions s1)) as Hin.
  { injection Hkey as Hacc Hpost.
    unfold repliedPostIds. apply elem_of_list_to_set.
    rewrite <- Hpost. apply list_elem_of_fmap_2.
    apply list_elem_of_In, filter_In. split; [by apply list_elem_of_In|].
    by apply String.eqb_eq. }
  split; [done|]. split; [done|]. split.
  - intros minimum username posts. apply Forall_forall. intros q Hq.
    unfold Reddit.eligiblePosts in Hq.
    apply list_elem_of_In, filter_In in Hq as [_ Hok].
    unfold Reddit.eligible in Hok. rewrite !andb_true_iff in Hok.
    destruct Hok as [[[H1 _] _] _].
    apply negb_true_iff, bool_decide_eq_false in H1.
    split; [intros Heq; apply H1; by rewrite Heq|].
    intros Hold. apply H1. by apply Hbefore.
  - intros request env' s2 Hnodup Hfresh Hfew'.
    destruct (decide (accountId = requested request)) as [Hsame|Hother].
    + destruct (reddit_POST_rows env' (redditInteractions s2) request s2 eq_refl)
        as [Hrows|(p & reply & cid & s7 & Hs7 & Hstored)].
      * by rewrite Hrows.
      * rewrite Hstored, <- Hsame, <- Hs7.
        apply reddit_store_keeps_replied. by rewrite Hs7.
    + destruct (reddit_keeps_POST request env' s2) as [_ Hkept _ _ _].
      destruct (Hkept (unique_ids_apart _ _ _ Hnodup Hfresh)) as [Hothers _].
      rewrite <- (replied_of_others accountId (requested request)
                    (redditInteractions (Reddit.POST request env' s2).2) Hother).
      rewrite Hothers. by rewrite replied_of_others.
Qed.

Lemma reddit_recorded_post_not_eligible_witness :
  let s1 :=
    (Reddit.storeInteraction "acc" (Sample.post "c" "carol" 20) "hello" "t1_x"
       Sample.env Sample.with_history).2 in
  let s2 := (Reddit.POST Sample.from_scheduler an_hour_later s1).2 in
  id (Sample.post "c" "carol" 20) ∈ repliedPostIds "acc" (redditInteractions s1)
  /\ repliedPostIds "acc" (redditInteractions Sample.with_history)
     ⊆ repliedPostIds "acc" (redditInteractions s1)
  /\ repliedPostIds "acc" (redditInteractions s1)
     ⊆ repliedPostIds "acc" (redditInteractions s2).
Proof.
  intros s1 s2.
  assert (forall op, storage_down Sample.env op = false) as Hup by reflexivity.
  assert (List.length
            (List.filter (fun r => String.eqb (ri_accountId r) "acc")
               (redditInteractions Sample.with_history)) < 100)%nat as Hfew
    by (vm_compute; lia).
  destruct (reddit_recorded_post_not_eligible Sample.env Sample.with_history "acc"
              (Sample.post "c" "carol" 20) "hello" "t1_x" Hup Hfew)
    as (Hin & Hbefore & _ & Hlater).
  split; [exact Hin|]. split; [exact Hbefore|].
  apply Hlater.
  - refine (bool_decide_unpack _ _). vm_compute. reflexivity.
  - refine (bool_decide_unpack _ _). vm_compute. reflexivity.
  - vm_compute. lia.
Defined.
